(** * jsonconfigparser: the layered configuration store and its text parser

    A shallow embedding of [jsonconfigparser.py]: the exception classes, the
    [JSONConfigParser] store with its layered lookup, the offset-driven scanner
    [read_string] with its four regular expressions, and the [SectionProxy]
    view.

    Conventions of the model.
    - A Python [str] holding the configuration text or a name is a [string];
      the model covers texts over the code points 0..255, and the classes
      [\w] and [\s] are Python's Unicode classes on that range.
    - A method that may raise returns a [result]; a method that mutates the
      parser returns the parser it leaves behind, also when it raises, since
      Python keeps the mutations done before an exception.
    - [OrderedDict] and [dict] are association lists in insertion order.
    - The module imports [MutableMapping] from [collections], so it loads
      on the CPython versions before 3.10; the messages of built-in errors
      have the wording of those versions. *)

From Stdlib Require Import String Ascii List Bool Arith NArith ZArith Lia.
From Stdlib Require Import DecimalString.
Import ListNotations.
Local Open Scope string_scope.
Set Warnings "-register-all".

(** ** The Python run time the module relies on *)

Module Py.

(** The exception classes the module defines, and the built-in ones that
    its code can let escape. *)
Inductive exc_class : Type :=
| BaseException
| ParseError
| MissingSectionHeaderError
| InvalidSectionNameError
| InvalidOptionNameError
| DuplicateSectionError
| DuplicateOptionError
| KeyError
| NoSectionError
| NoOptionError
| ValueError
| JSONDecodeError
| TypeError
| AttributeError
| IndexError
| NotImplementedError.

(** The direct base class inside this universe ([None] for the root and
    for built-in classes whose base is not listed above). *)
Definition base_class (c : exc_class) : option exc_class :=
  match c with
  | ParseError => Some BaseException
  | MissingSectionHeaderError | InvalidSectionNameError
  | InvalidOptionNameError | DuplicateSectionError
  | DuplicateOptionError => Some ParseError
  | NoSectionError | NoOptionError => Some KeyError
  | JSONDecodeError => Some ValueError
  | KeyError | ValueError | TypeError | AttributeError | IndexError
  | NotImplementedError => Some BaseException
  | BaseException => None
  end.

Definition exc_class_eqb (a b : exc_class) : bool :=
  match a, b with
  | BaseException, BaseException | ParseError, ParseError
  | MissingSectionHeaderError, MissingSectionHeaderError
  | InvalidSectionNameError, InvalidSectionNameError
  | InvalidOptionNameError, InvalidOptionNameError
  | DuplicateSectionError, DuplicateSectionError
  | DuplicateOptionError, DuplicateOptionError
  | KeyError, KeyError | NoSectionError, NoSectionError
  | NoOptionError, NoOptionError | ValueError, ValueError
  | JSONDecodeError, JSONDecodeError | TypeError, TypeError
  | AttributeError, AttributeError | IndexError, IndexError
  | NotImplementedError, NotImplementedError => true
  | _, _ => false
  end.

(** [issubclass c d], the hierarchy being three levels deep. *)
Definition issubclass (c d : exc_class) : bool :=
  exc_class_eqb c d
  || match base_class c with
     | Some b =>
         exc_class_eqb b d
         || match base_class b with
            | Some b' => exc_class_eqb b' d
            | None => false
            end
     | None => false
     end.

(** A raised exception: its class and the text of its single argument.  The
    wording of the messages of built-in errors follows CPython. *)
Record exn : Type := Exc { exc_type : exc_class; exc_message : string }.

Inductive result (A : Type) : Type :=
| Return (a : A)
| Raise (e : exn).
Arguments Return {A} a.
Arguments Raise {A} e.

Definition bind {A B : Type} (m : result A) (k : A -> result B) : result B :=
  match m with
  | Return a => k a
  | Raise e => Raise e
  end.

(** A [str] object.  [==] compares the characters; [is] compares objects: two
    strs are the same object when they sit at the same address, which
    implies that they hold the same characters. *)
Record str : Type := Str { str_addr : N; str_val : string }.

Definition py_eq (a b : str) : bool := String.eqb (str_val a) (str_val b).

Definition py_is (a b : str) : bool :=
  N.eqb (str_addr a) (str_addr b) && String.eqb (str_val a) (str_val b).

(** [repr] of a str without quotes, backslashes or unprintable characters,
    which is what a name matched by [[\-\w]+] is. *)
Definition repr (s : string) : string := "'" ++ s ++ "'".

(** *** Insertion-ordered dictionaries *)

Section Dict.
Context {K V : Type} (eqb : K -> K -> bool).

Definition dict : Type := list (K * V).

Fixpoint dict_get (k : K) (d : dict) : option V :=
  match d with
  | [] => None
  | (k', v) :: d' => if eqb k k' then Some v else dict_get k d'
  end.

Definition dict_contains (k : K) (d : dict) : bool :=
  match dict_get k d with
  | Some _ => true
  | None => false
  end.

(** [d[k] = v]: an existing key keeps its place, a new one goes last. *)
Fixpoint dict_set (k : K) (v : V) (d : dict) : dict :=
  match d with
  | [] => [(k, v)]
  | (k', v') :: d' =>
      if eqb k k' then (k', v) :: d' else (k', v') :: dict_set k v d'
  end.

(** The dict without its entry for [k]. *)
Fixpoint dict_del (k : K) (d : dict) : dict :=
  match d with
  | [] => []
  | (k', v') :: d' =>
      if eqb k k' then d' else (k', v') :: dict_del k d'
  end.

Definition dict_keys (d : dict) : list K := map fst d.

(** [del d[k]]; [None] stands for the [KeyError] of an absent key. *)
Definition dict_delitem (k : K) (d : dict) : option dict :=
  if dict_contains k d then Some (dict_del k d) else None.
End Dict.

(** Membership in a [set] of strs. *)
Definition set_contains (x : string) (s : list string) : bool :=
  existsb (String.eqb x) s.

Definition set_add (x : string) (s : list string) : list string :=
  if set_contains x s then s else x :: s.

End Py.

Export Py.

Declare Scope py_scope.
Delimit Scope py_scope with py.
Notation "x <- m ;; k" := (bind m (fun x => k))
(at level 61, m at next level, right associativity) : py_scope.
Notation "m ;;; k" := (bind m (fun _ => k))
(at level 61, right associativity) : py_scope.

(** ** JSON values *)

Module Json.

(** A decoded JSON value.  An integer literal is a Python [int]; a literal
    with a fraction or an exponent, and the constants [NaN], [Infinity] and
    [-Infinity], are Python floats and are kept as the literal they were read
    from.  A JSON string is a list of code points, since an escape may denote
    any of them. *)
Inductive value : Type :=
| JNull
| JBool (b : bool)
| JInt (z : Z)
| JFloat (literal : string)
| JString (s : list N)
| JArray (items : list value)
| JObject (members : list (list N * value)).


(** *** The decoder of the standard library *)

(** Modelled from the spec: the decoder [json.JSONDecoder().raw_decode] that
    [read_string] calls belongs to the standard library and is not among the
    sources of the repository.  The spec asks for a standard JSON value
    grammar (numbers, strings with escapes, booleans, null, arrays, objects,
    recursive); the definitions from here to [raw_decode] follow CPython's
    scanner ([json/scanner.py], [json/decoder.py] and the C string scanner)
    on the text that starts at the offset it is called with.  The positions
    that a [JSONDecodeError] reports are not modelled, only its message. *)

Definition decode_error (msg : string) : exn := Exc JSONDecodeError msg.

Definition is_digit (c : ascii) : bool :=
  let n := N_of_ascii c in (48 <=? n)%N && (n <=? 57)%N.

(** [WHITESPACE_STR = ' \t\n\r'] *)
Definition is_ws (c : ascii) : bool :=
  match c with
  | " "%char | "009"%char | "010"%char | "013"%char => true
  | _ => false
  end.

Fixpoint drop_while (p : ascii -> bool) (s : string) : string :=
  match s with
  | EmptyString => EmptyString
  | String c r => if p c then drop_while p r else s
  end.

Fixpoint take_while (p : ascii -> bool) (s : string) : string :=
  match s with
  | EmptyString => EmptyString
  | String c r => if p c then String c (take_while p r) else EmptyString
  end.

Fixpoint drop (n : nat) (s : string) : string :=
  match n, s with
  | O, _ => s
  | S n', String _ r => drop n' r
  | S _, EmptyString => EmptyString
  end.

Definition skip_ws (s : string) : string := drop_while is_ws s.

Definition starts_with (p s : string) : bool := String.prefix p s.

(** [int(digits)] for a run of decimal digits. *)
Fixpoint digits_value (s : string) (acc : Z) : Z :=
  match s with
  | EmptyString => acc
  | String c r => digits_value r (10 * acc + Z.of_N (N_of_ascii c - 48))%Z
  end.

Definition parse_int (integer : string) : Z :=
  match integer with
  | String c r =>
      if Ascii.eqb c "-" then (- digits_value r 0)%Z
      else digits_value integer 0%Z
  | EmptyString => 0%Z
  end.

(** The pieces of [NUMBER_RE]; each gives the text of its group and the text
    left after it. *)

(** An optional minus sign. *)
Definition number_sign (s : string) : string * string :=
  match s with
  | String c r => if Ascii.eqb c "-" then ("-", r) else ("", s)
  | EmptyString => ("", s)
  end.

(** A single zero, or a run of digits that does not start with zero. *)
Definition number_digits (s : string) : option (string * string) :=
  match s with
  | String c r =>
      if negb (is_digit c) then None
      else if Ascii.eqb c "0" then Some ("0", r)
      else Some (take_while is_digit s, drop_while is_digit s)
  | EmptyString => None
  end.

(** Optionally, a dot and at least one digit. *)
Definition number_frac (s : string) : string * string :=
  match s with
  | String c r =>
      if Ascii.eqb c "." then
        match take_while is_digit r with
        | EmptyString => ("", s)
        | d => ("." ++ d, drop_while is_digit r)
        end
      else ("", s)
  | EmptyString => ("", s)
  end.

(** Optionally, an exponent mark, an optional sign and at least one
    digit. *)
Definition number_exp (s : string) : string * string :=
  match s with
  | String e r =>
      if Ascii.eqb e "e" || Ascii.eqb e "E" then
        let '(esign, r1) :=
          match r with
          | String c r' =>
              if Ascii.eqb c "+" then ("+", r')
              else if Ascii.eqb c "-" then ("-", r')
              else ("", r)
          | EmptyString => ("", r)
          end in
        match take_while is_digit r1 with
        | EmptyString => ("", s)
        | d => (String e (esign ++ d), drop_while is_digit r1)
        end
      else ("", s)
  | EmptyString => ("", s)
  end.

(** [NUMBER_RE.match]: the three groups (integer part, fraction, exponent)
    and the text left after the match. *)
Definition match_number (s : string)
  : option (string * string * string * string) :=
  let '(sign, s1) := number_sign s in
  match number_digits s1 with
  | None => None
  | Some (digits, s2) =>
      let '(frac, s3) := number_frac s2 in
      let '(exp, s4) := number_exp s3 in
      Some (sign ++ digits, frac, exp, s4)
  end.

Definition hex_digit (c : ascii) : option N :=
  let n := N_of_ascii c in
  if (48 <=? n)%N && (n <=? 57)%N then Some (n - 48)%N
  else if (65 <=? n)%N && (n <=? 70)%N then Some (n - 55)%N
  else if (97 <=? n)%N && (n <=? 102)%N then Some (n - 87)%N
  else None.

Definition hex4 (a b c d : ascii) : option N :=
  match hex_digit a, hex_digit b, hex_digit c, hex_digit d with
  | Some x, Some y, Some z, Some w => Some (((x * 16 + y) * 16 + z) * 16 + w)%N
  | _, _, _, _ => None
  end.

(** [BACKSLASH]: the one-character escapes. *)
Definition BACKSLASH (esc : ascii) : option N :=
  match esc with
  | "034"%char => Some 34%N
  | "\"%char => Some 92%N
  | "/"%char => Some 47%N
  | "b"%char => Some 8%N
  | "f"%char => Some 12%N
  | "n"%char => Some 10%N
  | "r"%char => Some 13%N
  | "t"%char => Some 9%N
  | _ => None
  end.

Definition is_high_surrogate (u : N) : bool := (55296 <=? u)%N && (u <=? 56319)%N.
Definition is_low_surrogate (u : N) : bool := (56320 <=? u)%N && (u <=? 57343)%N.
Definition join_surrogates (hi lo : N) : N :=
  (65536 + (N.lor (N.shiftl (hi - 55296) 10) (lo - 56320)))%N.

(** [scanstring] in strict mode, on the text after the opening quote;
    [chunks] holds the code points read so far, last first. *)
Fixpoint scanstring (s : string) (chunks : list N) : result (list N * string) :=
  match s with
  | EmptyString => Raise (decode_error "Unterminated string starting at")
  | String c r =>
      if Ascii.eqb c "034" then Return (rev chunks, r)
      else if Ascii.eqb c "\" then
        match r with
        | EmptyString => Raise (decode_error "Unterminated string starting at")
        | String esc r1 =>
            if Ascii.eqb esc "u" then
              match r1 with
              | String h1 (String h2 (String h3 (String h4
                  ((String _ _) as r2)))) =>
                  match hex4 h1 h2 h3 h4 with
                  | None => Raise (decode_error "Invalid \uXXXX escape")
                  | Some uni =>
                      match r2 with
                      | String b (String u
                          (String g1 (String g2 (String g3 (String g4
                             ((String _ _) as r3)))))) =>
                          if Ascii.eqb b "\" && Ascii.eqb u "u"
                             && is_high_surrogate uni
                          then
                            match hex4 g1 g2 g3 g4 with
                            | None =>
                                Raise (decode_error "Invalid \uXXXX escape")
                            | Some uni2 =>
                                if is_low_surrogate uni2
                                then scanstring r3
                                       (join_surrogates uni uni2 :: chunks)
                                else scanstring r2 (uni :: chunks)
                            end
                          else scanstring r2 (uni :: chunks)
                      | _ => scanstring r2 (uni :: chunks)
                      end
                  end
              | _ => Raise (decode_error "Invalid \uXXXX escape")
              end
            else
              match BACKSLASH esc with
              | Some ch => scanstring r1 (ch :: chunks)
              | None => Raise (decode_error "Invalid \escape")
              end
        end
      else if (N_of_ascii c <? 32)%N
      then Raise (decode_error "Invalid control character at")
      else scanstring r (N_of_ascii c :: chunks)
  end.

Fixpoint codes_eqb (a b : list N) : bool :=
  match a, b with
  | [], [] => true
  | x :: a', y :: b' => N.eqb x y && codes_eqb a' b'
  | _, _ => false
  end.

(** [dict(pairs)]: a key keeps the place of its first occurrence and the
    value of its last one. *)
Definition dict_of_pairs (pairs : list (list N * value))
  : list (list N * value) :=
  fold_left (fun d kv => dict_set codes_eqb (fst kv) (snd kv) d) pairs [].

Definition number_value (integer frac exp : string) : value :=
  match frac, exp with
  | EmptyString, EmptyString => JInt (parse_int integer)
  | _, _ => JFloat (integer ++ frac ++ exp)
  end.

(** [scan_once] with [JSONArray] and [JSONObject].  [array_items] is the loop
    of [JSONArray], entered in front of a value; [object_members] is the loop
    of [JSONObject], entered after the opening quote of a key.  All three
    return the text that follows what they read.  The recursion follows the
    nesting of the value and is bounded by [fuel]; [None] means that the
    bound was reached. *)
Fixpoint scan_once (fuel : nat) (s : string) {struct fuel}
  : option (result (value * string)) :=
  match fuel with
  | O => None
  | S fuel' =>
      match s with
      | EmptyString => Some (Raise (decode_error "Expecting value"))
      | String c r =>
          if Ascii.eqb c "034" then
            Some (match scanstring r [] with
                  | Return (chars, r') => Return (JString chars, r')
                  | Raise e => Raise e
                  end)
          else if Ascii.eqb c "{" then
            match skip_ws r with
            | String c1 r' =>
                if Ascii.eqb c1 "}" then Some (Return (JObject [], r'))
                else if Ascii.eqb c1 "034" then object_members fuel' r' []
                else
                  Some (Raise (decode_error
                    "Expecting property name enclosed in double quotes"))
            | EmptyString =>
                Some (Raise (decode_error
                  "Expecting property name enclosed in double quotes"))
            end
          else if Ascii.eqb c "[" then
            match skip_ws r with
            | String c1 r' =>
                if Ascii.eqb c1 "]" then Some (Return (JArray [], r'))
                else array_items fuel' (String c1 r') []
            | EmptyString => array_items fuel' EmptyString []
            end
          else if starts_with "null" s then Some (Return (JNull, drop 4 s))
          else if starts_with "true" s
          then Some (Return (JBool true, drop 4 s))
          else if starts_with "false" s
          then Some (Return (JBool false, drop 5 s))
          else
            match match_number s with
            | Some (integer, frac, exp, rest) =>
                Some (Return (number_value integer frac exp, rest))
            | None =>
                if starts_with "NaN" s
                then Some (Return (JFloat "NaN", drop 3 s))
                else if starts_with "Infinity" s
                then Some (Return (JFloat "Infinity", drop 8 s))
                else if starts_with "-Infinity" s
                then Some (Return (JFloat "-Infinity", drop 9 s))
                else Some (Raise (decode_error "Expecting value"))
            end
      end
  end

with array_items (fuel : nat) (s : string) (values : list value)
  {struct fuel} : option (result (value * string)) :=
  match fuel with
  | O => None
  | S fuel' =>
      match scan_once fuel' s with
      | None => None
      | Some (Raise e) => Some (Raise e)
      | Some (Return (v, r)) =>
          match skip_ws r with
          | String c r' =>
              if Ascii.eqb c "]"
              then Some (Return (JArray (rev (v :: values)), r'))
              else if Ascii.eqb c ","
              then array_items fuel' (skip_ws r') (v :: values)
              else Some (Raise (decode_error "Expecting ',' delimiter"))
          | EmptyString =>
              Some (Raise (decode_error "Expecting ',' delimiter"))
          end
      end
  end

with object_members (fuel : nat) (s : string)
  (pairs : list (list N * value))
  {struct fuel} : option (result (value * string)) :=
  match fuel with
  | O => None
  | S fuel' =>
      match scanstring s [] with
      | Raise e => Some (Raise e)
      | Return (key, r) =>
          match skip_ws r with
          | String c r1 =>
              if negb (Ascii.eqb c ":")
              then Some (Raise (decode_error "Expecting ':' delimiter"))
              else
                match scan_once fuel' (skip_ws r1) with
                | None => None
                | Some (Raise e) => Some (Raise e)
                | Some (Return (v, r2)) =>
                    match skip_ws r2 with
                    | String c2 r3 =>
                        if Ascii.eqb c2 "}" then
                          Some (Return
                            (JObject (dict_of_pairs (rev ((key, v) :: pairs))),
                             r3))
                        else if Ascii.eqb c2 "," then
                          match skip_ws r3 with
                          | String c3 r4 =>
                              if Ascii.eqb c3 "034"
                              then object_members fuel' r4 ((key, v) :: pairs)
                              else
                                Some (Raise (decode_error
                                  "Expecting property name enclosed in double quotes"))
                          | EmptyString =>
                              Some (Raise (decode_error
                                "Expecting property name enclosed in double quotes"))
                          end
                        else
                          Some (Raise (decode_error "Expecting ',' delimiter"))
                    | EmptyString =>
                        Some (Raise (decode_error "Expecting ',' delimiter"))
                    end
                end
          | EmptyString =>
              Some (Raise (decode_error "Expecting ':' delimiter"))
          end
      end
  end.

(** [raw_decode(s, idx)]: the value that starts at [idx] and the offset at
    which it ends. *)
Definition raw_decode (s : string) (idx : nat)
  : option (result (value * nat)) :=
  match scan_once (S (2 * String.length s)) (drop idx s) with
  | None => None
  | Some (Raise e) => Some (Raise e)
  | Some (Return (v, rest)) =>
      Some (Return (v, String.length s - String.length rest))
  end.

End Json.

Export Json.

(** ** The exception classes of the module *)

Module Errors.

(** The keyword arguments that [ParseError.__init__] looks at. *)
Record kwargs : Type := Kwargs {
  kw_filename : option string;
  kw_section : option string;
  kw_lineno : option nat;
  kw_line : option string
}.

Definition no_kwargs : kwargs := Kwargs None None None None.

(** A positional argument handed to a constructor by this module. *)
Inductive arg : Type :=
| AStr (s : string)
| ANone
| AInt (n : nat).

Definition str_of_nat (n : nat) : string :=
  NilEmpty.string_of_uint (Nat.to_uint n).

Definition arg_repr (a : arg) : string :=
  match a with
  | AStr s => repr s
  | ANone => "None"
  | AInt n => str_of_nat n
  end.

Definition arg_str (a : arg) : string :=
  match a with
  | AStr s => s
  | ANone => "None"
  | AInt n => str_of_nat n
  end.

Definition arg_of_option (o : option string) : arg :=
  match o with
  | Some s => AStr s
  | None => ANone
  end.

Definition info_entry (label : string) (v : option string) : list string :=
  match v with
  | Some x => [label ++ x]
  | None => []
  end.

(** [ParseError.__init__(self, message, **kwargs)] run for an instance of
    [cls] with a str [message]: the exception that a [raise cls(...)]
    statement lets escape.  The body calls [message.append], which a str
    does not have, as soon as a keyword argument asks for context. *)
Definition ParseError__init__ (cls : exc_class) (message : string)
  (kw : kwargs) : exn :=
  let info :=
    (info_entry "file: " (kw_filename kw)
     ++ info_entry "section: " (kw_section kw)
     ++ info_entry "line: " (option_map str_of_nat (kw_lineno kw)))%list in
  match info, kw_line kw with
  | _ :: _, _ | [], Some _ =>
      Exc AttributeError "'str' object has no attribute 'append'"
  | [], None => Exc cls message
  end.

(** What a call with [given] positional arguments raises when [__init__]
    takes [self] and one more. *)
Definition too_many_arguments (given : nat) : exn :=
  Exc TypeError
    ("__init__() takes 2 positional arguments but "
       ++ str_of_nat (S given) ++ " were given").

(** A call of [ParseError] with positional and keyword arguments. *)
Definition new_ParseError (args : list string) (kw : kwargs) : exn :=
  match args with
  | [message] => ParseError__init__ ParseError message kw
  | [] =>
      Exc TypeError
        "__init__() missing 1 required positional argument: 'message'"
  | _ => too_many_arguments (List.length args)
  end.

(** A call of [DuplicateSectionError], whose [__init__] takes the section
    and keyword arguments. *)
Definition new_DuplicateSectionError (args : list arg) (kw : kwargs) : exn :=
  match args with
  | [section] =>
      ParseError__init__ DuplicateSectionError
        ("Section " ++ arg_repr section ++ " already declared") kw
  | [] =>
      Exc TypeError
        "__init__() missing 1 required positional argument: 'section'"
  | _ => too_many_arguments (List.length args)
  end.

(** A call of [DuplicateOptionError], whose [__init__] takes the option
    and keyword arguments. *)
Definition new_DuplicateOptionError (args : list arg) (kw : kwargs) : exn :=
  match args with
  | [option] =>
      ParseError__init__ DuplicateOptionError
        ("Duplicate definition of option: " ++ arg_repr option) kw
  | [] =>
      Exc TypeError
        "__init__() missing 1 required positional argument: 'option'"
  | _ => too_many_arguments (List.length args)
  end.

(** [MissingSectionHeaderError(filename, lineno, line)]; no statement of the
    module raises it. *)
Definition new_MissingSectionHeaderError (filename : arg) (lineno : nat)
  (line : string) : exn :=
  Exc MissingSectionHeaderError
    ("No section header before first option." ++ String "010" "file: "
       ++ arg_str filename ++ ", line: " ++ str_of_nat lineno
       ++ String "010" (repr line)).

(** The classes that derive from [ParseError], itself included. *)
Definition is_parse_error (e : exn) : bool := issubclass (exc_type e) ParseError.

End Errors.

Export Errors.

(** ** class JSONConfigParser *)

Module JSONConfigParser.

Definition odict (V : Type) : Type := list (string * V).

(** What [self._sections] holds for a section.  [add_section] stores
    [ChainMap({}, self._defaults)]: its first map is the section's own
    dict, its second is the very object [self._defaults], which the parser
    never rebinds, so the layer seen through it is always the parser's
    current defaults.  [read_string] stores [self._dict()], a bare
    [OrderedDict]. *)
Inductive section_map : Type :=
| ChainMap (own : odict value)
| OrderedDict (own : odict value).

(** [SectionProxy(parser, name)]: the parser is the store that the methods
    of the view are run on; the view keeps the name. *)
Record section_proxy : Type := SectionProxy { _name : str }.

Record t : Type := Build {
  _default_section : str;
  _defaults : odict value;
  _sections : odict section_map;
  _proxies : odict section_proxy
}.

(** A str object made at run time (a group of a match).  Its address is
    never looked at: the one [is] test of the class compares with the name
    of the default section, and the scanner stores only other names. *)
Definition new_str (val : string) : str := Str 0 val.

(** The attributes that an instance has: those of the instance, of the
    class, and the mixin methods of [MutableMapping]. *)
Definition attribute_names : list string :=
  [ "_dict"; "_default_section"; "_defaults"; "_sections"; "_proxies";
    "_BLANK_TMPL"; "_HEADER_TMPL"; "_KEY_TMPL"; "_EOL_TMPL";
    "_blank_re"; "_header_re"; "_key_re"; "_eol_re"; "_json_decoder";
    "__init__"; "sections"; "add_section"; "has_section"; "remove_section";
    "__getitem__"; "__setitem__"; "__delitem__"; "__contains__"; "__len__";
    "__iter__"; "options"; "get"; "has_option"; "set"; "read"; "read_file";
    "read_dict"; "read_string"; "default_section";
    "keys"; "items"; "values"; "pop"; "popitem"; "clear"; "update";
    "setdefault"; "__eq__"; "__ne__" ].

(** [self.name] for a name that is looked up but not used by the model:
    it raises when the instance has no such attribute. *)
Definition getattr (name : string) : result unit :=
  if existsb (String.eqb name) attribute_names then Return tt
  else Raise (Exc AttributeError
         ("'JSONConfigParser' object has no attribute " ++ repr name)).

(** The module constant [DEFAULT_SECT = 'DEFAULT']; a literal ['DEFAULT']
    in a caller is this same interned object. *)
Definition DEFAULT_SECT : str := Str 1 "DEFAULT".

Definition default_section (self : t) : str := _default_section self.

(** *** Mappings as the lookups see them *)

(** A read-only view of a mapping: [m k] is [Some m[k]], and [None] when
    [k not in m]. *)
Definition mapping : Type := string -> option value.

Definition dict_mapping (d : odict value) : mapping :=
  fun k => dict_get String.eqb k d.

(** [ChainMap(first, second)]: the first map that has the key wins. *)
Definition chain (first second : mapping) : mapping :=
  fun k =>
    match first k with
    | Some v => Some v
    | None => second k
    end.

Definition section_mapping (self : t) (m : section_map) : mapping :=
  match m with
  | ChainMap own => chain (dict_mapping own) (dict_mapping (_defaults self))
  | OrderedDict own => dict_mapping own
  end.

Definition contains (m : mapping) (k : string) : bool :=
  match m k with
  | Some _ => true
  | None => false
  end.

(** [m[option] = value] on what [self._sections] holds: a [ChainMap] writes
    to its first map. *)
Definition section_setitem (m : section_map) (option : string) (v : value)
  : section_map :=
  match m with
  | ChainMap own => ChainMap (dict_set String.eqb option v own)
  | OrderedDict own => OrderedDict (dict_set String.eqb option v own)
  end.

(** [m.clear()]: a [ChainMap] clears its first map. *)
Definition section_clear (m : section_map) : section_map :=
  match m with
  | ChainMap _ => ChainMap []
  | OrderedDict _ => OrderedDict []
  end.

(** The section's own dict. *)
Definition section_own (m : section_map) : odict value :=
  match m with
  | ChainMap own | OrderedDict own => own
  end.

(** *** The store *)

Definition read_dict (self : t) (dictionary : odict (odict value))
  : t * result unit :=
  (self, Raise (Exc NotImplementedError "")).

(** [JSONConfigParser(defaults, default_section=...)] with the default
    [dict_type].  [if defaults:] is false for [None] and for an empty
    mapping. *)
Definition __init__ (defaults : option (odict value)) (default_section : str)
  : result t :=
  let self :=
    {| _default_section := default_section;
       _defaults := [];
       _sections := [];
       _proxies :=
         [(str_val default_section, SectionProxy default_section)] |} in
  match defaults with
  | Some ((_ :: _) as d) =>
      match read_dict self [(str_val default_section, d)] with
      | (_, Raise e) => Raise e
      | (self', Return _) => Return self'
      end
  | _ => Return self
  end.

Definition sections (self : t) : list string :=
  dict_keys (_sections self).

Definition has_section (self : t) (section : str) : bool :=
  dict_contains String.eqb (str_val section) (_sections self).

Definition add_section (self : t) (section : str) : t * result unit :=
  if py_eq section (default_section self) then
    (self, Raise (Exc ValueError
                    ("Invalid section name: " ++ repr (str_val section))))
  else if dict_contains String.eqb (str_val section) (_sections self) then
    (self, Raise (new_DuplicateSectionError [AStr (str_val section)]
                    no_kwargs))
  else
    ({| _default_section := _default_section self;
        _defaults := _defaults self;
        _sections :=
          dict_set String.eqb (str_val section) (ChainMap [])
            (_sections self);
        _proxies :=
          dict_set String.eqb (str_val section) (SectionProxy section)
            (_proxies self) |},
     Return tt).

Definition remove_section (self : t) (section : str) : t * result bool :=
  let existed := dict_contains String.eqb (str_val section) (_sections self) in
  if existed then
    let self1 :=
      {| _default_section := _default_section self;
         _defaults := _defaults self;
         _sections := dict_del String.eqb (str_val section) (_sections self);
         _proxies := _proxies self |} in
    match dict_delitem String.eqb (str_val section) (_proxies self) with
    | None => (self1, Raise (Exc KeyError (str_val section)))
    | Some proxies =>
        ({| _default_section := _default_section self;
            _defaults := _defaults self;
            _sections := _sections self1;
            _proxies := proxies |},
         Return existed)
    end
  else (self, Return existed).

Definition __getitem__ (self : t) (key : str) : result section_proxy :=
  if negb (py_eq key (default_section self)) && negb (has_section self key)
  then Raise (Exc KeyError (str_val key))
  else
    match dict_get String.eqb (str_val key) (_proxies self) with
    | Some proxy => Return proxy
    | None => Raise (Exc KeyError (str_val key))
    end.

Definition __setitem__ (self : t) (key : str) (value : odict value)
  : t * result unit :=
  let self' :=
    if py_eq key (default_section self) then
      {| _default_section := _default_section self;
         _defaults := [];
         _sections := _sections self;
         _proxies := _proxies self |}
    else
      match dict_get String.eqb (str_val key) (_sections self) with
      | Some m =>
          {| _default_section := _default_section self;
             _defaults := _defaults self;
             _sections :=
               dict_set String.eqb (str_val key) (section_clear m)
                 (_sections self);
             _proxies := _proxies self |}
      | None => self
      end in
  read_dict self' [(str_val key, value)].

Definition __delitem__ (self : t) (key : str) : t * result unit :=
  if py_eq key (default_section self) then
    (self, Raise (Exc ValueError "Cannot remove the default section."))
  else
    match remove_section self key with
    | (self', Raise e) => (self', Raise e)
    | (self', Return existed) =>
        if negb existed then (self', Raise (Exc KeyError (str_val key)))
        else (self', Return tt)
    end.

(** [key in self.sections] tests membership in a bound method. *)
Definition __contains__ (self : t) (key : str) : result bool :=
  if py_eq key (default_section self) then Return true
  else Raise (Exc TypeError "argument of type 'method' is not iterable").

Definition __len__ (self : t) : nat := List.length (_sections self) + 1.

Definition __iter__ (self : t) : list string :=
  str_val (default_section self) :: dict_keys (_sections self).

(** [return self._section.keys()]: the attribute is looked up first. *)
Definition options (self : t) (section : str) : result (list string) :=
  if negb (has_section self section)
  then Raise (Exc NoSectionError (str_val section))
  else (getattr "_section" ;;; Return [])%py.

(** [fallback] is [None] for [_UNSET]; [vars] is [None] when not given. *)
Definition get (self : t) (section : str) (option : string)
  (fallback : Datatypes.option value) (vars : Datatypes.option (odict value))
  : result value :=
  (section_dict <-
     (if py_is section (default_section self)
      then Return (dict_mapping (_defaults self))
      else
        match dict_get String.eqb (str_val section) (_sections self) with
        | Some m => Return (section_mapping self m)
        | None => Raise (Exc NoSectionError (str_val section))
        end) ;;
   let section_dict :=
     match vars with
     | Some v => chain (dict_mapping v) section_dict
     | None => section_dict
     end in
   match section_dict option with
   | Some v => Return v
   | None =>
       match fallback with
       | None => Raise (Exc NoOptionError option)
       | Some f => Return f
       end
   end)%py.

(** [not section] holds for the empty str. *)
Definition falsy (section : str) : bool := String.eqb (str_val section) "".

Definition has_option (self : t) (section : str) (option : string) : bool :=
  if falsy section || py_eq section (default_section self) then
    contains (dict_mapping (_defaults self)) option
  else
    match dict_get String.eqb (str_val section) (_sections self) with
    | Some m =>
        contains (section_mapping self m) option
        || contains (dict_mapping (_defaults self)) option
    | None => false
    end.

Definition set (self : t) (section : str) (option : string) (v : value)
  : t * result unit :=
  if falsy section || py_eq section (default_section self) then
    ({| _default_section := _default_section self;
        _defaults := dict_set String.eqb option v (_defaults self);
        _sections := _sections self;
        _proxies := _proxies self |},
     Return tt)
  else
    match dict_get String.eqb (str_val section) (_sections self) with
    | None => (self, Raise (Exc NoSectionError (str_val section)))
    | Some sectdict =>
        ({| _default_section := _default_section self;
            _defaults := _defaults self;
            _sections :=
              dict_set String.eqb (str_val section)
                (section_setitem sectdict option v) (_sections self);
            _proxies := _proxies self |},
         Return tt)
    end.

(** *** The regular expressions of the scanner

    Each is compiled with [re.VERBOSE | re.MULTILINE], so [^] holds at offset
    0 and just after a line feed, also when the match is asked for at a
    later offset.  [pattern.match(string, pos)] is modelled by a function
    from the text and the offset to the match object, if any.  Every
    quantifier below is followed by something its own characters cannot
    start, so the greedy choice is the only one that can succeed. *)

Record match_object : Type := Match { group : string; mo_end : nat }.

(** [\w] on the code points 0..255: [str.isalnum] or underscore. *)
Definition is_word (c : ascii) : bool :=
  let n := N_of_ascii c in
  ((48 <=? n) && (n <=? 57) || (65 <=? n) && (n <=? 90)
   || (n =? 95) || (97 <=? n) && (n <=? 122)
   || (n =? 170) || (n =? 178) || (n =? 179) || (n =? 181)
   || (n =? 185) || (n =? 186) || (188 <=? n) && (n <=? 190)
   || (192 <=? n) && (n <=? 214) || (216 <=? n) && (n <=? 246)
   || (248 <=? n))%N.

(** [[\-\w]] *)
Definition is_name_char (c : ascii) : bool := Ascii.eqb c "-" || is_word c.

(** [\s] on the code points 0..255 *)
Definition is_space (c : ascii) : bool :=
  let n := N_of_ascii c in
  ((9 <=? n) && (n <=? 13) || (28 <=? n) && (n <=? 32)
   || (n =? 133) || (n =? 160))%N.

(** [[\n\r]] *)
Definition is_newline (c : ascii) : bool :=
  Ascii.eqb c "010" || Ascii.eqb c "013".

(** [^] under [re.MULTILINE] *)
Definition at_line_start (s : string) (pos : nat) : bool :=
  match pos with
  | O => true
  | S p =>
      match String.get p s with
      | Some c => Ascii.eqb c "010"
      | None => false
      end
  end.

(** The tail shared by three of the patterns: a run of line terminators
    and then one more line terminator or the end of the text.  It matches
    when the run is not empty or the text ends, and then spans the run. *)
Definition match_eol (s : string) (pos : nat) : option nat :=
  let r := drop pos s in
  match String.length (take_while is_newline r), drop_while is_newline r with
  | O, String _ _ => None
  | k, _ => Some (pos + k)
  end.

Definition _eol_re (s : string) (pos : nat) : option match_object :=
  option_map (Match "") (match_eol s pos).

(** [_BLANK_TMPL]: an optional comment, then the tail. *)
Definition _blank_re (s : string) (pos : nat) : option match_object :=
  if at_line_start s pos then
    let without_comment := option_map (Match "") (match_eol s pos) in
    match drop pos s with
    | String c r =>
        if Ascii.eqb c "#" then
          let k :=
            String.length (take_while (fun c => negb (is_newline c)) r) in
          match match_eol s (pos + 1 + k) with
          | Some e => Some (Match "" e)
          | None => without_comment
          end
        else without_comment
    | EmptyString => without_comment
    end
  else None.

(** [_HEADER_TMPL]: a bracketed name, then the tail; the group is the
    section name. *)
Definition _header_re (s : string) (pos : nat) : option match_object :=
  if at_line_start s pos then
    match drop pos s with
    | String c r =>
        if Ascii.eqb c "[" then
          let section := take_while is_name_char r in
          match section, drop_while is_name_char r with
          | String _ _, String c' _ =>
              if Ascii.eqb c' "]" then
                option_map (Match section)
                  (match_eol s (pos + 1 + String.length section + 1))
              else None
          | _, _ => None
          end
        else None
    | EmptyString => None
    end
  else None.

(** [_KEY_TMPL]: a name, white space, [=], white space; the group is the
    key. *)
Definition _key_re (s : string) (pos : nat) : option match_object :=
  if at_line_start s pos then
    let r := drop pos s in
    let key := take_while is_name_char r in
    let r1 := drop_while is_name_char r in
    match key, drop_while is_space r1 with
    | String _ _, String c r2 =>
        if Ascii.eqb c "=" then
          Some (Match key
                  (pos + String.length key
                   + String.length (take_while is_space r1) + 1
                   + String.length (take_while is_space r2)))
        else None
    | _, _ => None
    end
  else None.

(** *** read_string *)

(** The dict that the local [cursect] refers to.  It is an alias of an
    object owned by the parser, so an assignment through it changes the
    parser. *)
Inductive cursect_ref : Type :=
| cursect_None
| cursect_defaults
| cursect_section (name : string).

(** The parser and the locals of [read_string] at the head of its loop. *)
Record scan_state : Type := Scan {
  self_ : t;
  sections_added : list string;
  entries_added : list string;
  sectname : Datatypes.option string;
  cursect : cursect_ref;
  idx : nat;
  lineno : nat
}.

(** How one run of the loop body ends. *)
Inductive step : Type :=
| Next (st : scan_state)
| Raised (self : t) (e : exn).

(** [cursect[optname] = optval] *)
Definition cursect_setitem (self : t) (cur : cursect_ref) (optname : string)
  (optval : value) : result t :=
  match cur with
  | cursect_None =>
      Raise (Exc TypeError
               "'NoneType' object does not support item assignment")
  | cursect_defaults =>
      Return {| _default_section := _default_section self;
                _defaults := dict_set String.eqb optname optval (_defaults self);
                _sections := _sections self;
                _proxies := _proxies self |}
  | cursect_section name =>
      match dict_get String.eqb name (_sections self) with
      | Some m =>
          Return {| _default_section := _default_section self;
                    _defaults := _defaults self;
                    _sections :=
                      dict_set String.eqb name
                        (section_setitem m optname optval) (_sections self);
                    _proxies := _proxies self |}
      | None => Return self
      end
  end.

(** The body of [while idx < len(string)].  [None] stands for a decoder
    that reached its recursion bound. *)
Definition loop_body (string : string)
  (fpname : Datatypes.option String.string)
  (st : scan_state) : Datatypes.option step :=
  let self := self_ st in
  match String.get (idx st) string with
  | None => Some (Raised self (Exc IndexError "string index out of range"))
  | Some c =>
      if Ascii.eqb c "[" then
        match _header_re string (idx st) with
        | None => Some (Raised self (new_ParseError [] no_kwargs))
        | Some mo =>
            let sectname := group mo in
            if set_contains sectname (sections_added st) then
              Some (Raised self
                      (new_DuplicateSectionError [AStr sectname] no_kwargs))
            else
              let sections_added := set_add sectname (sections_added st) in
              let entries_added := [] in
              let '(self, cursect) :=
                if String.eqb sectname (str_val (default_section self))
                then (self, cursect_defaults)
                else if dict_contains String.eqb sectname (_sections self)
                then (self, cursect_section sectname)
                else
                  ({| _default_section := _default_section self;
                      _defaults := _defaults self;
                      _sections :=
                        dict_set String.eqb sectname (OrderedDict [])
                          (_sections self);
                      _proxies :=
                        dict_set String.eqb sectname
                          (SectionProxy (new_str sectname))
                          (_proxies self) |},
                   cursect_section sectname) in
              Some (Next (Scan self sections_added entries_added
                            (Some sectname) cursect (mo_end mo) (lineno st)))
        end
      else if Ascii.eqb c "#" || Ascii.eqb c "010" || Ascii.eqb c "013" then
        match _blank_re string (idx st) with
        | None =>
            Some (Raised self
                    (Exc AttributeError
                       "'NoneType' object has no attribute 'end'"))
        | Some mo =>
            Some (Next (Scan self (sections_added st) (entries_added st)
                          (sectname st) (cursect st) (mo_end mo) (lineno st)))
        end
      else
        match _key_re string (idx st) with
        | None =>
            Some (Raised self
                    (new_ParseError
                       ["expected section, option, comment or empty line"]
                       no_kwargs))
        | Some mo =>
            let optname := group mo in
            let idx := mo_end mo in
            if set_contains optname (entries_added st) then
              Some (Raised self
                      (new_DuplicateOptionError
                         [arg_of_option (sectname st); AStr optname;
                          arg_of_option fpname; AInt (lineno st)]
                         no_kwargs))
            else
              let entries_added := set_add optname (entries_added st) in
              match raw_decode string idx with
              | None => None
              | Some (Raise e) => Some (Raised self e)
              | Some (Return (optval, idx)) =>
                  match cursect_setitem self (cursect st) optname optval with
                  | Raise e => Some (Raised self e)
                  | Return self =>
                      match _eol_re string idx with
                      | None =>
                          Some (Raised self
                                  (new_ParseError
                                     ["unexpected symbol or whitespace"]
                                     no_kwargs))
                      | Some mo =>
                          Some (Next (Scan self (sections_added st)
                                        entries_added (sectname st)
                                        (cursect st) (mo_end mo) (lineno st)))
                      end
                  end
              end
        end
  end.

(** The loop.  Every run of the body that does not raise moves [idx]
    forward, so [fuel] at the length of the text is never used up. *)
Fixpoint read_loop (fuel : nat) (string : string)
  (fpname : Datatypes.option String.string) (st : scan_state)
  : Datatypes.option (t * result unit) :=
  if Nat.ltb (idx st) (String.length string) then
    match fuel with
    | O => None
    | S fuel' =>
        match loop_body string fpname st with
        | None => None
        | Some (Raised self e) => Some (self, Raise e)
        | Some (Next st') => read_loop fuel' string fpname st'
        end
    end
  else Some (self_ st, Return tt).

Definition scan_start (self : t) : scan_state :=
  Scan self [] [] None cursect_None 0 0.

Definition read_string (self : t) (string : string)
  (fpname : Datatypes.option String.string)
  : Datatypes.option (t * result unit) :=
  read_loop (String.length string) string fpname (scan_start self).

(** [read_file(fp)] on a file object whose [read()] gives [content]. *)
Definition read_file (self : t) (content : string)
  : Datatypes.option (t * result unit) :=
  read_string self content None.

(** What [open(f, 'r')] followed by [fp.read()] gives for a file name: the
    content, or [None] for the [OSError] of a file that cannot be opened. *)
Definition files : Type := String.string -> Datatypes.option String.string.

(** The loop of [read] over the names: an [OSError] goes to the next name,
    any other exception ends the loop; [None] is the [None] of
    [read_string]. *)
Fixpoint read_each (self : t) (fs : files) (filenames : list String.string)
  : Datatypes.option (t * result unit) :=
  match filenames with
  | [] => Some (self, Return tt)
  | f :: rest =>
      match fs f with
      | None => read_each self fs rest
      | Some content =>
          match read_file self content with
          | None => None
          | Some (self', Raise e) => Some (self', Raise e)
          | Some (self', Return _) => read_each self' fs rest
          end
      end
  end.

(** The argument [filenames] of [read]: a str or a list of strs. *)
Inductive filenames_arg : Type :=
| one_name (f : String.string)
| names (l : list String.string).

(** [read(filenames, encoding=None)]; the body does not use [encoding]. *)
Definition read (self : t) (fs : files) (filenames : filenames_arg)
  : Datatypes.option (t * result unit) :=
  read_each self fs
    match filenames with
    | one_name f => [f]
    | names l => l
    end.

End JSONConfigParser.

(** ** class SectionProxy *)

Module SectionProxy.

Import JSONConfigParser.

Definition __getitem__ (self : section_proxy) (parser : t) (key : string)
  : result value :=
  if negb (has_option parser (_name self) key)
  then Raise (Exc KeyError key)
  else get parser (_name self) key None None.

Definition __setitem__ (self : section_proxy) (parser : t) (key : string)
  (v : value) : t * result unit :=
  match getattr "_validate_value_types" with
  | Raise e => (parser, Raise e)
  | Return _ => set parser (_name self) key v
  end.

Definition __delitem__ (self : section_proxy) (parser : t) (key : string)
  : t * result unit :=
  if has_option parser (_name self) key then
    match getattr "remove_option" with
    | Raise e => (parser, Raise e)
    | Return _ => (parser, Raise (Exc KeyError key))
    end
  else (parser, Raise (Exc KeyError key)).

Definition __contains__ (self : section_proxy) (parser : t) (key : string)
  : bool :=
  has_option parser (_name self) key.

Definition _options (self : section_proxy) (parser : t)
  : result (list string) :=
  if negb (py_eq (_name self) (default_section parser))
  then options parser (_name self)
  else (getattr "defaults" ;;; Return [])%py.

Definition __len__ (self : section_proxy) (parser : t) : result nat :=
  (keys <- _options self parser ;; Return (List.length keys))%py.

Definition __iter__ (self : section_proxy) (parser : t)
  : result (list string) :=
  _options self parser.

Definition get (self : section_proxy) (parser : t) (option : string)
  (fallback : Datatypes.option value) (vars : Datatypes.option (odict value))
  : result value :=
  JSONConfigParser.get parser (_name self) option fallback vars.

End SectionProxy.

(** ** Vocabulary of the statements *)

Module Spec.

Import JSONConfigParser.

(** The parser that [JSONConfigParser()] builds. *)
Definition fresh : t :=
  {| _default_section := DEFAULT_SECT;
     _defaults := [];
     _sections := [];
     _proxies := [("DEFAULT", SectionProxy DEFAULT_SECT)] |}.

Definition LF : string := String "010" "".

Definition QUOTE : string := String "034" "".

(** The code points of a str, as a decoded JSON string holds them. *)
Definition codes (s : string) : list N :=
  map N_of_ascii (list_ascii_of_string s).


(** What the methods of the class keep true of the parser: the default
    section is not among the sections, no section is stored twice, and
    every section has its proxy. *)
Definition class_invariant (self : t) : Prop :=
  dict_contains String.eqb (str_val (default_section self)) (_sections self)
    = false
  /\ NoDup (dict_keys (_sections self))
  /\ (forall k,
        dict_contains String.eqb k (_sections self) = true ->
        dict_contains String.eqb k (_proxies self) = true).

(** What holds at the head of the loop of [read_string]: the class
    invariant, and [cursect], when it refers to a section, refers to a
    stored one. *)
Definition scan_invariant (st : scan_state) : Prop :=
  class_invariant (self_ st)
  /\ (forall name,
        cursect st = cursect_section name ->
        dict_contains String.eqb name (_sections (self_ st)) = true).

(** [cur[key]] for the dict that the local [cursect] refers to; [None] when
    the key is absent. *)
Definition cursect_getitem (self : t) (cur : cursect_ref) (key : string)
  : Datatypes.option value :=
  match cur with
  | cursect_None => None
  | cursect_defaults => dict_get String.eqb key (_defaults self)
  | cursect_section name =>
      match dict_get String.eqb name (_sections self) with
      | Some m => dict_get String.eqb key (section_own m)
      | None => None
      end
  end.

(** [l'] is [l] followed by more elements. *)
Definition is_prefix {A : Type} (l l' : list A) : Prop :=
  exists rest, l' = (l ++ rest)%list.

(** The two objects are of the same class. *)
Definition same_class (m m' : section_map) : Prop :=
  match m, m' with
  | ChainMap _, ChainMap _ | OrderedDict _, OrderedDict _ => True
  | _, _ => False
  end.

(** [self'] holds all that [self] holds, in the same order, and maybe more:
    the same default section name, the option names of the defaults and the
    section names of [self] at the head of those of [self'], and for each
    section of [self] an object of the same class whose own option names
    start with those it had. *)
Definition grows (self self' : t) : Prop :=
  _default_section self' = _default_section self
  /\ is_prefix (dict_keys (_defaults self)) (dict_keys (_defaults self'))
  /\ is_prefix (dict_keys (_sections self)) (dict_keys (_sections self'))
  /\ (forall name m,
        dict_get String.eqb name (_sections self) = Some m ->
        exists m',
          dict_get String.eqb name (_sections self') = Some m'
          /\ same_class m m'
          /\ is_prefix (dict_keys (section_own m))
               (dict_keys (section_own m'))).

(** Two states of the scanner that differ at most in the parser and in
    which dict [cursect] refers to. *)
Definition same_scan (st st' : scan_state) : Prop :=
  sections_added st = sections_added st'
  /\ entries_added st = entries_added st'
  /\ sectname st = sectname st'
  /\ idx st = idx st'
  /\ lineno st = lineno st'
  /\ (cursect st = cursect_None <-> cursect st' = cursect_None).

(** At the head of the loop, the dict that [cursect] refers to was
    announced by a header of this call: its name was added to
    [sections_added]; a section it refers to is stored and is not named as
    the default section. *)
Definition cursect_registered (st : scan_state) : Prop :=
  match cursect st with
  | cursect_None => True
  | cursect_defaults =>
      set_contains (str_val (_default_section (self_ st))) (sections_added st)
      = true
  | cursect_section n =>
      set_contains n (sections_added st) = true
      /\ dict_contains String.eqb n (_sections (self_ st)) = true
      /\ String.eqb n (str_val (_default_section (self_ st))) = false
  end.

(** The dict [ref] holds [v] for [key], under a header of this call, and
    the scanner knows the key as long as it is in that section. *)
Definition entry_kept (ref : cursect_ref) (key : string) (v : value)
  (st : scan_state) : Prop :=
  cursect_getitem (self_ st) ref key = Some v
  /\ match ref with
     | cursect_None => False
     | cursect_defaults =>
         set_contains (str_val (_default_section (self_ st)))
           (sections_added st) = true
     | cursect_section n => set_contains n (sections_added st) = true
     end
  /\ (cursect st = ref -> set_contains key (entries_added st) = true).

(** The text does not begin with a character that satisfies [p]. *)
Definition no_leading (p : ascii -> bool) (s : string) : Prop :=
  match s with
  | String c _ => p c = false
  | EmptyString => True
  end.

(** The line of the header of section [name]. *)
Definition header_line (name : string) : string := "[" ++ name ++ "]" ++ LF.

(** The text does not begin with a line terminator. *)
Definition no_leading_newline (s : string) : Prop :=
  match s with
  | String c _ => is_newline c = false
  | EmptyString => True
  end.

(** Every character of the text satisfies [p]. *)
Fixpoint all_chars (p : ascii -> bool) (s : string) : bool :=
  match s with
  | EmptyString => true
  | String c r => p c && all_chars p r
  end.

(** A name as the patterns of the scanner want it: one or more characters
    of [[\-\w]]. *)
Definition is_name (s : string) : bool :=
  match s with
  | EmptyString => false
  | String _ _ => all_chars is_name_char s
  end.

(** A space or a tab. *)
Definition is_hspace (c : ascii) : bool :=
  Ascii.eqb c " " || Ascii.eqb c "009".

(** The text has a line whose first character is a space or a tab:
    [line_start] tells whether [s] begins a line. *)
Fixpoint has_indented_line_from (line_start : bool) (s : string) : bool :=
  match s with
  | EmptyString => false
  | String c r =>
      line_start && is_hspace c || has_indented_line_from (is_newline c) r
  end.

Definition has_indented_line (s : string) : bool :=
  has_indented_line_from true s.

(** [scans string fpname st st']: from the head of the loop in state [st],
    some number of runs of the body, none of which raises, lead to the head
    of the loop in state [st']. *)
Inductive scans (string : string) (fpname : Datatypes.option String.string)
  : scan_state -> scan_state -> Prop :=
| scans_here st : scans string fpname st st
| scans_next st st' st'' :
    idx st < String.length string ->
    loop_body string fpname st = Some (Next st') ->
    scans string fpname st' st'' ->
    scans string fpname st st''.

(** A bare carriage return, the line end of some older files. *)
Definition CR : string := String "013" "".

(** What the methods keep true of the views in [self._proxies]: the view
    kept for the default section holds the very str object that names it,
    and a view kept under a name is a view of a section of that name. *)
Definition proxies_invariant (self : t) : Prop :=
  dict_get String.eqb (str_val (default_section self)) (_proxies self)
    = Some (SectionProxy (default_section self))
  /\ (forall k p, In (k, p) (_proxies self) -> str_val (_name p) = k).


End Spec.

Import JSONConfigParser Spec.

(** * Dictionaries *)

Section DictFacts.

Context {V : Type}.
Implicit Types (d : list (string * V)) (k : string) (v : V).

Lemma dict_get_set_same k v d :
  dict_get String.eqb k (dict_set String.eqb k v d) = Some v.
Proof.
  induction d as [|[k' v'] d IH]; simpl.
  - now rewrite String.eqb_refl.
  - destruct (String.eqb k k') eqn:E; simpl; rewrite E; auto.
Qed.

Lemma dict_get_set_other k k' v d :
  k <> k' ->
  dict_get String.eqb k (dict_set String.eqb k' v d) = dict_get String.eqb k d.
Proof.
  intros Hne. induction d as [|[k1 v1] d IH]; simpl.
  - apply String.eqb_neq in Hne. now rewrite Hne.
  - destruct (String.eqb k' k1) eqn:E; simpl.
    + apply String.eqb_eq in E. subst k1.
      apply String.eqb_neq in Hne. now rewrite Hne.
    + now rewrite IH.
Qed.

Lemma dict_contains_In k d :
  dict_contains String.eqb k d = true <-> In k (dict_keys d).
Proof.
  unfold dict_contains. induction d as [|[k' v'] d IH]; simpl.
  - split; [discriminate | tauto].
  - destruct (String.eqb k k') eqn:E.
    + apply String.eqb_eq in E. subst. split; auto.
    + apply String.eqb_neq in E. rewrite IH. split; [tauto|].
      intros [H|H]; [congruence | exact H].
Qed.

Lemma dict_contains_set k k' v d :
  dict_contains String.eqb k (dict_set String.eqb k' v d)
  = String.eqb k k' || dict_contains String.eqb k d.
Proof.
  unfold dict_contains. destruct (String.eqb k k') eqn:E.
  - apply String.eqb_eq in E. subst. now rewrite dict_get_set_same.
  - apply String.eqb_neq in E. now rewrite dict_get_set_other.
Qed.

Lemma dict_keys_set k v d :
  dict_keys (dict_set String.eqb k v d)
  = if dict_contains String.eqb k d then dict_keys d
    else (dict_keys d ++ [k])%list.
Proof.
  unfold dict_contains. induction d as [|[k' v'] d IH]; simpl; auto.
  destruct (String.eqb k k') eqn:E; simpl; auto.
  rewrite IH. now destruct (dict_get String.eqb k d).
Qed.

Lemma dict_keys_set_NoDup k v d :
  NoDup (dict_keys d) -> NoDup (dict_keys (dict_set String.eqb k v d)).
Proof.
  intros Hnd. rewrite dict_keys_set.
  destruct (dict_contains String.eqb k d) eqn:E; auto.
  apply NoDup_app; auto.
  - constructor; [simpl; tauto | constructor].
  - intros x Hx [Hk|[]]. subst x.
    apply dict_contains_In in Hx. congruence.
Qed.

Lemma dict_keys_del_incl k d x :
  In x (dict_keys (dict_del String.eqb k d)) -> In x (dict_keys d).
Proof.
  induction d as [|[k' v'] d IH]; simpl; auto.
  destruct (String.eqb k k'); simpl; tauto.
Qed.

Lemma dict_keys_del_NoDup k d :
  NoDup (dict_keys d) -> NoDup (dict_keys (dict_del String.eqb k d)).
Proof.
  induction d as [|[k' v'] d IH]; simpl; auto.
  intros Hnd. inversion Hnd as [|? ? Hnot Hnd']. subst.
  destruct (String.eqb k k'); simpl; auto.
  constructor; auto.
  intros Hin. apply Hnot. eapply dict_keys_del_incl. exact Hin.
Qed.

Lemma dict_contains_del_same k d :
  NoDup (dict_keys d) -> dict_contains String.eqb k (dict_del String.eqb k d) = false.
Proof.
  intros Hnd.
  destruct (dict_contains String.eqb k (dict_del String.eqb k d)) eqn:E; auto.
  exfalso. apply dict_contains_In in E. revert Hnd E.
  induction d as [|[k' v'] d IH]; simpl; auto.
  intros Hnd. inversion Hnd as [|? ? Hnot Hnd']. subst.
  destruct (String.eqb k k') eqn:Ek; simpl.
  - apply String.eqb_eq in Ek. subst. exact Hnot.
  - apply String.eqb_neq in Ek. intros [H|H]; [congruence | auto].
Qed.

Lemma dict_contains_del_other k k' d :
  k <> k' ->
  dict_contains String.eqb k (dict_del String.eqb k' d)
  = dict_contains String.eqb k d.
Proof.
  intros Hne. unfold dict_contains.
  induction d as [|[k1 v1] d IH]; simpl; auto.
  destruct (String.eqb k' k1) eqn:E; simpl.
  - apply String.eqb_eq in E. subst k1.
    apply String.eqb_neq in Hne. now rewrite Hne.
  - destruct (String.eqb k k1); auto.
Qed.

End DictFacts.

(** * The store *)

Lemma init_without_defaults : __init__ None DEFAULT_SECT = Return fresh.
Proof. reflexivity. Qed.

Lemma py_is_py_eq a b : py_is a b = true -> py_eq a b = true.
Proof. unfold py_is, py_eq. now intros [_ H]%andb_true_iff. Qed.

(** The lookup order of [get] in a section that [add_section] made:
    overrides, own entries, defaults. *)
Lemma get_in_ChainMap_section self section own option fallback vars :
  py_is section (default_section self) = false ->
  dict_get String.eqb (str_val section) (_sections self) = Some (ChainMap own) ->
  get self section option fallback vars =
    match
      chain
        (match vars with Some v => dict_mapping v | None => fun _ => None end)
        (chain (dict_mapping own) (dict_mapping (_defaults self))) option
    with
    | Some v => Return v
    | None =>
        match fallback with
        | None => Raise (Exc NoOptionError option)
        | Some f => Return f
        end
    end.
Proof.
  intros His Hsec. unfold get. rewrite His, Hsec. simpl.
  destruct vars as [v|]; unfold chain; simpl; reflexivity.
Qed.

(** The lookup order of [get] in a section that [read_string] made:
    overrides, own entries, and nothing else. *)
Lemma get_in_OrderedDict_section self section own option fallback vars :
  py_is section (default_section self) = false ->
  dict_get String.eqb (str_val section) (_sections self)
    = Some (OrderedDict own) ->
  get self section option fallback vars =
    match
      chain
        (match vars with Some v => dict_mapping v | None => fun _ => None end)
        (dict_mapping own) option
    with
    | Some v => Return v
    | None =>
        match fallback with
        | None => Raise (Exc NoOptionError option)
        | Some f => Return f
        end
    end.
Proof.
  intros His Hsec. unfold get. rewrite His, Hsec. simpl.
  destruct vars as [v|]; unfold chain; simpl; reflexivity.
Qed.

Lemma add_section_makes_ChainMap self section self' :
  add_section self section = (self', Return tt) ->
  dict_get String.eqb (str_val section) (_sections self') = Some (ChainMap []).
Proof.
  unfold add_section.
  destruct (py_eq section (default_section self)); [discriminate|].
  destruct (dict_contains String.eqb (str_val section) (_sections self));
    [discriminate|].
  intros H. injection H as <-. simpl. apply dict_get_set_same.
Qed.



(** ** The class invariant *)

Lemma fresh_invariant : class_invariant fresh.
Proof.
  repeat split.
  - constructor.
  - discriminate.
Qed.

Lemma add_section_invariant self section :
  class_invariant self -> class_invariant (fst (add_section self section)).
Proof.
  intros (Hdef & Hnd & Hprox). unfold add_section.
  destruct (py_eq section (default_section self)) eqn:Heq; [now repeat split|].
  destruct (dict_contains String.eqb (str_val section) (_sections self))
    eqn:Hin; [now repeat split|].
  simpl. repeat split; simpl.
  - unfold default_section in *. simpl. rewrite dict_contains_set, Hdef.
    unfold py_eq in Heq. rewrite String.eqb_sym, Heq. reflexivity.
  - now apply dict_keys_set_NoDup.
  - intros k. rewrite !dict_contains_set.
    destruct (String.eqb k (str_val section)); simpl; auto.
Qed.

Lemma set_invariant self section option v :
  class_invariant self -> class_invariant (fst (set self section option v)).
Proof.
  intros (Hdef & Hnd & Hprox). unfold set.
  destruct (falsy section || py_eq section (default_section self));
    [now repeat split|].
  destruct (dict_get String.eqb (str_val section) (_sections self)) as [m|]
    eqn:Hm; [|now repeat split].
  assert (Hin : dict_contains String.eqb (str_val section) (_sections self)
                = true) by (unfold dict_contains; now rewrite Hm).
  simpl. repeat split; simpl.
  - unfold default_section in *. simpl. rewrite dict_contains_set, Hdef.
    destruct (String.eqb (str_val (_default_section self)) (str_val section))
      eqn:E; auto.
    apply String.eqb_eq in E. rewrite <- E in Hin. congruence.
  - now apply dict_keys_set_NoDup.
  - intros k. rewrite dict_contains_set.
    destruct (String.eqb k (str_val section)) eqn:E; simpl; auto.
    apply String.eqb_eq in E. subst k. intros _. now apply Hprox.
Qed.

Lemma remove_section_invariant self section :
  class_invariant self -> class_invariant (fst (remove_section self section)).
Proof.
  intros (Hdef & Hnd & Hprox). unfold remove_section.
  destruct (dict_contains String.eqb (str_val section) (_sections self))
    eqn:Hin; [|now repeat split].
  unfold dict_delitem. rewrite (Hprox _ Hin). simpl.
  assert (Hne : str_val (_default_section self) <> str_val section).
  { intros E. unfold default_section in Hdef. rewrite E in Hdef. congruence. }
  repeat split; simpl.
  - unfold default_section in *. simpl.
    now rewrite dict_contains_del_other.
  - now apply dict_keys_del_NoDup.
  - intros k.
    destruct (String.eqb k (str_val section)) eqn:E.
    + apply String.eqb_eq in E. subst k.
      now rewrite dict_contains_del_same.
    + apply String.eqb_neq in E. rewrite !dict_contains_del_other by exact E.
      apply Hprox.
Qed.

(** C5, as the code has it: [remove_section] returns whether the section
    was stored and never raises; for the name of the default section, which
    is never stored, it returns [False] and leaves the parser as it was.
    The error for the default section is that of [__delitem__]. *)
Theorem remove_section_returns_existed (self : t) (section : str) :
  class_invariant self ->
  snd (remove_section self section) = Return (has_section self section)
  /\ (py_eq section (default_section self) = true ->
      remove_section self section = (self, Return false)
      /\ __delitem__ self section
         = (self, Raise (Exc ValueError "Cannot remove the default section."))).
Proof.
  intros (Hdef & Hnd & Hprox). split.
  - unfold remove_section, has_section.
    destruct (dict_contains String.eqb (str_val section) (_sections self))
      eqn:Hin; [|reflexivity].
    unfold dict_delitem. now rewrite (Hprox _ Hin).
  - intros Heq. split.
    + unfold remove_section. unfold py_eq in Heq. apply String.eqb_eq in Heq.
      rewrite Heq, Hdef. reflexivity.
    + unfold __delitem__. now rewrite Heq.
Qed.

Lemma remove_section_returns_existed_witness :
  snd (remove_section (fst (add_section fresh (Str 7 "s"))) (Str 7 "s"))
  = Return true
  /\ remove_section fresh DEFAULT_SECT = (fresh, Return false).
Proof.
  split.
  - apply (proj1 (remove_section_returns_existed
                    (fst (add_section fresh (Str 7 "s"))) (Str 7 "s")
                    (add_section_invariant fresh (Str 7 "s") fresh_invariant))).
  - apply (proj2 (remove_section_returns_existed
                    fresh DEFAULT_SECT fresh_invariant)).
    reflexivity.
Defined.

(** C5 as stated fails: removing the default section from a new parser
    raises nothing; the call returns [False]. *)
Lemma remove_section_default_returns_False :
  remove_section fresh DEFAULT_SECT = (fresh, Return false)
  /\ forall e, snd (remove_section fresh DEFAULT_SECT) <> Raise e.
Proof. split; [reflexivity | discriminate]. Qed.

(** C6: for a stored section [options] raises [AttributeError], since the
    parser has no attribute [_section]; for any other name it raises
    [NoSectionError]. *)
Theorem options_of_stored_section_raises (self : t) (section : str) :
  (has_section self section = true ->
   options self section
   = Raise (Exc AttributeError
              "'JSONConfigParser' object has no attribute '_section'"))
  /\ (has_section self section = false ->
      options self section = Raise (Exc NoSectionError (str_val section))).
Proof.
  unfold options. split; intros ->; reflexivity.
Qed.

Lemma options_of_stored_section_raises_witness :
  let self := fst (add_section fresh (Str 7 "s")) in
  has_section self (Str 7 "s") = true
  /\ options self (Str 7 "s")
     = Raise (Exc AttributeError
                "'JSONConfigParser' object has no attribute '_section'")
  /\ options self (Str 8 "other") = Raise (Exc NoSectionError "other").
Proof.
  intros self. split; [reflexivity | split].
  - apply (proj1 (options_of_stored_section_raises self (Str 7 "s"))).
    reflexivity.
  - apply (proj2 (options_of_stored_section_raises self (Str 8 "other"))).
    reflexivity.
Defined.

(** C7, as the code has it: without initial defaults, or with an empty
    mapping, the constructor gives a parser with no section and no default;
    a mapping that is not empty goes to [read_dict], which is not
    implemented, and the constructor raises. *)
Theorem init_empty_or_NotImplemented (default_section : str) :
  (forall defaults, defaults = None \/ defaults = Some [] ->
     exists self,
       __init__ defaults default_section = Return self
       /\ _sections self = [] /\ _defaults self = []
       /\ _default_section self = default_section)
  /\ (forall d, d <> [] ->
        __init__ (Some d) default_section
        = Raise (Exc NotImplementedError "")).
Proof.
  split.
  - intros defaults [-> | ->]; eexists; simpl; repeat split.
  - intros [|kv d] Hd; [congruence | reflexivity].
Qed.

Lemma init_empty_or_NotImplemented_witness :
  (exists self,
     __init__ None DEFAULT_SECT = Return self
     /\ _sections self = [] /\ _defaults self = []
     /\ _default_section self = DEFAULT_SECT)
  /\ __init__ (Some [("a", JInt 1)]) DEFAULT_SECT
     = Raise (Exc NotImplementedError "").
Proof.
  split.
  - apply (proj1 (init_empty_or_NotImplemented DEFAULT_SECT) None).
    left. reflexivity.
  - apply (proj2 (init_empty_or_NotImplemented DEFAULT_SECT)).
    discriminate.
Defined.

(** C7 as stated fails: with the defaults [{"a": 1}] the constructor does
    not return a parser. *)
Lemma init_with_defaults_raises :
  __init__ (Some [("a", JInt 1)]) DEFAULT_SECT
  = Raise (Exc NotImplementedError "")
  /\ forall self, __init__ (Some [("a", JInt 1)]) DEFAULT_SECT <> Return self.
Proof. split; [reflexivity | discriminate]. Qed.

(** C8: item assignment on a view raises [AttributeError] before it reaches
    [set], for every view, parser, key and value, and leaves the parser
    unchanged: the parser has no [_validate_value_types]. *)
Theorem proxy_setitem_raises_AttributeError
  (proxy : section_proxy) (parser : t) (key : string) (v : value) :
  SectionProxy.__setitem__ proxy parser key v
  = (parser,
     Raise (Exc AttributeError
              "'JSONConfigParser' object has no attribute '_validate_value_types'")).
Proof. reflexivity. Qed.

(** The failing input of C8: [cfg['DEFAULT']['k'] = 1] on a new parser, after
    which [get] still does not find ['k']. *)
Lemma proxy_setitem_on_new_parser :
  exists proxy,
    JSONConfigParser.__getitem__ fresh DEFAULT_SECT = Return proxy
    /\ SectionProxy.__setitem__ proxy fresh "k" (JInt 1)
       = (fresh,
          Raise (Exc AttributeError
                   "'JSONConfigParser' object has no attribute '_validate_value_types'"))
    /\ get fresh DEFAULT_SECT "k" None None = Raise (Exc NoOptionError "k").
Proof. eexists. repeat split. Qed.

(** * The scanner *)

Lemma take_while_head p c r c' r' :
  take_while p (String c r) = String c' r' -> c' = c /\ p c = true.
Proof.
  simpl. destruct (p c); [|discriminate]. intros [= <- _]. auto.
Qed.

Lemma name_char_not_special c :
  is_name_char c = true ->
  Ascii.eqb c "[" = false
  /\ (Ascii.eqb c "#" || Ascii.eqb c "010" || Ascii.eqb c "013") = false.
Proof.
  intros Hc. split.
  - destruct (Ascii.eqb c "[") eqn:E; auto.
    apply Ascii.eqb_eq in E. subst c. discriminate.
  - destruct (Ascii.eqb c "#") eqn:E1.
    { apply Ascii.eqb_eq in E1. subst c. discriminate. }
    destruct (Ascii.eqb c "010") eqn:E2.
    { apply Ascii.eqb_eq in E2. subst c. discriminate. }
    destruct (Ascii.eqb c "013") eqn:E3; auto.
    apply Ascii.eqb_eq in E3. subst c. discriminate.
Qed.

(** C3: a second assignment to the same key under one header makes
    [read_string] raise [TypeError], since [DuplicateOptionError] is called
    with four positional arguments and takes one; a second header with the
    same name raises [DuplicateSectionError]. *)
Theorem duplicate_option_raises_TypeError :
  (exists self,
     read_string fresh
       ("[s]" ++ LF ++ "a = 1" ++ LF ++ "a = 2" ++ LF) None
     = Some (self,
             Raise (Exc TypeError
                      "__init__() takes 2 positional arguments but 5 were given")))
  /\ (exists self,
        read_string fresh ("[s]" ++ LF ++ "[s]" ++ LF) None
        = Some (self,
                Raise (Exc DuplicateSectionError
                         "Section 's' already declared"))).
Proof. split; eexists; reflexivity. Qed.

(** No exception built by [ParseError.__init__] carries context: either the
    message is the one it was given, or the constructor itself failed. *)
Lemma ParseError_carries_no_context cls message kw :
  ParseError__init__ cls message kw = Exc cls message
  \/ exc_type (ParseError__init__ cls message kw) = AttributeError.
Proof.
  unfold ParseError__init__.
  destruct (info_entry "file: " (kw_filename kw)
            ++ info_entry "section: " (kw_section kw)
            ++ info_entry "line: " (option_map str_of_nat (kw_lineno kw)))%list;
    destruct (kw_line kw); auto.
Qed.

(** C9: a header that is not closed makes [read_string] raise [TypeError],
    which is no parse error, because [ParseError] is called without its
    message; a value that is not JSON lets the [JSONDecodeError] of the
    decoder through; and the syntax error of a line that matches nothing
    has a message and no file name, line number or line. *)
Theorem malformed_header_raises_TypeError :
  read_string fresh ("[section" ++ LF) None
  = Some (fresh,
          Raise (Exc TypeError
                   "__init__() missing 1 required positional argument: 'message'"))
  /\ is_parse_error
       (Exc TypeError
          "__init__() missing 1 required positional argument: 'message'")
     = false
  /\ (exists self,
        read_string fresh ("[s]" ++ LF ++ "a = @" ++ LF) None
        = Some (self, Raise (Exc JSONDecodeError "Expecting value")))
  /\ read_string fresh ("a b" ++ LF) (Some "app.cfg")
     = Some (fresh,
             Raise (Exc ParseError
                      "expected section, option, comment or empty line")).
Proof. repeat split. eexists. reflexivity. Qed.

(** C10 as stated fails: this text has a line that begins with two
    spaces, and [read_string] accepts it, the white space after [=]
    reaching over the end of the line. *)
Lemma indented_value_line_is_accepted :
  let text := "[s]" ++ LF ++ "x =" ++ LF ++ "  1" ++ LF in
  has_indented_line text = true
  /\ exists self,
       read_string fresh text None = Some (self, Return tt)
       /\ get self (Str 7 "s") "x" None None = Return (JInt 1).
Proof. split; [reflexivity | eexists; split; reflexivity]. Qed.

(** ** How far the decoder and the patterns reach *)

Lemma take_drop_while_length p s :
  String.length (take_while p s) + String.length (drop_while p s)
  = String.length s.
Proof.
  induction s as [|c r IH]; simpl; auto.
  destruct (p c); simpl; lia.
Qed.

Lemma drop_while_length p s :
  String.length (drop_while p s) <= String.length s.
Proof. pose proof (take_drop_while_length p s). lia. Qed.

Lemma drop_length n s : String.length (drop n s) = String.length s - n.
Proof.
  revert s. induction n as [|n IH]; intros [|c r]; simpl; auto.
Qed.

Lemma get_drop n s c :
  String.get n s = Some c <-> exists r, drop n s = String c r.
Proof.
  revert s. induction n as [|n IH]; intros [|c' r]; simpl.
  - split; [discriminate | intros [? [=]]].
  - split; [intros [= ->]; eauto | intros [? [= -> _]]; auto].
  - split; [discriminate | intros [? [=]]].
  - apply IH.
Qed.

Lemma get_Some_lt n s c : String.get n s = Some c -> n < String.length s.
Proof.
  intros [r Hr]%get_drop.
  pose proof (drop_length n s) as H. rewrite Hr in H. simpl in H. lia.
Qed.

Lemma scanstring_shorter n :
  forall s chunks chars r,
    String.length s <= n ->
    scanstring s chunks = Return (chars, r) ->
    String.length r < String.length s.
Proof.
  induction n as [|n IH]; intros s chunks chars r Hlen.
  - destruct s; [discriminate | simpl in Hlen; lia].
  - destruct s as [|c s1]; [discriminate|]. simpl in Hlen. simpl scanstring.
    destruct (Ascii.eqb c "034").
    { intros [= _ <-]. simpl. lia. }
    destruct (Ascii.eqb c "\").
    + destruct s1 as [|esc s2]; [discriminate|]. simpl in Hlen.
      destruct (Ascii.eqb esc "u").
      * destruct s2 as [|h1 [|h2 [|h3 [|h4 [|c5 s3]]]]]; try discriminate.
        simpl in Hlen.
        destruct (hex4 h1 h2 h3 h4) as [uni|]; [|discriminate].
        assert (Hplain : forall chunks',
                   scanstring (String c5 s3) chunks' = Return (chars, r) ->
                   String.length r
                   < String.length
                       (String c (String esc (String h1 (String h2
                          (String h3 (String h4 (String c5 s3)))))))).
        { intros chunks' H. apply IH in H; simpl in *; lia. }
        destruct s3 as [|u [|g1 [|g2 [|g3 [|g4 [|c7 s4]]]]]];
          try apply Hplain.
        destruct (Ascii.eqb c5 "\" && Ascii.eqb u "u" && is_high_surrogate uni);
          [|apply Hplain].
        destruct (hex4 g1 g2 g3 g4) as [uni2|]; [|discriminate].
        destruct (is_low_surrogate uni2); [|apply Hplain].
        intros H. apply IH in H; simpl in *; lia.
      * destruct (BACKSLASH esc); [|discriminate].
        intros H. apply IH in H; simpl in *; lia.
    + destruct (N_of_ascii c <? 32)%N; [discriminate|].
      intros H. apply IH in H; simpl in *; lia.
Qed.

Lemma number_sign_length s g r :
  number_sign s = (g, r) -> String.length r <= String.length s.
Proof.
  unfold number_sign. destruct s as [|c s']; [intros [= _ <-]; auto|].
  destruct (Ascii.eqb c "-"); intros [= _ <-]; simpl; lia.
Qed.

Lemma number_digits_length s g r :
  number_digits s = Some (g, r) -> String.length r < String.length s.
Proof.
  unfold number_digits. destruct s as [|c s']; [discriminate|].
  destruct (is_digit c) eqn:Hd; [|discriminate]. simpl negb. cbv iota.
  destruct (Ascii.eqb c "0"); intros [= _ <-]; simpl; [lia|].
  rewrite Hd. pose proof (drop_while_length is_digit s'). lia.
Qed.

Lemma number_frac_length s g r :
  number_frac s = (g, r) -> String.length r <= String.length s.
Proof.
  unfold number_frac. destruct s as [|c s']; [intros [= _ <-]; auto|].
  destruct (Ascii.eqb c "."); [|intros [= _ <-]; auto].
  pose proof (drop_while_length is_digit s').
  destruct (take_while is_digit s'); intros [= _ <-]; simpl; lia.
Qed.

Lemma number_exp_length s g r :
  number_exp s = (g, r) -> String.length r <= String.length s.
Proof.
  unfold number_exp. destruct s as [|e s']; [intros [= _ <-]; auto|].
  destruct (Ascii.eqb e "e" || Ascii.eqb e "E"); [|intros [= _ <-]; auto].
  destruct s' as [|c s''].
  - simpl. intros [= _ <-]. auto.
  - pose proof (drop_while_length is_digit s'').
    pose proof (drop_while_length is_digit (String c s'')).
    destruct (Ascii.eqb c "+"); [|destruct (Ascii.eqb c "-")];
      match goal with
      | |- context [take_while is_digit ?x] =>
          destruct (take_while is_digit x)
      end; intros [= _ <-]; simpl in *; lia.
Qed.

Lemma match_number_shorter s integer frac exp r :
  match_number s = Some (integer, frac, exp, r) ->
  String.length r < String.length s.
Proof.
  unfold match_number.
  destruct (number_sign s) as [sign s1] eqn:H1.
  destruct (number_digits s1) as [[digits s2]|] eqn:H2; [|discriminate].
  destruct (number_frac s2) as [f s3] eqn:H3.
  destruct (number_exp s3) as [x s4] eqn:H4.
  intros [= _ _ _ <-].
  apply number_sign_length in H1. apply number_digits_length in H2.
  apply number_frac_length in H3. apply number_exp_length in H4. lia.
Qed.

Lemma skip_ws_length s : String.length (skip_ws s) <= String.length s.
Proof. apply drop_while_length. Qed.

Lemma drop_shorter n c r :
  0 < n -> String.length (drop n (String c r)) < String.length (String c r).
Proof. intros Hn. rewrite drop_length. cbn [String.length]. lia. Qed.

(** What the three mutually recursive scanners return is strictly shorter
    than what they were given. *)
Definition scanner_consumes
  (f : string -> option (result (value * string))) : Prop :=
  forall s v r,
    f s = Some (Return (v, r)) -> String.length r < String.length s.

#[local] Arguments drop : simpl never.
#[local] Arguments starts_with : simpl never.
#[local] Arguments match_number : simpl never.
#[local] Arguments skip_ws : simpl never.
#[local] Arguments scanstring : simpl never.

Lemma scanners_consume fuel :
  scanner_consumes (scan_once fuel)
  /\ (forall values, scanner_consumes (fun s => array_items fuel s values))
  /\ (forall pairs, scanner_consumes (fun s => object_members fuel s pairs)).
Proof.
  unfold scanner_consumes.
  induction fuel as [|fuel (IHs & IHa & IHo)];
    [repeat split; discriminate|].
  split; [|split].
  - intros s v r. simpl.
    destruct s as [|c s1]; [discriminate|].
    destruct (Ascii.eqb c "034").
    { destruct (scanstring s1 []) as [[chars r']|] eqn:Hs; [|discriminate].
      intros [= _ <-]. apply scanstring_shorter with (n := String.length s1) in Hs;
        simpl; lia. }
    destruct (Ascii.eqb c "{").
    { pose proof (skip_ws_length s1) as Hw.
      destruct (skip_ws s1) as [|c1 r'] eqn:E; [discriminate|].
      simpl in Hw.
      destruct (Ascii.eqb c1 "}"); [intros [= _ <-]; simpl; lia|].
      destruct (Ascii.eqb c1 "034"); [|discriminate].
      intros H. apply IHo in H. simpl. lia. }
    destruct (Ascii.eqb c "[").
    { pose proof (skip_ws_length s1) as Hw.
      destruct (skip_ws s1) as [|c1 r'] eqn:E.
      - intros H. apply IHa in H. simpl in H. lia.
      - simpl in Hw.
        destruct (Ascii.eqb c1 "]"); [intros [= _ <-]; simpl; lia|].
        intros H. apply IHa in H. simpl in *. lia. }
    destruct (starts_with "null" (String c s1));
      [intros [= _ <-]; apply drop_shorter; lia|].
    destruct (starts_with "true" (String c s1));
      [intros [= _ <-]; apply drop_shorter; lia|].
    destruct (starts_with "false" (String c s1));
      [intros [= _ <-]; apply drop_shorter; lia|].
    destruct (match_number (String c s1)) as [[[[i f] x] rest]|] eqn:Hn.
    { intros [= _ <-]. now apply match_number_shorter in Hn. }
    destruct (starts_with "NaN" (String c s1));
      [intros [= _ <-]; apply drop_shorter; lia|].
    destruct (starts_with "Infinity" (String c s1));
      [intros [= _ <-]; apply drop_shorter; lia|].
    destruct (starts_with "-Infinity" (String c s1));
      [intros [= _ <-]; apply drop_shorter; lia|].
    discriminate.
  - intros values s v r. simpl.
    destruct (scan_once fuel s) as [[[v1 r1]|]|] eqn:Hs; try discriminate.
    apply IHs in Hs.
    pose proof (skip_ws_length r1) as Hw.
    destruct (skip_ws r1) as [|c r'] eqn:E; [discriminate|]. simpl in Hw.
    destruct (Ascii.eqb c "]"); [intros [= _ <-]; lia|].
    destruct (Ascii.eqb c ","); [|discriminate].
    intros H. apply IHa in H. pose proof (skip_ws_length r'). lia.
  - intros pairs s v r. simpl.
    destruct (scanstring s []) as [[key r0]|] eqn:Hk; [|discriminate].
    apply scanstring_shorter with (n := String.length s) in Hk; [|lia].
    pose proof (skip_ws_length r0) as Hw0.
    destruct (skip_ws r0) as [|c r1] eqn:E0; [discriminate|]. simpl in Hw0.
    destruct (Ascii.eqb c ":"); [|discriminate]. simpl negb. cbv iota.
    destruct (scan_once fuel (skip_ws r1)) as [[[v1 r2]|]|] eqn:Hs;
      try discriminate.
    apply IHs in Hs. pose proof (skip_ws_length r1) as Hw1.
    pose proof (skip_ws_length r2) as Hw2.
    destruct (skip_ws r2) as [|c2 r3] eqn:E2; [discriminate|]. simpl in Hw2.
    destruct (Ascii.eqb c2 "}"); [intros [= _ <-]; lia|].
    destruct (Ascii.eqb c2 ","); [|discriminate].
    pose proof (skip_ws_length r3) as Hw3.
    destruct (skip_ws r3) as [|c3 r4] eqn:E3; [discriminate|]. simpl in Hw3.
    destruct (Ascii.eqb c3 "034"); [|discriminate].
    intros H. apply IHo in H. lia.
Qed.

(** A value that [raw_decode] reads at an offset inside the text ends
    after that offset and inside the text. *)
Lemma raw_decode_advances s pos v e :
  pos <= String.length s ->
  raw_decode s pos = Some (Return (v, e)) ->
  pos < e <= String.length s.
Proof.
  intros Hpos. unfold raw_decode.
  destruct (scan_once (S (2 * String.length s)) (drop pos s))
    as [[[v' rest]|]|] eqn:Hs; try discriminate.
  intros [= _ <-].
  apply (proj1 (scanners_consume _)) in Hs. rewrite drop_length in Hs. lia.
Qed.

Lemma match_eol_advances s pos e :
  pos <= String.length s -> match_eol s pos = Some e ->
  pos <= e <= String.length s.
Proof.
  intros Hpos. unfold match_eol.
  pose proof (take_drop_while_length is_newline (drop pos s)) as H.
  rewrite drop_length in H.
  destruct (String.length (take_while is_newline (drop pos s)));
    destruct (drop_while is_newline (drop pos s));
    try discriminate; intros [= <-]; lia.
Qed.

Lemma header_re_advances s pos mo :
  _header_re s pos = Some mo -> pos < mo_end mo.
Proof.
  unfold _header_re. destruct (at_line_start s pos); [|discriminate].
  destruct (drop pos s) as [|c r]; [discriminate|].
  destruct (Ascii.eqb c "["); [|discriminate].
  destruct (take_while is_name_char r); [discriminate|].
  destruct (drop_while is_name_char r) as [|c' r']; [discriminate|].
  destruct (Ascii.eqb c' "]"); [|discriminate].
  unfold match_eol.
  match goal with
  | |- context [String.length (take_while is_newline ?x)] =>
      destruct (String.length (take_while is_newline x));
      destruct (drop_while is_newline x)
  end; try discriminate; intros [= <-]; simpl; lia.
Qed.

Lemma match_eol_ge s pos e : match_eol s pos = Some e -> pos <= e.
Proof.
  unfold match_eol.
  destruct (String.length (take_while is_newline (drop pos s)));
    destruct (drop_while is_newline (drop pos s));
    try discriminate; intros [= <-]; lia.
Qed.

Lemma blank_re_advances s pos c mo :
  String.get pos s = Some c ->
  (Ascii.eqb c "#" || Ascii.eqb c "010" || Ascii.eqb c "013") = true ->
  _blank_re s pos = Some mo -> pos < mo_end mo.
Proof.
  intros [r Hr]%get_drop Hc. unfold _blank_re.
  destruct (at_line_start s pos); [|discriminate]. rewrite Hr.
  assert (Hplain : forall mo',
             Ascii.eqb c "#" = false ->
             option_map (Match "") (match_eol s pos) = Some mo' ->
             pos < mo_end mo').
  { intros mo' Hne. unfold match_eol. rewrite Hr. simpl.
    rewrite Hne in Hc. simpl in Hc. unfold is_newline. rewrite Hc. simpl.
    intros [= <-]. simpl. lia. }
  cbv zeta.
  destruct (Ascii.eqb c "#") eqn:Hhash; [|now apply Hplain].
  destruct (match_eol s (pos + 1 + _)) as [e|] eqn:He.
  - intros [= <-]. apply match_eol_ge in He. simpl. lia.
  - unfold match_eol. rewrite Hr. simpl.
    apply Ascii.eqb_eq in Hhash. subst c. simpl. discriminate.
Qed.

Lemma key_re_advances s pos mo :
  pos <= String.length s ->
  _key_re s pos = Some mo -> pos < mo_end mo <= String.length s.
Proof.
  intros Hpos. unfold _key_re.
  destruct (at_line_start s pos); [|discriminate].
  pose proof (take_drop_while_length is_name_char (drop pos s)) as H1.
  pose proof (take_drop_while_length is_space
                (drop_while is_name_char (drop pos s))) as H2.
  rewrite drop_length in H1.
  destruct (take_while is_name_char (drop pos s)) as [|k0 k]; [discriminate|].
  destruct (drop_while is_space (drop_while is_name_char (drop pos s)))
    as [|c r2]; [discriminate|].
  destruct (Ascii.eqb c "="); [|discriminate].
  pose proof (take_drop_while_length is_space r2) as H3.
  intros [= <-]. simpl in *. lia.
Qed.

(** A run of the loop body that does not raise moves [idx] forward. *)
Lemma loop_body_advances string fpname st st' :
  idx st < String.length string ->
  loop_body string fpname st = Some (Next st') ->
  idx st < idx st'.
Proof.
  intros Hlt. unfold loop_body.
  destruct (String.get (idx st) string) as [c|] eqn:Hc; [|discriminate].
  destruct (Ascii.eqb c "[").
  { destruct (_header_re string (idx st)) as [mo|] eqn:Hmo; [|discriminate].
    apply header_re_advances in Hmo.
    destruct (set_contains (group mo) (sections_added st)); [discriminate|].
    destruct (String.eqb (group mo) (str_val (default_section (self_ st))));
      [|destruct (dict_contains String.eqb (group mo) (_sections (self_ st)))];
      intros [= <-]; exact Hmo. }
  destruct (Ascii.eqb c "#" || Ascii.eqb c "010" || Ascii.eqb c "013") eqn:Hb.
  { destruct (_blank_re string (idx st)) as [mo|] eqn:Hmo; [|discriminate].
    intros [= <-]. simpl. eapply blank_re_advances; eauto. }
  destruct (_key_re string (idx st)) as [mo|] eqn:Hmo; [|discriminate].
  apply key_re_advances in Hmo; [|lia].
  destruct (set_contains (group mo) (entries_added st)); [discriminate|].
  destruct (raw_decode string (mo_end mo)) as [[[optval e]|]|] eqn:Hd;
    try discriminate.
  apply raw_decode_advances in Hd; [|lia].
  destruct (cursect_setitem (self_ st) (cursect st) (group mo) optval);
    [|discriminate].
  destruct (_eol_re string e) as [mo'|] eqn:He; [|discriminate].
  intros [= <-]. simpl. unfold _eol_re in He.
  destruct (match_eol string e) as [e'|] eqn:He'; [|discriminate].
  injection He as <-. apply match_eol_ge in He'. simpl. lia.
Qed.

(** Runs of the body that the relation [scans] records are runs of
    [read_loop], which has the fuel for them. *)
Lemma scans_read_loop string fpname st st' :
  scans string fpname st st' ->
  forall fuel,
    String.length string - idx st <= fuel ->
    exists fuel',
      String.length string - idx st' <= fuel'
      /\ read_loop fuel string fpname st = read_loop fuel' string fpname st'.
Proof.
  induction 1 as [st | st st1 st2 Hlt Hbody Hscans IH]; intros fuel Hfuel.
  - exists fuel. auto.
  - pose proof (loop_body_advances _ _ _ _ Hlt Hbody) as Hadv.
    destruct fuel as [|fuel]; [lia|].
    destruct (IH fuel) as (fuel' & Hfuel' & Heq); [lia|].
    exists fuel'. split; [exact Hfuel'|].
    simpl. apply Nat.ltb_lt in Hlt. rewrite Hlt, Hbody. exact Heq.
Qed.

(** C10, as the code has it: when the scanner, after any number of
    constructs, stands at a space or a tab, [read_string] raises
    [ParseError]: no production accepts horizontal white space where a
    construct starts.  (A line that continues an option, after its [=] or
    inside its value, may begin with white space.) *)
Theorem indentation_where_a_construct_starts_raises
  (self : t) (string : string) (fpname : Datatypes.option String.string)
  (st : scan_state) (c : ascii) :
  scans string fpname (scan_start self) st ->
  String.get (idx st) string = Some c ->
  is_hspace c = true ->
  read_string self string fpname
  = Some (self_ st,
          Raise (Exc ParseError
                   "expected section, option, comment or empty line")).
Proof.
  intros Hscans Hget Hc. unfold read_string.
  destruct (scans_read_loop _ _ _ _ Hscans (String.length string))
    as (fuel & Hfuel & ->); [simpl; lia|].
  pose proof (get_Some_lt _ _ _ Hget) as Hlt.
  destruct fuel as [|fuel]; [lia|].
  simpl. apply Nat.ltb_lt in Hlt. rewrite Hlt.
  assert (Hcases : c = " "%char \/ c = "009"%char).
  { unfold is_hspace in Hc. apply orb_true_iff in Hc as [H|H];
      apply Ascii.eqb_eq in H; auto. }
  assert (Hkey : _key_re string (idx st) = None).
  { unfold _key_re. destruct (at_line_start string (idx st)); [|reflexivity].
    apply get_drop in Hget as [r ->].
    destruct Hcases as [-> | ->]; reflexivity. }
  unfold loop_body. rewrite Hget, Hkey.
  destruct Hcases as [-> | ->]; reflexivity.
Qed.

Lemma indentation_where_a_construct_starts_raises_witness :
  exists self,
    read_string fresh ("[s]" ++ LF ++ " x = 1" ++ LF) None
    = Some (self,
            Raise (Exc ParseError
                     "expected section, option, comment or empty line")).
Proof.
  destruct (loop_body ("[s]" ++ LF ++ " x = 1" ++ LF) None (scan_start fresh))
    as [[st|]|] eqn:Hbody; try discriminate.
  exists (self_ st).
  apply (indentation_where_a_construct_starts_raises
           fresh ("[s]" ++ LF ++ " x = 1" ++ LF) None st " "%char).
  - eapply scans_next; [simpl; lia | exact Hbody | apply scans_here].
  - injection Hbody as <-. reflexivity.
  - reflexivity.
Defined.

(** Where [_key_re] matches, the text has a character of a name, which
    sends the loop body to its last branch. *)
Lemma key_re_first_char s pos mo :
  _key_re s pos = Some mo ->
  exists c, String.get pos s = Some c /\ is_name_char c = true.
Proof.
  unfold _key_re. destruct (at_line_start s pos); [|discriminate].
  destruct (drop pos s) as [|c r] eqn:Hr; [discriminate|].
  destruct (take_while is_name_char (String c r)) as [|c' k] eqn:Hk;
    [discriminate|].
  apply take_while_head in Hk as [_ Hc]. intros _.
  exists c. split; [apply get_drop; eauto | exact Hc].
Qed.

(** As long as no header has been read, the scanner has changed nothing:
    the body has only skipped blank lines and comments. *)
Lemma scans_before_first_header string fpname st st' :
  scans string fpname st st' ->
  cursect st' = cursect_None ->
  cursect st = cursect_None
  /\ self_ st' = self_ st /\ entries_added st' = entries_added st.
Proof.
  induction 1 as [st | st st1 st2 Hlt Hbody Hscans IH]; [auto|].
  intros Hnone. destruct (IH Hnone) as (Hcur & Hself & Hentries).
  revert Hbody. unfold loop_body.
  destruct (String.get (idx st) string) as [c|]; [|discriminate].
  destruct (Ascii.eqb c "[").
  { destruct (_header_re string (idx st)) as [mo|]; [|discriminate].
    destruct (set_contains (group mo) (sections_added st)); [discriminate|].
    destruct (String.eqb (group mo) (str_val (default_section (self_ st))));
      [|destruct (dict_contains String.eqb (group mo) (_sections (self_ st)))];
      intros [= <-]; discriminate. }
  destruct (Ascii.eqb c "#" || Ascii.eqb c "010" || Ascii.eqb c "013").
  { destruct (_blank_re string (idx st)) as [mo|]; [|discriminate].
    intros [= <-]. simpl in *. auto. }
  destruct (_key_re string (idx st)) as [mo|]; [|discriminate].
  destruct (set_contains (group mo) (entries_added st)); [discriminate|].
  destruct (raw_decode string (mo_end mo)) as [[[optval e]|]|];
    try discriminate.
  destruct (cursect st) eqn:Hst; [discriminate| |];
    destruct (cursect_setitem (self_ st) _ (group mo) optval);
    try discriminate;
    destruct (_eol_re string e); try discriminate;
    intros [= <-]; simpl in Hcur; congruence.
Qed.

(** C2: when the first construct of the text that is not a blank line or a
    comment is an option assignment whose value decodes, [read_string]
    raises [TypeError], not [MissingSectionHeaderError]: the assignment
    goes to [cursect], which is still [None].  The parser is left as it
    was. *)
Theorem option_before_header_raises_TypeError
  (self : t) (string : string) (fpname : Datatypes.option String.string)
  (st : scan_state) (mo : match_object) (optval : value) (e : nat) :
  scans string fpname (scan_start self) st ->
  cursect st = cursect_None ->
  _key_re string (idx st) = Some mo ->
  raw_decode string (mo_end mo) = Some (Return (optval, e)) ->
  read_string self string fpname
  = Some (self,
          Raise (Exc TypeError
                   "'NoneType' object does not support item assignment")).
Proof.
  intros Hscans Hnone Hkey Hdec.
  destruct (scans_before_first_header _ _ _ _ Hscans Hnone)
    as (_ & Hself & Hentries). simpl in Hself, Hentries.
  destruct (key_re_first_char _ _ _ Hkey) as (c & Hget & Hc).
  destruct (name_char_not_special _ Hc) as [Hbr Hbl].
  unfold read_string.
  destruct (scans_read_loop _ _ _ _ Hscans (String.length string))
    as (fuel & Hfuel & ->); [simpl; lia|].
  pose proof (get_Some_lt _ _ _ Hget) as Hlt.
  destruct fuel as [|fuel]; [lia|].
  simpl. apply Nat.ltb_lt in Hlt. rewrite Hlt.
  unfold loop_body.
  rewrite Hget, Hbr, Hbl, Hkey, Hentries. cbn [set_contains existsb].
  rewrite Hdec, Hnone, Hself. reflexivity.
Qed.

Lemma option_before_header_raises_TypeError_witness :
  read_string fresh ("foo = 1" ++ LF) None
  = Some (fresh,
          Raise (Exc TypeError
                   "'NoneType' object does not support item assignment"))
  /\ read_string fresh ("# settings" ++ LF ++ LF ++ "foo = 1" ++ LF) None
     = Some (fresh,
             Raise (Exc TypeError
                      "'NoneType' object does not support item assignment")).
Proof.
  split.
  - apply (option_before_header_raises_TypeError
             fresh ("foo = 1" ++ LF) None (scan_start fresh)
             (Match "foo" 6) (JInt 1) 7);
      [apply scans_here | reflexivity | reflexivity | reflexivity].
  - destruct (loop_body ("# settings" ++ LF ++ LF ++ "foo = 1" ++ LF) None
                (scan_start fresh)) as [[st|]|] eqn:Hbody; try discriminate.
    apply (option_before_header_raises_TypeError
             fresh ("# settings" ++ LF ++ LF ++ "foo = 1" ++ LF) None st
             (Match "foo" 18) (JInt 1) 19).
    + eapply scans_next; [simpl; lia | exact Hbody | apply scans_here].
    + injection Hbody as <-. reflexivity.
    + injection Hbody as <-. reflexivity.
    + reflexivity.
Defined.

(** ** The recursion bound of the decoder is never reached *)

Lemma scanners_have_fuel fuel :
  (forall s, 2 * String.length s < fuel -> scan_once fuel s <> None)
  /\ (forall s values,
        2 * String.length s + 1 < fuel -> array_items fuel s values <> None)
  /\ (forall s pairs,
        2 * String.length s + 1 < fuel ->
        object_members fuel s pairs <> None).
Proof.
  induction fuel as [|fuel (IHs & IHa & IHo)];
    [repeat split; intros; lia|].
  split; [|split].
  - intros s Hfuel. simpl.
    destruct s as [|c s1]; [discriminate|]. simpl in Hfuel.
    destruct (Ascii.eqb c "034"); [discriminate|].
    destruct (Ascii.eqb c "{").
    { pose proof (skip_ws_length s1) as Hw.
      destruct (skip_ws s1) as [|c1 r'] eqn:E; [discriminate|].
      simpl in Hw.
      destruct (Ascii.eqb c1 "}"); [discriminate|].
      destruct (Ascii.eqb c1 "034"); [|discriminate].
      apply IHo. lia. }
    destruct (Ascii.eqb c "[").
    { pose proof (skip_ws_length s1) as Hw.
      destruct (skip_ws s1) as [|c1 r'] eqn:E.
      - apply IHa. simpl. lia.
      - simpl in Hw. destruct (Ascii.eqb c1 "]"); [discriminate|].
        apply IHa. simpl. lia. }
    destruct (starts_with "null" (String c s1)); [discriminate|].
    destruct (starts_with "true" (String c s1)); [discriminate|].
    destruct (starts_with "false" (String c s1)); [discriminate|].
    destruct (match_number (String c s1)) as [[[[i f] x] rest]|];
      [discriminate|].
    destruct (starts_with "NaN" (String c s1)); [discriminate|].
    destruct (starts_with "Infinity" (String c s1)); [discriminate|].
    destruct (starts_with "-Infinity" (String c s1)); discriminate.
  - intros s values Hfuel. simpl.
    specialize (IHs s).
    destruct (scan_once fuel s) as [[[v1 r1]|]|] eqn:Hs;
      [|discriminate|apply IHs; lia].
    apply (proj1 (scanners_consume fuel)) in Hs.
    pose proof (skip_ws_length r1) as Hw.
    destruct (skip_ws r1) as [|c r'] eqn:E; [discriminate|]. simpl in Hw.
    destruct (Ascii.eqb c "]"); [discriminate|].
    destruct (Ascii.eqb c ","); [|discriminate].
    apply IHa. pose proof (skip_ws_length r'). lia.
  - intros s pairs Hfuel. simpl.
    destruct (scanstring s []) as [[key r0]|] eqn:Hk; [|discriminate].
    apply scanstring_shorter with (n := String.length s) in Hk; [|lia].
    pose proof (skip_ws_length r0) as Hw0.
    destruct (skip_ws r0) as [|c r1] eqn:E0; [discriminate|]. simpl in Hw0.
    destruct (Ascii.eqb c ":"); [|discriminate]. simpl negb. cbv iota.
    pose proof (skip_ws_length r1) as Hw1.
    specialize (IHs (skip_ws r1)).
    destruct (scan_once fuel (skip_ws r1)) as [[[v1 r2]|]|] eqn:Hs;
      [|discriminate|apply IHs; lia].
    apply (proj1 (scanners_consume fuel)) in Hs.
    pose proof (skip_ws_length r2) as Hw2.
    destruct (skip_ws r2) as [|c2 r3] eqn:E2; [discriminate|]. simpl in Hw2.
    destruct (Ascii.eqb c2 "}"); [discriminate|].
    destruct (Ascii.eqb c2 ","); [|discriminate].
    pose proof (skip_ws_length r3) as Hw3.
    destruct (skip_ws r3) as [|c3 r4] eqn:E3; [discriminate|]. simpl in Hw3.
    destruct (Ascii.eqb c3 "034"); [|discriminate].
    apply IHo. lia.
Qed.

Lemma raw_decode_returns s pos : raw_decode s pos <> None.
Proof.
  unfold raw_decode.
  pose proof (proj1 (scanners_have_fuel (S (2 * String.length s)))
                (drop pos s)) as H.
  rewrite drop_length in H.
  destruct (scan_once (S (2 * String.length s)) (drop pos s))
    as [[[v rest]|]|]; try discriminate.
  exfalso. apply H; [lia | reflexivity].
Qed.

Lemma loop_body_returns string fpname st :
  loop_body string fpname st <> None.
Proof.
  unfold loop_body.
  destruct (String.get (idx st) string) as [c|]; [|discriminate].
  destruct (Ascii.eqb c "[").
  { destruct (_header_re string (idx st)) as [mo|]; [|discriminate].
    destruct (set_contains (group mo) (sections_added st)); [discriminate|].
    destruct (String.eqb (group mo) (str_val (default_section (self_ st))));
      [|destruct (dict_contains String.eqb (group mo) (_sections (self_ st)))];
      discriminate. }
  destruct (Ascii.eqb c "#" || Ascii.eqb c "010" || Ascii.eqb c "013").
  { destruct (_blank_re string (idx st)); discriminate. }
  destruct (_key_re string (idx st)) as [mo|]; [|discriminate].
  destruct (set_contains (group mo) (entries_added st)); [discriminate|].
  pose proof (raw_decode_returns string (mo_end mo)) as Hd.
  destruct (raw_decode string (mo_end mo)) as [[[optval e]|]|];
    [|discriminate|congruence].
  destruct (cursect_setitem (self_ st) (cursect st) (group mo) optval);
    [|discriminate].
  destruct (_eol_re string e); discriminate.
Qed.

Lemma read_loop_returns fuel :
  forall string fpname st,
    String.length string - idx st <= fuel ->
    read_loop fuel string fpname st <> None.
Proof.
  induction fuel as [|fuel IH]; intros string fpname st Hfuel; simpl.
  - destruct (Nat.ltb (idx st) (String.length string)) eqn:Hlt;
      [|discriminate].
    apply Nat.ltb_lt in Hlt. lia.
  - destruct (Nat.ltb (idx st) (String.length string)) eqn:Hlt;
      [|discriminate].
    apply Nat.ltb_lt in Hlt.
    pose proof (loop_body_returns string fpname st) as Hb.
    destruct (loop_body string fpname st) as [[st'|self e]|] eqn:Hbody;
      [|discriminate|congruence].
    apply loop_body_advances in Hbody; [|exact Hlt].
    apply IH. lia.
Qed.

(** [read_string] always comes to an end: it returns or it raises. *)
Lemma read_string_returns self string fpname :
  exists self' outcome,
    read_string self string fpname = Some (self', outcome).
Proof.
  pose proof (read_loop_returns (String.length string) string fpname
                (scan_start self)) as H.
  unfold read_string.
  destruct (read_loop (String.length string) string fpname (scan_start self))
    as [[self' outcome]|]; [eauto|].
  exfalso. apply H; [simpl; lia | reflexivity].
Qed.

(** ** The scanner keeps the class invariant *)

Lemma cursect_setitem_invariant self cur optname optval self' :
  class_invariant self ->
  cursect_setitem self cur optname optval = Return self' ->
  class_invariant self'
  /\ (forall name,
        dict_contains String.eqb name (_sections self) = true ->
        dict_contains String.eqb name (_sections self') = true).
Proof.
  intros (Hdef & Hnd & Hprox). destruct cur as [| |name]; simpl.
  - discriminate.
  - intros [= <-]. repeat split; auto.
  - destruct (dict_get String.eqb name (_sections self)) as [m|] eqn:Hm;
      intros [= <-]; [|repeat split; auto].
    assert (Hin : dict_contains String.eqb name (_sections self) = true)
      by (unfold dict_contains; now rewrite Hm).
    repeat split; simpl.
    + unfold default_section in *. simpl. rewrite dict_contains_set, Hdef.
      destruct (String.eqb (str_val (_default_section self)) name) eqn:E; auto.
      apply String.eqb_eq in E. subst name. congruence.
    + now apply dict_keys_set_NoDup.
    + intros k. rewrite dict_contains_set.
      destruct (String.eqb k name) eqn:E; simpl; auto.
      apply String.eqb_eq in E. subst k. intros _. now apply Hprox.
    + intros k Hk. rewrite dict_contains_set, Hk. apply orb_true_r.
Qed.

Lemma loop_body_invariant string fpname st :
  scan_invariant st ->
  match loop_body string fpname st with
  | Some (Next st') => scan_invariant st'
  | Some (Raised self e) => class_invariant self
  | None => True
  end.
Proof.
  intros [Hinv Hcur]. unfold loop_body.
  destruct (String.get (idx st) string) as [c|]; [|exact Hinv].
  destruct (Ascii.eqb c "[").
  { destruct (_header_re string (idx st)) as [mo|]; [|exact Hinv].
    destruct (set_contains (group mo) (sections_added st)); [exact Hinv|].
    destruct (String.eqb (group mo) (str_val (default_section (self_ st))))
      eqn:Hd.
    { split; [exact Hinv | discriminate]. }
    destruct (dict_contains String.eqb (group mo) (_sections (self_ st)))
      eqn:Hin.
    { split; [exact Hinv | simpl; intros name [= <-]; exact Hin]. }
    destruct Hinv as (Hdef & Hnd & Hprox).
    split; [repeat split|]; simpl.
    - unfold default_section in *. simpl. rewrite dict_contains_set, Hdef.
      rewrite String.eqb_sym, Hd. reflexivity.
    - now apply dict_keys_set_NoDup.
    - intros k. rewrite !dict_contains_set.
      destruct (String.eqb k (group mo)); simpl; auto.
    - intros name [= <-]. rewrite dict_contains_set, String.eqb_refl.
      reflexivity. }
  destruct (Ascii.eqb c "#" || Ascii.eqb c "010" || Ascii.eqb c "013").
  { destruct (_blank_re string (idx st)) as [mo|]; [|exact Hinv].
    split; [exact Hinv | exact Hcur]. }
  destruct (_key_re string (idx st)) as [mo|]; [|exact Hinv].
  destruct (set_contains (group mo) (entries_added st)); [exact Hinv|].
  destruct (raw_decode string (mo_end mo)) as [[[optval e]|]|];
    [|exact Hinv|exact I].
  destruct (cursect_setitem (self_ st) (cursect st) (group mo) optval)
    as [self'|] eqn:Hset; [|exact Hinv].
  apply cursect_setitem_invariant in Hset as [Hinv' Hkeep]; [|exact Hinv].
  destruct (_eol_re string e); [|exact Hinv'].
  split; [exact Hinv'|]. simpl. intros name Hname. apply Hkeep, Hcur, Hname.
Qed.

Lemma read_loop_invariant fuel :
  forall string fpname st self' outcome,
    scan_invariant st ->
    read_loop fuel string fpname st = Some (self', outcome) ->
    class_invariant self'.
Proof.
  induction fuel as [|fuel IH]; intros string fpname st self' outcome Hinv;
    simpl; destruct (Nat.ltb (idx st) (String.length string));
    try discriminate; try (intros [= <- _]; apply Hinv).
  pose proof (loop_body_invariant string fpname st Hinv) as Hbody.
  destruct (loop_body string fpname st) as [[st'|self e]|];
    [|intros [= <- _]; exact Hbody|discriminate].
  apply IH. exact Hbody.
Qed.

(** Whether it returns or raises, [read_string] leaves a parser that
    satisfies the class invariant. *)
Lemma read_string_invariant self string fpname self' outcome :
  class_invariant self ->
  read_string self string fpname = Some (self', outcome) ->
  class_invariant self'.
Proof.
  intros Hinv. apply read_loop_invariant.
  split; [exact Hinv | discriminate].
Qed.

(** ** The tests of the repository *)

Example test_read_string :
  exists cf,
    read_string fresh
      ("[section]" ++ LF ++ "foo = " ++ QUOTE ++ "bar" ++ QUOTE ++ LF) None
    = Some (cf, Return tt)
    /\ get cf (Str 7 "section") "foo" None None = Return (JString (codes "bar")).
Proof. eexists. split; reflexivity. Qed.

Example test_get :
  let section := Str 7 "section" in
  let cf := fst (add_section fresh section) in
  let cf1 := fst (set cf section "section" (JString (codes "set-in-section"))) in
  let cf2 :=
    fst (set cf1 (default_section cf1) "defaults"
           (JString (codes "set-in-defaults"))) in
  get cf1 section "section" None None
  = Return (JString (codes "set-in-section"))
  /\ get cf2 section "defaults" None None
     = Return (JString (codes "set-in-defaults"))
  /\ get cf2 section "vars" None
       (Some [("vars", JString (codes "set-in-vars"))])
     = Return (JString (codes "set-in-vars"))
  /\ get cf2 section "unset" (Some (JString (codes "fallback"))) None
     = Return (JString (codes "fallback")).
Proof. repeat split. Qed.

(** ** Where the scanner raises *)

(** An exception of the loop body, at a state that the scanner reaches, is
    the outcome of [read_string]. *)
Lemma read_string_raises_at self string fpname st self' e :
  scans string fpname (scan_start self) st ->
  idx st < String.length string ->
  loop_body string fpname st = Some (Raised self' e) ->
  read_string self string fpname = Some (self', Raise e).
Proof.
  intros Hscans Hlt Hbody. unfold read_string.
  destruct (scans_read_loop _ _ _ _ Hscans (String.length string))
    as (fuel & Hfuel & ->); [simpl; lia|].
  destruct fuel as [|fuel]; [lia|].
  simpl. apply Nat.ltb_lt in Hlt. now rewrite Hlt, Hbody.
Qed.

(** A second assignment to a key since the last header: the call of
    [DuplicateOptionError] with four arguments raises [TypeError]. *)
Lemma repeated_key_raises_TypeError self string fpname st mo :
  scans string fpname (scan_start self) st ->
  _key_re string (idx st) = Some mo ->
  set_contains (group mo) (entries_added st) = true ->
  read_string self string fpname
  = Some (self_ st,
          Raise (Exc TypeError
                   "__init__() takes 2 positional arguments but 5 were given")).
Proof.
  intros Hscans Hkey Hdup.
  destruct (key_re_first_char _ _ _ Hkey) as (c & Hget & Hc).
  destruct (name_char_not_special _ Hc) as [Hbr Hbl].
  apply read_string_raises_at with (st := st); auto.
  - eapply get_Some_lt; eauto.
  - unfold loop_body. now rewrite Hget, Hbr, Hbl, Hkey, Hdup.
Qed.

(** A header whose name was already read in this call raises
    [DuplicateSectionError]. *)
Lemma repeated_header_raises_DuplicateSectionError
  self string fpname st mo :
  scans string fpname (scan_start self) st ->
  String.get (idx st) string = Some "["%char ->
  _header_re string (idx st) = Some mo ->
  set_contains (group mo) (sections_added st) = true ->
  read_string self string fpname
  = Some (self_ st,
          Raise (Exc DuplicateSectionError
                   ("Section " ++ repr (group mo) ++ " already declared"))).
Proof.
  intros Hscans Hget Hmo Hdup.
  apply read_string_raises_at with (st := st); auto.
  - eapply get_Some_lt; eauto.
  - unfold loop_body. now rewrite Hget, Ascii.eqb_refl, Hmo, Hdup.
Qed.

(** A bracket that does not open a well-formed header raises [TypeError]:
    [ParseError] is called without its message. *)
Lemma bad_header_raises_TypeError self string fpname st :
  scans string fpname (scan_start self) st ->
  String.get (idx st) string = Some "["%char ->
  _header_re string (idx st) = None ->
  read_string self string fpname
  = Some (self_ st,
          Raise (Exc TypeError
                   "__init__() missing 1 required positional argument: 'message'")).
Proof.
  intros Hscans Hget Hmo.
  apply read_string_raises_at with (st := st); auto.
  - eapply get_Some_lt; eauto.
  - unfold loop_body. now rewrite Hget, Ascii.eqb_refl, Hmo.
Qed.

(** The local [lineno] is never assigned after its initialisation. *)
Lemma lineno_stays string fpname st st' :
  scans string fpname st st' -> lineno st' = lineno st.
Proof.
  induction 1 as [st | st st1 st2 Hlt Hbody Hscans IH]; [reflexivity|].
  rewrite IH. revert Hbody. unfold loop_body.
  destruct (String.get (idx st) string) as [c|]; [|discriminate].
  destruct (Ascii.eqb c "[").
  { destruct (_header_re string (idx st)) as [mo|]; [|discriminate].
    destruct (set_contains (group mo) (sections_added st)); [discriminate|].
    destruct (String.eqb (group mo) (str_val (default_section (self_ st))));
      [|destruct (dict_contains String.eqb (group mo) (_sections (self_ st)))];
      intros [= <-]; reflexivity. }
  destruct (Ascii.eqb c "#" || Ascii.eqb c "010" || Ascii.eqb c "013").
  { destruct (_blank_re string (idx st)) as [mo|]; [|discriminate].
    intros [= <-]. reflexivity. }
  destruct (_key_re string (idx st)) as [mo|]; [|discriminate].
  destruct (set_contains (group mo) (entries_added st)); [discriminate|].
  destruct (raw_decode string (mo_end mo)) as [[[optval e]|]|];
    try discriminate.
  destruct (cursect_setitem (self_ st) (cursect st) (group mo) optval);
    [|discriminate].
  destruct (_eol_re string e); [|discriminate].
  intros [= <-]. reflexivity.
Qed.

(** ** A section that the scanner creates *)

Lemma take_while_all p s c r :
  all_chars p s = true -> p c = false ->
  take_while p (s ++ String c r) = s
  /\ drop_while p (s ++ String c r) = String c r.
Proof.
  intros Hall Hc. induction s as [|c' s IH]; simpl.
  - now rewrite Hc.
  - simpl in Hall. apply andb_true_iff in Hall as [Hc' Hall].
    rewrite Hc'. destruct (IH Hall) as [-> ->]. auto.
Qed.

Lemma drop_app s r : drop (String.length s) (s ++ r) = r.
Proof. induction s as [|c s IH]; [now destruct r | exact IH]. Qed.

Lemma drop_past s c r : drop (String.length s + 1) (s ++ String c r) = r.
Proof.
  induction s as [|c' s IH]; [reflexivity | exact IH].
Qed.

(** [_header_re] on a text that is one header line. *)
Lemma header_re_on_header_line name :
  is_name name = true ->
  _header_re ("[" ++ name ++ "]" ++ LF) 0
  = Some (Match name (String.length name + 3)).
Proof.
  intros Hname. unfold _header_re, at_line_start.
  change (drop 0 ("[" ++ name ++ "]" ++ LF))
    with (String "[" (name ++ String "]" LF)).
  cbv beta iota. rewrite Ascii.eqb_refl.
  assert (Hall : all_chars is_name_char name = true)
    by (destruct name; [discriminate | exact Hname]).
  destruct (take_while_all is_name_char name "]" LF Hall eq_refl) as [-> ->].
  destruct name as [|c name]; [discriminate|].
  cbv beta iota. rewrite Ascii.eqb_refl. unfold match_eol.
  change (drop (0 + 1 + String.length (String c name) + 1)
            ("[" ++ String c name ++ "]" ++ LF))
    with (drop (String.length (String c name) + 1)
            (String c name ++ String "]" LF)).
  rewrite drop_past. simpl. do 2 f_equal. lia.
Qed.

Lemma append_length s r :
  String.length (s ++ r) = String.length s + String.length r.
Proof. induction s as [|c s IH]; simpl; auto. Qed.

Lemma py_eq_false_py_is a b : py_eq a b = false -> py_is a b = false.
Proof. unfold py_is, py_eq. intros ->. apply andb_false_r. Qed.

Lemma py_is_refl a : py_is a a = true.
Proof. unfold py_is. now rewrite N.eqb_refl, String.eqb_refl. Qed.

(** When the scanner reaches the end of the text, [read_string]
    returns. *)
Lemma read_string_returns_at self string fpname st :
  scans string fpname (scan_start self) st ->
  String.length string <= idx st ->
  read_string self string fpname = Some (self_ st, Return tt).
Proof.
  intros Hscans Hend. unfold read_string.
  destruct (scans_read_loop _ _ _ _ Hscans (String.length string))
    as (fuel & Hfuel & ->); [simpl; lia|].
  apply Nat.ltb_ge in Hend. destruct fuel; simpl; now rewrite Hend.
Qed.

(** The run of the loop body on a header line for a section that is not
    stored yet. *)
Lemma loop_body_on_new_header self name fpname :
  is_name name = true ->
  String.eqb name (str_val (default_section self)) = false ->
  dict_contains String.eqb name (_sections self) = false ->
  loop_body ("[" ++ name ++ "]" ++ LF) fpname (scan_start self)
  = Some (Next
            (Scan
               {| _default_section := _default_section self;
                  _defaults := _defaults self;
                  _sections :=
                    dict_set String.eqb name (OrderedDict []) (_sections self);
                  _proxies :=
                    dict_set String.eqb name (SectionProxy (new_str name))
                      (_proxies self) |}
               [name] [] (Some name) (cursect_section name)
               (String.length name + 3) 0)).
Proof.
  intros Hname Hne Hnew. unfold loop_body.
  change (String.get (idx (scan_start self)) ("[" ++ name ++ "]" ++ LF))
    with (Some "["%char).
  cbv beta iota. rewrite Ascii.eqb_refl.
  change (idx (scan_start self)) with 0.
  rewrite (header_re_on_header_line _ Hname).
  cbn [group mo_end sections_added scan_start set_contains existsb self_
         lineno set_add].
  rewrite Hne, Hnew. reflexivity.
Qed.

(** C1: for every section that the scanner creates from a header line,
    [get] raises [NoOptionError] for an option that only the defaults hold,
    whatever its value, because the scanner stores a bare [OrderedDict];
    the same section made by [add_section] gives the value of the
    defaults. *)
Theorem get_after_read_string_misses_defaults
  (self : t) (section : str) (option : string) (v : value) :
  is_name (str_val section) = true ->
  py_eq section (default_section self) = false ->
  has_section self section = false ->
  dict_get String.eqb option (_defaults self) = Some v ->
  (exists self',
     read_string self ("[" ++ str_val section ++ "]" ++ LF) None
     = Some (self', Return tt)
     /\ has_section self' section = true
     /\ get self' (default_section self') option None None = Return v
     /\ get self' section option None None = Raise (Exc NoOptionError option))
  /\ (exists self',
        add_section self section = (self', Return tt)
        /\ get self' section option None None = Return v).
Proof.
  intros Hname Hne Hnew Hdef.
  pose proof (py_eq_false_py_is _ _ Hne) as His.
  unfold has_section in Hnew. split.
  - eexists. split; [|split; [|split]].
    + eapply read_string_returns_at.
      * eapply scans_next; [| |apply scans_here].
        -- simpl. lia.
        -- apply loop_body_on_new_header; assumption.
      * cbn [idx]. simpl. rewrite append_length. simpl. lia.
    + unfold has_section. simpl.
      rewrite dict_contains_set, String.eqb_refl. reflexivity.
    + unfold get. simpl. unfold default_section. simpl.
      rewrite py_is_refl. simpl. unfold dict_mapping. now rewrite Hdef.
    + rewrite get_in_OrderedDict_section with (own := []).
      * reflexivity.
      * exact His.
      * simpl. apply dict_get_set_same.
  - unfold add_section. rewrite Hne, Hnew. eexists. split; [reflexivity|].
    rewrite get_in_ChainMap_section with (own := []).
    + simpl. unfold chain, dict_mapping. simpl. now rewrite Hdef.
    + exact His.
    + simpl. apply dict_get_set_same.
Qed.

Lemma get_after_read_string_misses_defaults_witness :
  let self := fst (set fresh DEFAULT_SECT "o" (JInt 1)) in
  (exists self',
     read_string self ("[s]" ++ LF) None = Some (self', Return tt)
     /\ has_section self' (Str 7 "s") = true
     /\ get self' (default_section self') "o" None None = Return (JInt 1)
     /\ get self' (Str 7 "s") "o" None None = Raise (Exc NoOptionError "o"))
  /\ (exists self',
        add_section self (Str 7 "s") = (self', Return tt)
        /\ get self' (Str 7 "s") "o" None None = Return (JInt 1)).
Proof.
  intros self.
  apply (get_after_read_string_misses_defaults self (Str 7 "s") "o" (JInt 1));
    reflexivity.
Defined.

(** * More of the store *)

Lemma dict_get_del_other {V : Type} k k' (d : list (string * V)) :
  k <> k' ->
  dict_get String.eqb k (dict_del String.eqb k' d) = dict_get String.eqb k d.
Proof.
  intros Hne. induction d as [|[k1 v1] d IH]; simpl; auto.
  destruct (String.eqb k' k1) eqn:E; simpl.
  - apply String.eqb_eq in E. subst k1.
    apply String.eqb_neq in Hne. now rewrite Hne.
  - destruct (String.eqb k k1); auto.
Qed.

Lemma dict_keys_del {V : Type} k (d : list (string * V)) :
  NoDup (dict_keys d) ->
  dict_keys (dict_del String.eqb k d)
  = filter (fun k' => negb (String.eqb k k')) (dict_keys d).
Proof.
  induction d as [|[k1 v1] d IH]; simpl; auto.
  intros Hnd. inversion Hnd as [|? ? Hnot Hnd']. subst.
  destruct (String.eqb k k1) eqn:E; simpl.
  - apply String.eqb_eq in E. subst k1.
    symmetry. apply forallb_filter_id. apply forallb_forall.
    intros x Hx. destruct (String.eqb k x) eqn:Ex; auto.
    apply String.eqb_eq in Ex. subst x. contradiction.
  - now rewrite IH.
Qed.

Lemma section_own_setitem m option v :
  dict_get String.eqb option (section_own (section_setitem m option v))
  = Some v.
Proof. destruct m; simpl; apply dict_get_set_same. Qed.

Lemma section_mapping_setitem self m option v :
  section_mapping self (section_setitem m option v) option = Some v.
Proof.
  destruct m; simpl; unfold chain, dict_mapping;
    now rewrite dict_get_set_same.
Qed.

Lemma section_mapping_setitem_other self m option option' v :
  option' <> option ->
  section_mapping self (section_setitem m option v) option'
  = section_mapping self m option'.
Proof.
  intros Hne. destruct m; simpl; unfold chain, dict_mapping;
    now rewrite dict_get_set_other.
Qed.



(** What was [set] is what [get] gives: in a stored section whose name is
    neither empty nor that of the default section, and in the default
    section, for every fallback and for all overrides that do not hold the
    option. *)
Theorem set_then_get (self : t) (section : str) (option : string)
  (v : value) :
  (has_section self section = true /\ falsy section = false
   /\ py_eq section (default_section self) = false)
  \/ py_is section (default_section self) = true ->
  exists self',
    set self section option v = (self', Return tt)
    /\ forall fallback vars,
         (forall d, vars = Some d -> dict_get String.eqb option d = None) ->
         get self' section option fallback vars = Return v.
Proof.
  intros [(Hhas & Hfalsy & Hne) | His].
  - unfold set. rewrite Hfalsy, Hne. simpl.
    unfold has_section, dict_contains in Hhas.
    destruct (dict_get String.eqb (str_val section) (_sections self))
      as [m|] eqn:Hm; [|discriminate].
    eexists. split; [reflexivity|].
    intros fallback vars Hvars. unfold get, default_section. simpl.
    unfold default_section in Hne. rewrite (py_eq_false_py_is _ _ Hne).
    rewrite dict_get_set_same. simpl.
    destruct vars as [d|]; unfold chain.
    + unfold dict_mapping at 1. rewrite (Hvars d eq_refl).
      now rewrite section_mapping_setitem.
    + now rewrite section_mapping_setitem.
  - unfold set. rewrite (py_is_py_eq _ _ His), orb_true_r.
    eexists. split; [reflexivity|].
    intros fallback vars Hvars. unfold get, default_section. simpl.
    unfold default_section in His. rewrite His. simpl.
    destruct vars as [d|]; unfold chain, dict_mapping.
    + rewrite (Hvars d eq_refl). now rewrite dict_get_set_same.
    + now rewrite dict_get_set_same.
Qed.

Lemma set_then_get_witness :
  let self := fst (add_section fresh (Str 7 "s")) in
  (exists self',
     set self (Str 7 "s") "k" (JArray [JInt 1; JNull]) = (self', Return tt)
     /\ forall fallback vars,
          (forall d, vars = Some d -> dict_get String.eqb "k" d = None) ->
          get self' (Str 7 "s") "k" fallback vars
          = Return (JArray [JInt 1; JNull]))
  /\ (exists self',
        set self DEFAULT_SECT "k" JNull = (self', Return tt)
        /\ forall fallback vars,
             (forall d, vars = Some d -> dict_get String.eqb "k" d = None) ->
             get self' DEFAULT_SECT "k" fallback vars = Return JNull).
Proof.
  intros self. split.
  - apply (set_then_get self (Str 7 "s") "k" (JArray [JInt 1; JNull])).
    left. repeat split.
  - apply (set_then_get self DEFAULT_SECT "k" JNull).
    right. reflexivity.
Defined.

(** [set] in a section changes nothing else: the defaults stay as they
    were, and [get] gives what it gave for every other section and for
    every other option of the same section.  A missing section is refused
    with [NoSectionError], and the parser stays as it was. *)
Theorem set_changes_one_entry (self : t) (section : str) (option : string)
  (v : value) :
  falsy section = false ->
  py_eq section (default_section self) = false ->
  (has_section self section = false ->
   set self section option v
   = (self, Raise (Exc NoSectionError (str_val section))))
  /\ (has_section self section = true ->
      exists self',
        set self section option v = (self', Return tt)
        /\ _defaults self' = _defaults self
        /\ sections self' = sections self
        /\ (forall other option' fallback vars,
              str_val other <> str_val section ->
              get self' other option' fallback vars
              = get self other option' fallback vars)
        /\ (forall option' fallback vars,
              option' <> option ->
              get self' section option' fallback vars
              = get self section option' fallback vars)).
Proof.
  intros Hfalsy Hne. unfold set, has_section, dict_contains.
  rewrite Hfalsy, Hne. simpl.
  destruct (dict_get String.eqb (str_val section) (_sections self))
    as [m|] eqn:Hm; (split; [intros H|intros H]);
    [discriminate H | | reflexivity | discriminate H].
  eexists. split; [reflexivity|]. split; [reflexivity|].
  split; [|split].
  - unfold sections. simpl. rewrite dict_keys_set.
    unfold dict_contains. now rewrite Hm.
  - intros other option' fallback vars Hother.
    unfold get, default_section. simpl.
    rewrite dict_get_set_other by exact Hother.
    destruct (py_is other (_default_section self)); [reflexivity|].
    destruct (dict_get String.eqb (str_val other) (_sections self))
      as [[own|own]|]; reflexivity.
  - intros option' fallback vars Hopt.
    unfold get, default_section. simpl.
    unfold default_section in Hne. rewrite (py_eq_false_py_is _ _ Hne).
    rewrite dict_get_set_same, Hm. simpl.
    assert (Hsame :
              section_mapping
                {| _default_section := _default_section self;
                   _defaults := _defaults self;
                   _sections :=
                     dict_set String.eqb (str_val section)
                       (section_setitem m option v) (_sections self);
                   _proxies := _proxies self |}
                (section_setitem m option v) option'
              = section_mapping self m option')
      by (destruct m; simpl; unfold chain, dict_mapping;
          now rewrite dict_get_set_other).
    destruct vars as [d|]; unfold chain; now rewrite Hsame.
Qed.

Lemma set_changes_one_entry_witness :
  let self := fst (add_section (fst (add_section fresh (Str 7 "s")))
                     (Str 8 "t")) in
  set self (Str 9 "u") "k" JNull = (self, Raise (Exc NoSectionError "u"))
  /\ exists self',
       set self (Str 7 "s") "k" JNull = (self', Return tt)
       /\ _defaults self' = _defaults self
       /\ sections self' = sections self
       /\ (forall other option' fallback vars,
             str_val other <> "s" ->
             get self' other option' fallback vars
             = get self other option' fallback vars)
       /\ (forall option' fallback vars,
             option' <> "k" ->
             get self' (Str 7 "s") option' fallback vars
             = get self (Str 7 "s") option' fallback vars).
Proof.
  intros self. split.
  - apply (proj1 (set_changes_one_entry self (Str 9 "u") "k" JNull
                    eq_refl eq_refl)).
    reflexivity.
  - apply (proj2 (set_changes_one_entry self (Str 7 "s") "k" JNull
                    eq_refl eq_refl)).
    reflexivity.
Defined.

Lemma py_eq_refl a : py_eq a a = true.
Proof. unfold py_eq. apply String.eqb_refl. Qed.

(** A section made by [add_section] sees the defaults as they are now, not
    as they were when it was made: after [set] on the default section,
    [get] in the section gives the new value, unless the section has an
    entry of its own for the option, which wins. *)
Theorem defaults_seen_through_section (self : t) (section : str)
  (own : odict value) (option : string) (v : value) :
  py_eq section (default_section self) = false ->
  dict_get String.eqb (str_val section) (_sections self)
  = Some (ChainMap own) ->
  exists self',
    set self (default_section self) option v = (self', Return tt)
    /\ forall fallback,
         get self' section option fallback None
         = Return match dict_get String.eqb option own with
                  | Some w => w
                  | None => v
                  end.
Proof.
  intros Hne Hsec. unfold set. rewrite py_eq_refl, orb_true_r.
  eexists. split; [reflexivity|]. intros fallback.
  rewrite get_in_ChainMap_section with (own := own).
  - unfold chain, dict_mapping. simpl.
    destruct (dict_get String.eqb option own); [reflexivity|].
    now rewrite dict_get_set_same.
  - apply py_eq_false_py_is. exact Hne.
  - exact Hsec.
Qed.

Lemma defaults_seen_through_section_witness :
  let self := fst (set (fst (add_section fresh (Str 7 "s")))
                     (Str 7 "s") "a" (JInt 1)) in
  (exists self',
     set self DEFAULT_SECT "a" (JInt 2) = (self', Return tt)
     /\ forall fallback,
          get self' (Str 7 "s") "a" fallback None = Return (JInt 1))
  /\ (exists self',
        set self DEFAULT_SECT "b" (JInt 2) = (self', Return tt)
        /\ forall fallback,
             get self' (Str 7 "s") "b" fallback None = Return (JInt 2)).
Proof.
  intros self. split.
  - apply (defaults_seen_through_section self (Str 7 "s") [("a", JInt 1)]
             "a" (JInt 2)); reflexivity.
  - apply (defaults_seen_through_section self (Str 7 "s") [("a", JInt 1)]
             "b" (JInt 2)); reflexivity.
Defined.

Lemma stored_is_not_default self section :
  class_invariant self ->
  has_section self section = true ->
  py_eq section (default_section self) = false.
Proof.
  intros (Hdef & _ & _) Hhas. unfold py_eq.
  destruct (String.eqb (str_val section) (str_val (default_section self)))
    eqn:E; auto.
  apply String.eqb_eq in E. unfold has_section in Hhas.
  rewrite E in Hhas. congruence.
Qed.

(** What [remove_section] does to a stored section. *)
Lemma remove_section_effect self section :
  class_invariant self ->
  has_section self section = true ->
  remove_section self section
  = ({| _default_section := _default_section self;
        _defaults := _defaults self;
        _sections := dict_del String.eqb (str_val section) (_sections self);
        _proxies := dict_del String.eqb (str_val section) (_proxies self) |},
     Return true).
Proof.
  intros (Hdef & Hnd & Hprox) Hhas. unfold remove_section.
  unfold has_section in Hhas. rewrite Hhas.
  unfold dict_delitem. now rewrite (Hprox _ Hhas).
Qed.

(** After [remove_section] of a stored section the section is gone: [get]
    raises [NoSectionError] for it, with or without fallback; the other
    sections keep their order and [get] gives for them what it gave. *)
Theorem remove_section_forgets (self : t) (section : str) :
  class_invariant self ->
  has_section self section = true ->
  exists self',
    remove_section self section = (self', Return true)
    /\ has_section self' section = false
    /\ sections self'
       = filter (fun k => negb (String.eqb (str_val section) k))
           (sections self)
    /\ (forall option fallback vars,
          get self' section option fallback vars
          = Raise (Exc NoSectionError (str_val section)))
    /\ (forall other option fallback vars,
          str_val other <> str_val section ->
          get self' other option fallback vars
          = get self other option fallback vars).
Proof.
  intros Hinv Hhas. rewrite (remove_section_effect _ _ Hinv Hhas).
  pose proof (stored_is_not_default _ _ Hinv Hhas) as Hne.
  destruct Hinv as (Hdef & Hnd & Hprox).
  eexists. split; [reflexivity|]. split; [|split; [|split]].
  - unfold has_section. simpl. now apply dict_contains_del_same.
  - unfold sections. simpl. now apply dict_keys_del.
  - intros option fallback vars. unfold get, default_section. simpl.
    unfold default_section in Hne. rewrite (py_eq_false_py_is _ _ Hne).
    pose proof (dict_contains_del_same (str_val section) (_sections self) Hnd)
      as Hgone.
    unfold dict_contains in Hgone.
    destruct (dict_get String.eqb (str_val section)
                (dict_del String.eqb (str_val section) (_sections self)));
      [discriminate | reflexivity].
  - intros other option fallback vars Hother.
    unfold get, default_section. simpl.
    rewrite dict_get_del_other by exact Hother.
    destruct (py_is other (_default_section self)); [reflexivity|].
    destruct (dict_get String.eqb (str_val other) (_sections self))
      as [[own|own]|]; reflexivity.
Qed.

Lemma remove_section_forgets_witness :
  let self := fst (add_section (fst (add_section fresh (Str 7 "s")))
                     (Str 8 "t")) in
  exists self',
    remove_section self (Str 7 "s") = (self', Return true)
    /\ has_section self' (Str 7 "s") = false
    /\ sections self' = ["t"]
    /\ (forall option fallback vars,
          get self' (Str 7 "s") option fallback vars
          = Raise (Exc NoSectionError "s"))
    /\ (forall other option fallback vars,
          str_val other <> "s" ->
          get self' other option fallback vars
          = get self other option fallback vars).
Proof.
  intros self.
  apply (remove_section_forgets self (Str 7 "s")
           (add_section_invariant _ (Str 8 "t")
              (add_section_invariant _ (Str 7 "s") fresh_invariant))).
  reflexivity.
Defined.

(** A section that is removed and added again comes back empty: the value
    that was [set] in it is gone, and [get] gives what the defaults give. *)
Theorem readded_section_is_empty (self : t) (section : str)
  (option : string) (v : value) :
  class_invariant self ->
  falsy section = false ->
  py_eq section (default_section self) = false ->
  has_section self section = false ->
  let s1 := fst (add_section self section) in
  let s2 := fst (set s1 section option v) in
  let s3 := fst (remove_section s2 section) in
  let s4 := fst (add_section s3 section) in
  get s2 section option None None = Return v
  /\ get s4 section option None None
     = match dict_get String.eqb option (_defaults self) with
       | Some w => Return w
       | None => Raise (Exc NoOptionError option)
       end.
Proof.
  intros Hinv Hfalsy Hne Hnew s1 s2 s3 s4.
  pose proof (py_eq_false_py_is _ _ Hne) as His.
  assert (Hinv1 : class_invariant s1) by now apply add_section_invariant.
  assert (Hinv2 : class_invariant s2) by now apply set_invariant.
  assert (Hs1 : s1 = {| _default_section := _default_section self;
                        _defaults := _defaults self;
                        _sections :=
                          dict_set String.eqb (str_val section) (ChainMap [])
                            (_sections self);
                        _proxies :=
                          dict_set String.eqb (str_val section)
                            (SectionProxy section) (_proxies self) |}).
  { unfold s1, add_section. unfold has_section in Hnew.
    now rewrite Hne, Hnew. }
  assert (Hs2 : s2 = {| _default_section := _default_section self;
                        _defaults := _defaults self;
                        _sections :=
                          dict_set String.eqb (str_val section)
                            (ChainMap [(option, v)]) (_sections s1);
                        _proxies := _proxies s1 |}).
  { unfold s2. rewrite Hs1. unfold set, default_section. simpl.
    unfold default_section in Hne.
    now rewrite Hfalsy, Hne, dict_get_set_same. }
  assert (Hhas2 : has_section s2 section = true).
  { rewrite Hs2. unfold has_section. simpl.
    now rewrite dict_contains_set, String.eqb_refl. }
  split.
  - rewrite get_in_ChainMap_section with (own := [(option, v)]).
    + unfold chain, dict_mapping. simpl. now rewrite String.eqb_refl.
    + rewrite Hs2. exact His.
    + rewrite Hs2. simpl. apply dict_get_set_same.
  - assert (Hs3 : _default_section s3 = _default_section self
                  /\ _defaults s3 = _defaults self
                  /\ has_section s3 section = false).
    { unfold s3. rewrite (remove_section_effect _ _ Hinv2 Hhas2).
      rewrite Hs2. simpl. repeat split.
      unfold has_section. simpl. apply dict_contains_del_same.
      destruct Hinv2 as (_ & Hnd & _). rewrite Hs2 in Hnd. exact Hnd. }
    destruct Hs3 as (Hd3 & Hdef3 & Hnew3).
    assert (Hne3 : py_eq section (default_section s3) = false)
      by (unfold default_section; rewrite Hd3; exact Hne).
    rewrite get_in_ChainMap_section with (own := []).
    + unfold chain, dict_mapping. simpl.
      replace (_defaults s4) with (_defaults self); [reflexivity|].
      unfold s4, add_section. unfold has_section in Hnew3.
      rewrite Hne3, Hnew3. simpl. now rewrite Hdef3.
    + unfold s4, add_section. unfold has_section in Hnew3.
      rewrite Hne3, Hnew3. unfold default_section. simpl.
      apply py_eq_false_py_is. exact Hne3.
    + unfold s4. apply add_section_makes_ChainMap with (self := s3).
      unfold add_section. unfold has_section in Hnew3.
      now rewrite Hne3, Hnew3.
Qed.

Lemma readded_section_is_empty_witness :
  let self := fst (set fresh DEFAULT_SECT "b" (JInt 0)) in
  let s1 := fst (add_section self (Str 7 "s")) in
  let s2 := fst (set s1 (Str 7 "s") "a" (JInt 1)) in
  let s3 := fst (remove_section s2 (Str 7 "s")) in
  let s4 := fst (add_section s3 (Str 7 "s")) in
  get s2 (Str 7 "s") "a" None None = Return (JInt 1)
  /\ get s4 (Str 7 "s") "a" None None = Raise (Exc NoOptionError "a").
Proof.
  apply (readded_section_is_empty
           (fst (set fresh DEFAULT_SECT "b" (JInt 0))) (Str 7 "s") "a" (JInt 1)
           (set_invariant fresh DEFAULT_SECT "b" (JInt 0) fresh_invariant));
    reflexivity.
Defined.

(** For a section made by [add_section] and for the default section,
    [has_option] says whether [get] finds the option; for a name that is not
    stored, [has_option] is false and raises nothing. *)
Theorem has_option_agrees_with_get (self : t) (section : str)
  (option : string) :
  (forall own,
     falsy section = false ->
     py_eq section (default_section self) = false ->
     dict_get String.eqb (str_val section) (_sections self)
     = Some (ChainMap own) ->
     (has_option self section option = true
      <-> exists v, get self section option None None = Return v))
  /\ (py_is section (default_section self) = true ->
      (has_option self section option = true
       <-> exists v, get self section option None None = Return v))
  /\ (falsy section = false ->
      py_eq section (default_section self) = false ->
      has_section self section = false ->
      has_option self section option = false).
Proof.
  split; [|split].
  - intros own Hfalsy Hne Hsec.
    rewrite get_in_ChainMap_section with (own := own);
      [|now apply py_eq_false_py_is|exact Hsec].
    unfold has_option. rewrite Hfalsy, Hne, Hsec. simpl.
    unfold contains, chain, dict_mapping.
    destruct (dict_get String.eqb option own) as [w|].
    + split; eauto.
    + destruct (dict_get String.eqb option (_defaults self)) as [w|].
      * split; eauto.
      * split; [discriminate | intros [v' [=]]].
  - intros His. unfold has_option, get.
    rewrite His, (py_is_py_eq _ _ His), orb_true_r. simpl.
    unfold contains, dict_mapping.
    destruct (dict_get String.eqb option (_defaults self)) as [w|].
    + split; eauto.
    + split; [discriminate | intros [v' [=]]].
  - intros Hfalsy Hne Hnew. unfold has_option. rewrite Hfalsy, Hne. simpl.
    unfold has_section, dict_contains in Hnew.
    destruct (dict_get String.eqb (str_val section) (_sections self));
      [discriminate | reflexivity].
Qed.

Lemma has_option_agrees_with_get_witness :
  let self := fst (set (fst (add_section fresh (Str 7 "s")))
                     DEFAULT_SECT "a" (JInt 1)) in
  (has_option self (Str 7 "s") "a" = true
   <-> exists v, get self (Str 7 "s") "a" None None = Return v)
  /\ (has_option self DEFAULT_SECT "a" = true
      <-> exists v, get self DEFAULT_SECT "a" None None = Return v)
  /\ has_option self (Str 9 "u") "a" = false.
Proof.
  intros self. split; [|split].
  - apply (proj1 (has_option_agrees_with_get self (Str 7 "s") "a") []);
      reflexivity.
  - apply (proj1 (proj2 (has_option_agrees_with_get self DEFAULT_SECT "a"))).
    reflexivity.
  - apply (proj2 (proj2 (has_option_agrees_with_get self (Str 9 "u") "a")));
      reflexivity.
Defined.

(** Reading an item through a view gives what [get] gives, and when it
    fails the exception is a [KeyError], as the mapping protocol wants:
    [KeyError] itself, [NoOptionError] or [NoSectionError]. *)
Theorem proxy_getitem_raises_only_KeyError
  (proxy : section_proxy) (parser : t) (key : string) :
  match SectionProxy.__getitem__ proxy parser key with
  | Return v => get parser (_name proxy) key None None = Return v
  | Raise e => issubclass (exc_type e) KeyError = true
  end.
Proof.
  unfold SectionProxy.__getitem__.
  destruct (has_option parser (_name proxy) key); simpl; [|reflexivity].
  unfold get.
  destruct (py_is (_name proxy) (default_section parser)); simpl.
  - destruct (dict_mapping (_defaults parser) key); reflexivity.
  - destruct (dict_get String.eqb (str_val (_name proxy)) (_sections parser))
      as [m|]; simpl; [|reflexivity].
    destruct (section_mapping parser m key); reflexivity.
Qed.

(** Each method that changes the parser keeps the class invariant: the
    default section is never stored among the sections, no section is
    stored twice, and every section has its proxy.  [read_string] keeps it
    whether it returns or raises. *)
Theorem methods_keep_class_invariant (self : t) :
  class_invariant self ->
  (forall section, class_invariant (fst (add_section self section)))
  /\ (forall section, class_invariant (fst (remove_section self section)))
  /\ (forall section option v,
        class_invariant (fst (set self section option v)))
  /\ (forall string fpname self' outcome,
        read_string self string fpname = Some (self', outcome) ->
        class_invariant self').
Proof.
  intros Hinv. split; [|split; [|split]].
  - intros section. now apply add_section_invariant.
  - intros section. now apply remove_section_invariant.
  - intros section option v. now apply set_invariant.
  - intros string fpname self' outcome. now apply read_string_invariant.
Qed.

Lemma methods_keep_class_invariant_witness :
  class_invariant (fst (add_section fresh (Str 7 "s")))
  /\ exists self' e,
       read_string fresh ("[s]" ++ LF ++ "a = 1 2" ++ LF) None
       = Some (self', Raise e)
       /\ class_invariant self'.
Proof.
  split.
  - apply (proj1 (methods_keep_class_invariant fresh fresh_invariant)).
  - eexists. eexists. split; [reflexivity|].
    apply (proj2 (proj2 (proj2
             (methods_keep_class_invariant fresh fresh_invariant)))
             ("[s]" ++ LF ++ "a = 1 2" ++ LF) None _ _ eq_refl).
Defined.

(** * More of the scanner *)

(** ** The outcome of a parse does not depend on the parser *)

Lemma loop_body_same_scan string fpname st1 st2 :
  same_scan st1 st2 ->
  match loop_body string fpname st1, loop_body string fpname st2 with
  | Some (Next a), Some (Next b) => same_scan a b
  | Some (Raised _ e1), Some (Raised _ e2) => e1 = e2
  | None, None => True
  | _, _ => False
  end.
Proof.
  destruct st1 as [self1 sa1 ea1 sn1 cur1 i1 ln1].
  destruct st2 as [self2 sa2 ea2 sn2 cur2 i2 ln2].
  intros (Hsa & Hea & Hsn & Hidx & Hln & Hcur). simpl in *. subst.
  unfold loop_body. simpl.
  destruct (String.get i2 string) as [c|]; [|reflexivity].
  destruct (Ascii.eqb c "[").
  { destruct (_header_re string i2) as [mo|]; [|reflexivity].
    destruct (set_contains (group mo) sa2); [reflexivity|].
    destruct (String.eqb (group mo) (str_val (default_section self1)));
      [|destruct (dict_contains String.eqb (group mo) (_sections self1))];
      (destruct (String.eqb (group mo) (str_val (default_section self2)));
       [|destruct (dict_contains String.eqb (group mo) (_sections self2))]);
      simpl; repeat split; discriminate. }
  destruct (Ascii.eqb c "#" || Ascii.eqb c "010" || Ascii.eqb c "013").
  { destruct (_blank_re string i2) as [mo|]; [|reflexivity].
    simpl. repeat split; apply Hcur. }
  destruct (_key_re string i2) as [mo|]; [|reflexivity].
  destruct (set_contains (group mo) ea2); [reflexivity|].
  destruct (raw_decode string (mo_end mo)) as [[[optval e]|]|];
    [|reflexivity|exact I].
  assert (Hset :
            match cursect_setitem self1 cur1 (group mo) optval,
                  cursect_setitem self2 cur2 (group mo) optval with
            | Return _, Return _ => True
            | Raise e1, Raise e2 => e1 = e2
            | _, _ => False
            end).
  { destruct cur1 as [| |n1]; destruct cur2 as [| |n2]; simpl;
      try reflexivity; try exact I;
      try (exfalso; destruct Hcur as [H1 H2];
           (discriminate (H1 eq_refl) || discriminate (H2 eq_refl)));
      repeat match goal with
        | |- context [dict_get String.eqb ?n ?d] =>
            destruct (dict_get String.eqb n d)
        end; exact I. }
  destruct (cursect_setitem self1 cur1 (group mo) optval) as [s1|e1];
    destruct (cursect_setitem self2 cur2 (group mo) optval) as [s2|e2];
    try contradiction; [|exact Hset].
  destruct (_eol_re string e); [|reflexivity].
  simpl. repeat split; apply Hcur.
Qed.

Lemma read_loop_same_scan fuel :
  forall string fpname st1 st2,
    same_scan st1 st2 ->
    option_map snd (read_loop fuel string fpname st1)
    = option_map snd (read_loop fuel string fpname st2).
Proof.
  induction fuel as [|fuel IH]; intros string fpname st1 st2 Hsame;
    pose proof Hsame as (_ & _ & _ & Hidx & _); simpl; rewrite Hidx;
    destruct (Nat.ltb (idx st2) (String.length string)); try reflexivity.
  pose proof (loop_body_same_scan string fpname st1 st2 Hsame) as Hbody.
  destruct (loop_body string fpname st1) as [[a|s1 e1]|];
    destruct (loop_body string fpname st2) as [[b|s2 e2]|];
    try contradiction; try reflexivity.
  - now apply IH.
  - simpl. now subst.
Qed.

(** Whether [read_string] returns or raises, and what it raises, depends on
    the text alone: the sections and options that the parser already holds,
    from [set], [add_section] or an earlier text, have no part in it.  The
    duplicates that it reports are those of the text. *)
Theorem read_string_outcome_depends_on_text
  (self1 self2 : t) (string : string)
  (fpname : Datatypes.option String.string) :
  option_map snd (read_string self1 string fpname)
  = option_map snd (read_string self2 string fpname).
Proof.
  unfold read_string. apply read_loop_same_scan.
  repeat split; auto.
Qed.

(** ** The scanner only adds *)

Lemma is_prefix_refl {A : Type} (l : list A) : is_prefix l l.
Proof. exists []. now rewrite app_nil_r. Qed.

Lemma is_prefix_trans {A : Type} (l1 l2 l3 : list A) :
  is_prefix l1 l2 -> is_prefix l2 l3 -> is_prefix l1 l3.
Proof.
  intros [r1 ->] [r2 ->]. exists (r1 ++ r2)%list. now rewrite app_assoc.
Qed.

Lemma is_prefix_dict_set {V : Type} k (v : V) d :
  is_prefix (dict_keys d) (dict_keys (dict_set String.eqb k v d)).
Proof.
  rewrite dict_keys_set. destruct (dict_contains String.eqb k d).
  - apply is_prefix_refl.
  - now exists [k].
Qed.

Lemma same_class_refl m : same_class m m.
Proof. now destruct m. Qed.

Lemma same_class_trans m1 m2 m3 :
  same_class m1 m2 -> same_class m2 m3 -> same_class m1 m3.
Proof. destruct m1, m2, m3; simpl; tauto. Qed.

Lemma grows_refl self : grows self self.
Proof.
  repeat split; try apply is_prefix_refl.
  intros name m Hm. exists m. repeat split; auto.
  - apply same_class_refl.
  - apply is_prefix_refl.
Qed.

Lemma grows_trans s1 s2 s3 : grows s1 s2 -> grows s2 s3 -> grows s1 s3.
Proof.
  intros (Hd1 & Hk1 & Hs1 & Hm1) (Hd2 & Hk2 & Hs2 & Hm2).
  repeat split.
  - congruence.
  - eapply is_prefix_trans; eauto.
  - eapply is_prefix_trans; eauto.
  - intros name m Hm. destruct (Hm1 _ _ Hm) as (m' & Hm' & Hc & Hp).
    destruct (Hm2 _ _ Hm') as (m'' & Hm'' & Hc' & Hp').
    exists m''. repeat split; auto.
    + eapply same_class_trans; eauto.
    + eapply is_prefix_trans; eauto.
Qed.

Lemma grows_new_section self name m0 proxy :
  dict_contains String.eqb name (_sections self) = false ->
  grows self
    {| _default_section := _default_section self;
       _defaults := _defaults self;
       _sections := dict_set String.eqb name m0 (_sections self);
       _proxies := dict_set String.eqb name proxy (_proxies self) |}.
Proof.
  intros Hnew. repeat split; simpl.
  - apply is_prefix_refl.
  - apply is_prefix_dict_set.
  - intros name' m Hm. exists m. repeat split.
    + rewrite dict_get_set_other; auto.
      intros ->. unfold dict_contains in Hnew. now rewrite Hm in Hnew.
    + apply same_class_refl.
    + apply is_prefix_refl.
Qed.

Lemma cursect_setitem_grows self cur optname optval self' :
  cursect_setitem self cur optname optval = Return self' ->
  grows self self'.
Proof.
  destruct cur as [| |name]; simpl.
  - discriminate.
  - intros [= <-]. repeat split; simpl.
    + apply is_prefix_dict_set.
    + apply is_prefix_refl.
    + intros name m Hm. exists m. repeat split; auto.
      * apply same_class_refl.
      * apply is_prefix_refl.
  - destruct (dict_get String.eqb name (_sections self)) as [m0|] eqn:Hm0;
      intros [= <-]; [|apply grows_refl].
    repeat split; simpl.
    + apply is_prefix_refl.
    + apply is_prefix_dict_set.
    + intros name' m Hm.
      destruct (String.eqb name' name) eqn:E.
      * apply String.eqb_eq in E. subst name'.
        rewrite Hm0 in Hm. injection Hm as <-.
        exists (section_setitem m0 optname optval).
        rewrite dict_get_set_same. repeat split.
        -- now destruct m0.
        -- destruct m0; simpl; apply is_prefix_dict_set.
      * apply String.eqb_neq in E. exists m.
        rewrite dict_get_set_other by exact E. repeat split; auto.
        -- apply same_class_refl.
        -- apply is_prefix_refl.
Qed.

Lemma loop_body_grows string fpname st :
  match loop_body string fpname st with
  | Some (Next st') => grows (self_ st) (self_ st')
  | Some (Raised self' _) => grows (self_ st) self'
  | None => True
  end.
Proof.
  unfold loop_body.
  destruct (String.get (idx st) string) as [c|]; [|apply grows_refl].
  destruct (Ascii.eqb c "[").
  { destruct (_header_re string (idx st)) as [mo|]; [|apply grows_refl].
    destruct (set_contains (group mo) (sections_added st));
      [apply grows_refl|].
    destruct (String.eqb (group mo) (str_val (default_section (self_ st))));
      [apply grows_refl|].
    destruct (dict_contains String.eqb (group mo) (_sections (self_ st)))
      eqn:Hin; [apply grows_refl|].
    simpl. now apply grows_new_section. }
  destruct (Ascii.eqb c "#" || Ascii.eqb c "010" || Ascii.eqb c "013").
  { destruct (_blank_re string (idx st)); apply grows_refl. }
  destruct (_key_re string (idx st)) as [mo|]; [|apply grows_refl].
  destruct (set_contains (group mo) (entries_added st)); [apply grows_refl|].
  destruct (raw_decode string (mo_end mo)) as [[[optval e]|]|];
    [|apply grows_refl|exact I].
  destruct (cursect_setitem (self_ st) (cursect st) (group mo) optval)
    as [self'|] eqn:Hset; [|apply grows_refl].
  apply cursect_setitem_grows in Hset.
  destruct (_eol_re string e); exact Hset.
Qed.

Lemma read_loop_grows fuel :
  forall string fpname st self' outcome,
    read_loop fuel string fpname st = Some (self', outcome) ->
    grows (self_ st) self'.
Proof.
  induction fuel as [|fuel IH]; intros string fpname st self' outcome;
    simpl; destruct (Nat.ltb (idx st) (String.length string));
    try discriminate; try (intros [= <- _]; apply grows_refl).
  pose proof (loop_body_grows string fpname st) as Hbody.
  destruct (loop_body string fpname st) as [[st'|self1 e]|];
    [|intros [= <- _]; exact Hbody|discriminate].
  intros H. eapply grows_trans; [exact Hbody|]. eapply IH. exact H.
Qed.

(** Whether it returns or raises, [read_string] only adds to the parser: it
    keeps the name of the default section, it removes no section and no
    option, it keeps their order (new ones come after those that were
    there), and a section keeps the class of its dict, so a section layered
    over the defaults stays layered. *)
Theorem read_string_only_adds
  (self : t) (string : string) (fpname : Datatypes.option String.string)
  (self' : t) (outcome : result unit) :
  read_string self string fpname = Some (self', outcome) ->
  grows self self'.
Proof. apply read_loop_grows. Qed.

Lemma read_string_only_adds_witness :
  let self := fst (set (fst (add_section fresh (Str 7 "s")))
                     (Str 7 "s") "a" (JInt 1)) in
  exists self' e,
    read_string self
      ("[t]" ++ LF ++ "b = 2" ++ LF ++ "[s]" ++ LF ++ "c = 3 4" ++ LF) None
    = Some (self', Raise e)
    /\ sections self' = ["s"; "t"]
    /\ grows self self'.
Proof.
  intros self.
  pose (text := "[t]" ++ LF ++ "b = 2" ++ LF ++ "[s]" ++ LF ++ "c = 3 4" ++ LF).
  let r := eval vm_compute in (read_string self text None) in
  match r with
  | Some (?s, Raise ?e) =>
      assert (Hread : read_string self text None = Some (s, Raise e))
        by (vm_compute; reflexivity);
      exists s, e
  end.
  split; [exact Hread|]. split; [vm_compute; reflexivity|].
  exact (read_string_only_adds self text None _ _ Hread).
Defined.

(** ** What an option line stores is there at the end of the call *)

Lemma set_contains_add x y s :
  set_contains x (set_add y s) = String.eqb x y || set_contains x s.
Proof.
  unfold set_add. destruct (set_contains y s) eqn:Hy.
  - destruct (String.eqb x y) eqn:E; auto.
    apply String.eqb_eq in E. subst. simpl. exact Hy.
  - reflexivity.
Qed.

Lemma set_contains_add_keeps x y s :
  set_contains x s = true -> set_contains x (set_add y s) = true.
Proof. intros H. rewrite set_contains_add, H. apply orb_true_r. Qed.

Lemma loop_body_keeps_default string fpname st st' :
  loop_body string fpname st = Some (Next st') ->
  _default_section (self_ st') = _default_section (self_ st).
Proof.
  intros H. pose proof (loop_body_grows string fpname st) as Hg.
  rewrite H in Hg. apply Hg.
Qed.

Lemma loop_body_registered string fpname st st' :
  cursect_registered st ->
  loop_body string fpname st = Some (Next st') ->
  cursect_registered st'.
Proof.
  intros Hreg. unfold loop_body.
  destruct (String.get (idx st) string) as [c|]; [|discriminate].
  destruct (Ascii.eqb c "[").
  { destruct (_header_re string (idx st)) as [mo|]; [|discriminate].
    destruct (set_contains (group mo) (sections_added st)); [discriminate|].
    unfold cursect_registered, default_section.
    destruct (String.eqb (group mo) (str_val (_default_section (self_ st))))
      eqn:Hd.
    { intros [= <-]. simpl. apply String.eqb_eq in Hd. rewrite <- Hd.
      now rewrite set_contains_add, String.eqb_refl. }
    destruct (dict_contains String.eqb (group mo) (_sections (self_ st)))
      eqn:Hin; intros [= <-]; simpl;
      rewrite set_contains_add, String.eqb_refl; repeat split; auto.
    now rewrite dict_contains_set, String.eqb_refl. }
  destruct (Ascii.eqb c "#" || Ascii.eqb c "010" || Ascii.eqb c "013").
  { destruct (_blank_re string (idx st)) as [mo|]; [|discriminate].
    intros [= <-]. exact Hreg. }
  destruct (_key_re string (idx st)) as [mo|]; [|discriminate].
  destruct (set_contains (group mo) (entries_added st)); [discriminate|].
  destruct (raw_decode string (mo_end mo)) as [[[optval e]|]|];
    try discriminate.
  destruct (cursect_setitem (self_ st) (cursect st) (group mo) optval)
    as [self'|] eqn:Hset; [|discriminate].
  destruct (_eol_re string e); [|discriminate].
  intros [= <-]. unfold cursect_registered in *. simpl.
  pose proof (cursect_setitem_grows _ _ _ _ _ Hset) as (Hdef & _ & _ & Hm).
  destruct (cursect st) as [| |n]; auto.
  - now rewrite Hdef.
  - destruct Hreg as (Hsa & Hin & Hne). rewrite Hdef. repeat split; auto.
    unfold dict_contains in *.
    destruct (dict_get String.eqb n (_sections (self_ st))) as [m0|] eqn:Hn;
      [|discriminate].
    destruct (Hm _ _ Hn) as (m' & -> & _). reflexivity.
Qed.

Lemma scans_registered string fpname st st' :
  scans string fpname st st' ->
  cursect_registered st -> cursect_registered st'.
Proof.
  induction 1 as [st | st st1 st2 Hlt Hbody Hscans IH]; auto.
  intros Hreg. apply IH. eapply loop_body_registered; eauto.
Qed.

Lemma cursect_setitem_sets self cur key v self' :
  (forall n, cur = cursect_section n ->
             dict_contains String.eqb n (_sections self) = true) ->
  cursect_setitem self cur key v = Return self' ->
  cursect_getitem self' cur key = Some v.
Proof.
  intros Hstored. destruct cur as [| |n]; simpl.
  - discriminate.
  - intros [= <-]. simpl. apply dict_get_set_same.
  - specialize (Hstored n eq_refl). unfold dict_contains in Hstored.
    destruct (dict_get String.eqb n (_sections self)) as [m|];
      [|discriminate].
    intros [= <-]. simpl. rewrite dict_get_set_same.
    apply section_own_setitem.
Qed.

Lemma cursect_setitem_keeps self cur key' v' self' ref key v :
  cursect_setitem self cur key' v' = Return self' ->
  cursect_getitem self ref key = Some v ->
  (cur = ref -> key <> key') ->
  cursect_getitem self' ref key = Some v.
Proof.
  destruct cur as [| |n']; simpl.
  - discriminate.
  - intros [= <-] Hget Hne. destruct ref as [| |n]; simpl in *; auto.
    rewrite dict_get_set_other; auto.
  - destruct (dict_get String.eqb n' (_sections self)) as [m0|] eqn:Hm0;
      intros [= <-] Hget Hne; auto.
    destruct ref as [| |n]; simpl in *; auto.
    destruct (String.eqb n n') eqn:E.
    + apply String.eqb_eq in E. subst n'.
      rewrite dict_get_set_same. rewrite Hm0 in Hget.
      destruct m0; simpl in *; rewrite dict_get_set_other; auto.
    + apply String.eqb_neq in E. now rewrite dict_get_set_other.
Qed.

Lemma loop_body_entry_kept string fpname ref key v st :
  entry_kept ref key v st ->
  match loop_body string fpname st with
  | Some (Next st') => entry_kept ref key v st'
  | Some (Raised self' _) => cursect_getitem self' ref key = Some v
  | None => True
  end.
Proof.
  intros (Hget & Hname & Hknown). unfold loop_body.
  destruct (String.get (idx st) string) as [c|]; [|exact Hget].
  destruct (Ascii.eqb c "[").
  { destruct (_header_re string (idx st)) as [mo|]; [|exact Hget].
    destruct (set_contains (group mo) (sections_added st)) eqn:Hnew;
      [exact Hget|].
    unfold default_section.
    assert (Hother : forall n,
               set_contains n (sections_added st) = true -> n <> group mo).
    { intros n Hn ->. congruence. }
    destruct (String.eqb (group mo) (str_val (_default_section (self_ st))))
      eqn:Hd.
    { apply String.eqb_eq in Hd. repeat split; simpl; auto.
      - destruct ref; auto; now apply set_contains_add_keeps.
      - intros <-. exfalso. apply (Hother _ Hname). now rewrite Hd. }
    destruct (dict_contains String.eqb (group mo) (_sections (self_ st))).
    { repeat split; simpl; auto.
      - destruct ref; auto; now apply set_contains_add_keeps.
      - intros <-. exfalso. now apply (Hother _ Hname). }
    repeat split; simpl.
    - destruct ref as [| |n]; simpl in *; auto.
      rewrite dict_get_set_other; auto.
    - destruct ref; auto; now apply set_contains_add_keeps.
    - intros <-. exfalso. now apply (Hother _ Hname). }
  destruct (Ascii.eqb c "#" || Ascii.eqb c "010" || Ascii.eqb c "013").
  { destruct (_blank_re string (idx st)) as [mo|]; [|exact Hget].
    repeat split; auto. }
  destruct (_key_re string (idx st)) as [mo|]; [|exact Hget].
  destruct (set_contains (group mo) (entries_added st)) eqn:Hfresh;
    [exact Hget|].
  destruct (raw_decode string (mo_end mo)) as [[[optval e]|]|];
    [|exact Hget|exact I].
  destruct (cursect_setitem (self_ st) (cursect st) (group mo) optval)
    as [self'|] eqn:Hset; [|exact Hget].
  assert (Hget' : cursect_getitem self' ref key = Some v).
  { eapply cursect_setitem_keeps; eauto.
    intros Hcur ->. rewrite (Hknown Hcur) in Hfresh. discriminate. }
  pose proof (cursect_setitem_grows _ _ _ _ _ Hset) as (Hdef & _).
  destruct (_eol_re string e); [|exact Hget'].
  repeat split; simpl; auto.
  - destruct ref; auto. now rewrite Hdef.
  - intros Hcur. apply set_contains_add_keeps. auto.
Qed.

Lemma read_loop_entry_kept fuel :
  forall string fpname ref key v st self' outcome,
    entry_kept ref key v st ->
    read_loop fuel string fpname st = Some (self', outcome) ->
    cursect_getitem self' ref key = Some v.
Proof.
  induction fuel as [|fuel IH];
    intros string fpname ref key v st self' outcome Hkept;
    simpl; destruct (Nat.ltb (idx st) (String.length string));
    try discriminate; try (intros [= <- _]; apply Hkept).
  pose proof (loop_body_entry_kept string fpname ref key v st Hkept) as Hbody.
  destruct (loop_body string fpname st) as [[st'|self1 e]|];
    [|intros [= <- _]; exact Hbody|discriminate].
  eapply IH. exact Hbody.
Qed.

Lemma assignment_entry_kept string fpname st st1 mo v e :
  cursect_registered st ->
  _key_re string (idx st) = Some mo ->
  raw_decode string (mo_end mo) = Some (Return (v, e)) ->
  loop_body string fpname st = Some (Next st1) ->
  entry_kept (cursect st) (group mo) v st1 /\ cursect st1 = cursect st.
Proof.
  intros Hreg Hkey Hdec.
  destruct (key_re_first_char _ _ _ Hkey) as (c & Hget & Hc).
  destruct (name_char_not_special _ Hc) as [Hbr Hbl].
  unfold loop_body. rewrite Hget, Hbr, Hbl, Hkey.
  destruct (set_contains (group mo) (entries_added st)); [discriminate|].
  rewrite Hdec.
  destruct (cursect_setitem (self_ st) (cursect st) (group mo) v)
    as [self'|] eqn:Hset; [|discriminate].
  destruct (_eol_re string e); [|discriminate].
  intros [= <-]. simpl. split; [|reflexivity].
  pose proof (cursect_setitem_grows _ _ _ _ _ Hset) as (Hdef & _).
  unfold cursect_registered in Hreg. repeat split; simpl.
  - eapply cursect_setitem_sets; eauto.
    intros n Hn. rewrite Hn in Hreg. apply Hreg.
  - destruct (cursect st) as [| |n] eqn:Hcur.
    + simpl in Hset. discriminate.
    + now rewrite Hdef.
    + apply Hreg.
  - intros _. now rewrite set_contains_add, String.eqb_refl.
Qed.

(** The value of an option line that the scanner has run is the value that
    [get] gives at the end of the call, whether the call then returns or
    raises further down: in the default section for a line under the
    header of the default section, and in the section of its header
    otherwise.  Nothing later in the same text can replace it. *)
Theorem parsed_value_is_kept
  (self : t) (string : string) (fpname : Datatypes.option String.string)
  (st st1 : scan_state) (mo : match_object) (v : value) (e : nat)
  (self' : t) (outcome : result unit) :
  scans string fpname (scan_start self) st ->
  _key_re string (idx st) = Some mo ->
  raw_decode string (mo_end mo) = Some (Return (v, e)) ->
  loop_body string fpname st = Some (Next st1) ->
  read_string self string fpname = Some (self', outcome) ->
  match cursect st with
  | cursect_None => False
  | cursect_defaults =>
      get self' (default_section self') (group mo) None None = Return v
  | cursect_section n =>
      forall addr, get self' (Str addr n) (group mo) None None = Return v
  end.
Proof.
  intros Hscans Hkey Hdec Hbody Hread.
  assert (Hreg : cursect_registered st)
    by (eapply scans_registered; [exact Hscans | exact I]).
  destruct (assignment_entry_kept _ _ _ _ _ _ _ Hreg Hkey Hdec Hbody)
    as [Hkept Hcur1].
  assert (Hscans1 : scans string fpname (scan_start self) st1).
  { clear - Hscans Hbody.
    assert (Hlt : idx st < String.length string).
    { unfold loop_body in Hbody.
      destruct (String.get (idx st) string) eqn:Hg; [|discriminate].
      eapply get_Some_lt; eauto. }
    induction Hscans as [st | sa sb sc Hlt' Hb Hs IH].
    - eapply scans_next; [exact Hlt | exact Hbody | apply scans_here].
    - eapply scans_next; [exact Hlt' | exact Hb | now apply IH]. }
  unfold read_string in Hread.
  destruct (scans_read_loop _ _ _ _ Hscans1 (String.length string))
    as (fuel & _ & Heq); [simpl; lia|].
  rewrite Heq in Hread.
  pose proof (read_loop_entry_kept _ _ _ _ _ _ _ _ _ Hkept Hread) as Hfinal.
  pose proof (read_loop_grows _ _ _ _ _ _ Hread) as (Hdef & _).
  pose proof (loop_body_keeps_default _ _ _ _ Hbody) as Hdef1.
  unfold cursect_registered in Hreg.
  destruct (cursect st) as [| |n]; simpl in Hfinal.
  - discriminate.
  - unfold get. rewrite py_is_refl. simpl. unfold dict_mapping.
    now rewrite Hfinal.
  - intros addr. destruct Hreg as (_ & _ & Hne).
    unfold get, py_is, default_section. simpl.
    rewrite Hdef, Hdef1, Hne, andb_false_r.
    destruct (dict_get String.eqb n (_sections self')) as [m|];
      [|discriminate].
    simpl. destruct m as [own|own]; simpl in *;
      unfold chain, dict_mapping; now rewrite Hfinal.
Qed.

Lemma parsed_value_is_kept_witness :
  exists self' e,
    read_string fresh
      ("[s]" ++ LF ++ "a = [1, 2]" ++ LF ++ "b = 3" ++ LF ++ "c = 4 5" ++ LF)
      None
    = Some (self', Raise e)
    /\ forall addr,
         get self' (Str addr "s") "a" None None
         = Return (JArray [JInt 1; JInt 2]).
Proof.
  pose (text := "[s]" ++ LF ++ "a = [1, 2]" ++ LF ++ "b = 3" ++ LF
                  ++ "c = 4 5" ++ LF).
  let r0 := eval vm_compute in (loop_body text None (scan_start fresh)) in
  match r0 with
  | Some (Next ?st) =>
      let r1 := eval vm_compute in (loop_body text None st) in
      match r1 with
      | Some (Next ?st1) =>
          let r := eval vm_compute in (read_string fresh text None) in
          match r with
          | Some (?s, Raise ?e) =>
              assert (Hb0 : loop_body text None (scan_start fresh)
                            = Some (Next st)) by (vm_compute; reflexivity);
              assert (Hb1 : loop_body text None st = Some (Next st1))
                by (vm_compute; reflexivity);
              assert (Hread : read_string fresh text None
                              = Some (s, Raise e))
                by (vm_compute; reflexivity);
              exists s, e; split; [exact Hread|];
              refine (parsed_value_is_kept fresh text None st st1
                        (Match "a" 8) (JArray [JInt 1; JInt 2]) 14
                        s (Raise e) _ _ _ Hb1 Hread)
          end
      end
  end.
  - eapply scans_next; [vm_compute; lia | exact Hb0 | apply scans_here].
  - vm_compute; reflexivity.
  - vm_compute; reflexivity.
Defined.

(** ** Duplicate headers are those of one call *)

Lemma append_assoc (a b c : string) : (a ++ b) ++ c = a ++ b ++ c.
Proof. induction a as [|x a IH]; simpl; [reflexivity | now rewrite IH]. Qed.

Lemma drop_add n k s : drop (n + k) s = drop k (drop n s).
Proof.
  revert s. induction n as [|n IH]; intros s; [reflexivity|].
  destruct s as [|c r]; [now destruct k | apply IH].
Qed.

Lemma header_line_app name post :
  header_line name ++ post
  = String "[" (name ++ String "]" (String "010" post)).
Proof.
  unfold header_line, LF. simpl. f_equal. now rewrite append_assoc.
Qed.

Lemma header_line_length name :
  String.length (header_line name) = String.length name + 3.
Proof.
  unfold header_line, LF. simpl. rewrite append_length. simpl. lia.
Qed.

Lemma get_at_app pre s : String.get (String.length pre) (pre ++ s) = String.get 0 s.
Proof. induction pre as [|c pre IH]; [reflexivity | exact IH]. Qed.

(** [^] holds just after a header line. *)
Lemma at_line_start_after_header name post :
  at_line_start (header_line name ++ post) (String.length (header_line name))
  = true.
Proof.
  rewrite header_line_length, header_line_app.
  replace (String.length name + 3) with (S (S (String.length name + 1)))
    by lia.
  unfold at_line_start.
  assert (Hget : String.get (S (String.length name + 1))
                   (String "[" (name ++ String "]" (String "010" post)))
                 = Some "010"%char).
  { apply get_drop. exists post.
    change (drop (S (String.length name + 1))
              (String "[" (name ++ String "]" (String "010" post))))
      with (drop (String.length name + 1)
              (name ++ String "]" (String "010" post))).
    rewrite drop_past. reflexivity. }
  now rewrite Hget.
Qed.

(** [_header_re] on a header line that is followed by a text which does not
    begin with a line terminator, wherever [^] holds. *)
Lemma header_re_at pre name post :
  at_line_start (pre ++ header_line name ++ post) (String.length pre) = true ->
  is_name name = true ->
  no_leading_newline post ->
  _header_re (pre ++ header_line name ++ post) (String.length pre)
  = Some (Match name (String.length pre + String.length name + 3)).
Proof.
  intros Hstart Hname Hpost. unfold _header_re. rewrite Hstart, drop_app.
  rewrite header_line_app. rewrite Ascii.eqb_refl.
  assert (Hall : all_chars is_name_char name = true)
    by (destruct name; [discriminate | exact Hname]).
  destruct (take_while_all is_name_char name "]" (String "010" post)
              Hall eq_refl) as [-> ->].
  destruct name as [|c name]; [discriminate|].
  rewrite Ascii.eqb_refl. unfold match_eol.
  replace (String.length pre + 1 + String.length (String c name) + 1)
    with (String.length pre + (1 + (String.length (String c name) + 1)))
    by lia.
  rewrite drop_add, drop_app.
  change (drop (1 + (String.length (String c name) + 1))
            (String "[" (String c name ++ String "]" (String "010" post))))
    with (drop (String.length (String c name) + 1)
            (String c name ++ String "]" (String "010" post))).
  rewrite drop_past.
  assert (Htw : take_while is_newline (String "010" post) = String "010" ""
                /\ drop_while is_newline (String "010" post) = post).
  { destruct post as [|c' post]; [auto|]. simpl in *. now rewrite Hpost. }
  destruct Htw as [-> ->]. simpl. do 2 f_equal. lia.
Qed.

(** The run of the loop body on a header that was not read before in this
    call: whatever the parser holds, the scanner goes on after the header
    and remembers its name. *)
Lemma loop_body_on_header string fpname st mo :
  String.get (idx st) string = Some "["%char ->
  _header_re string (idx st) = Some mo ->
  set_contains (group mo) (sections_added st) = false ->
  exists st',
    loop_body string fpname st = Some (Next st')
    /\ idx st' = mo_end mo
    /\ sections_added st' = set_add (group mo) (sections_added st).
Proof.
  intros Hget Hmo Hnew. unfold loop_body.
  rewrite Hget, Ascii.eqb_refl, Hmo, Hnew.
  destruct (String.eqb (group mo) (str_val (default_section (self_ st))));
    [|destruct (dict_contains String.eqb (group mo) (_sections (self_ st)))];
    eexists; repeat split.
Qed.

Lemma append_nil_r (s : string) : s ++ "" = s.
Proof. induction s as [|c s IH]; simpl; [reflexivity | now rewrite IH]. Qed.

(** A text that is one header line is read without error by every parser,
    whether the section is new, stored, or the default one. *)
Lemma read_string_header_line self name fpname :
  is_name name = true ->
  exists self',
    read_string self (header_line name) fpname = Some (self', Return tt).
Proof.
  intros Hname.
  pose proof (header_re_at "" name "" eq_refl Hname I) as Hmo.
  rewrite append_nil_r in Hmo. simpl in Hmo.
  destruct (loop_body_on_header (header_line name) fpname (scan_start self)
              _ eq_refl Hmo eq_refl) as (st' & Hbody & Hidx & _).
  exists (self_ st'). apply read_string_returns_at.
  - eapply scans_next; [|exact Hbody|apply scans_here].
    rewrite header_line_length. simpl. lia.
  - rewrite Hidx, header_line_length. simpl. lia.
Qed.

(** The check for a repeated header looks at the headers of the current
    call only.  A text with the same header twice raises
    [DuplicateSectionError] in every parser, for every name; the same header
    in two texts read one after the other is accepted both times, also when
    the section is the default one or was stored before. *)
Theorem duplicate_header_is_per_call
  (self : t) (name : string) (fpname : Datatypes.option String.string) :
  is_name name = true ->
  (exists self',
     read_string self (header_line name ++ header_line name) fpname
     = Some (self',
             Raise (Exc DuplicateSectionError
                      ("Section " ++ repr name ++ " already declared"))))
  /\ (exists self1 self2,
        read_string self (header_line name) fpname = Some (self1, Return tt)
        /\ read_string self1 (header_line name) fpname
           = Some (self2, Return tt)).
Proof.
  intros Hname. split.
  - pose proof (header_re_at "" name (header_line name) eq_refl Hname eq_refl)
      as Hmo1.
    simpl in Hmo1.
    destruct (loop_body_on_header (header_line name ++ header_line name)
                fpname (scan_start self) _ eq_refl Hmo1 eq_refl)
      as (st1 & Hbody & Hidx & Hadded).
    simpl in Hidx, Hadded.
    assert (Hidx' : idx st1 = String.length (header_line name))
      by (rewrite header_line_length; exact Hidx).
    pose proof (header_re_at (header_line name) name ""
                  (at_line_start_after_header name _) Hname I) as Hmo2.
    rewrite append_nil_r in Hmo2. rewrite <- Hidx' in Hmo2.
    exists (self_ st1).
    apply (repeated_header_raises_DuplicateSectionError
             self _ fpname st1
             (Match name (idx st1 + String.length name + 3))).
    + eapply scans_next; [|exact Hbody|apply scans_here].
      rewrite append_length, header_line_length. simpl. lia.
    + rewrite Hidx', get_at_app. reflexivity.
    + exact Hmo2.
    + rewrite Hadded. simpl. now rewrite String.eqb_refl.
  - destruct (read_string_header_line self name fpname Hname) as [self1 H1].
    destruct (read_string_header_line self1 name fpname Hname) as [self2 H2].
    eauto.
Qed.

Lemma duplicate_header_is_per_call_witness :
  (exists self',
     read_string (fst (add_section fresh (Str 7 "s")))
       ("[s]" ++ LF ++ "[s]" ++ LF) None
     = Some (self',
             Raise (Exc DuplicateSectionError "Section 's' already declared")))
  /\ (exists self1 self2,
        read_string (fst (add_section fresh (Str 7 "s"))) ("[s]" ++ LF) None
        = Some (self1, Return tt)
        /\ read_string self1 ("[s]" ++ LF) None = Some (self2, Return tt)).
Proof.
  apply (duplicate_header_is_per_call
           (fst (add_section fresh (Str 7 "s"))) "s" None).
  reflexivity.
Defined.

(** ** What the patterns match *)

Lemma take_drop_while p s : s = take_while p s ++ drop_while p s.
Proof.
  induction s as [|c s IH]; simpl; [reflexivity|].
  destruct (p c); simpl; [now rewrite <- IH | reflexivity].
Qed.

Lemma take_while_all_chars p s : all_chars p (take_while p s) = true.
Proof.
  induction s as [|c s IH]; simpl; [reflexivity|].
  destruct (p c) eqn:E; simpl; [now rewrite E | reflexivity].
Qed.

Lemma drop_while_no_leading p s : no_leading p (drop_while p s).
Proof.
  induction s as [|c s IH]; simpl; [exact I|].
  destruct (p c) eqn:E; simpl; auto.
Qed.

(** The tail of the patterns spans a whole run of line terminators, which
    may be empty only at the end of the text. *)
Lemma match_eol_sound s pos e :
  match_eol s pos = Some e ->
  exists nl rest,
    drop pos s = nl ++ rest
    /\ all_chars is_newline nl = true
    /\ no_leading is_newline rest
    /\ (nl = "" -> rest = "")
    /\ e = pos + String.length nl.
Proof.
  unfold match_eol. intros H.
  exists (take_while is_newline (drop pos s)),
         (drop_while is_newline (drop pos s)).
  split; [apply take_drop_while|].
  split; [apply take_while_all_chars|].
  split; [apply drop_while_no_leading|].
  destruct (take_while is_newline (drop pos s)) as [|c nl];
    destruct (drop_while is_newline (drop pos s)) as [|c' rest];
    simpl in H; try discriminate; injection H as <-;
    split; auto; discriminate.
Qed.

(** What [_header_re] matches: at the start of a line, a name of one or
    more characters of names between brackets, then the whole run of line
    terminators that follows, a run that is empty only where the text
    ends.  The group is the name. *)
Theorem header_re_sound (s : string) (pos : nat) (mo : match_object) :
  _header_re s pos = Some mo ->
  at_line_start s pos = true
  /\ is_name (group mo) = true
  /\ exists nl rest,
       drop pos s = "[" ++ group mo ++ "]" ++ nl ++ rest
       /\ all_chars is_newline nl = true
       /\ no_leading is_newline rest
       /\ (nl = "" -> rest = "")
       /\ mo_end mo = pos + String.length (group mo) + 2 + String.length nl
       /\ drop (mo_end mo) s = rest.
Proof.
  unfold _header_re.
  destruct (at_line_start s pos); [|discriminate].
  destruct (drop pos s) as [|c r] eqn:Hr; [discriminate|].
  destruct (Ascii.eqb c "[") eqn:Hc; [|discriminate].
  apply Ascii.eqb_eq in Hc. subst c.
  pose proof (take_drop_while is_name_char r) as Hsplit.
  pose proof (take_while_all_chars is_name_char r) as Hall.
  destruct (take_while is_name_char r) as [|k0 k] eqn:Hk; [discriminate|].
  destruct (drop_while is_name_char r) as [|c' r'] eqn:Hr'; [discriminate|].
  destruct (Ascii.eqb c' "]") eqn:Hc'; [|discriminate].
  apply Ascii.eqb_eq in Hc'. subst c'.
  destruct (match_eol s (pos + 1 + String.length (String k0 k) + 1))
    as [e|] eqn:He; [|discriminate].
  intros [= <-]. cbn [group mo_end].
  split; [reflexivity|]. split; [exact Hall|].
  destruct (match_eol_sound _ _ _ He) as (nl & rest & Hd & Hnl & Hrest & Hend & ->).
  assert (Hd' : drop (pos + 1 + String.length (String k0 k) + 1) s = r').
  { replace (pos + 1 + String.length (String k0 k) + 1)
      with (pos + S (String.length (String k0 k) + 1)) by lia.
    rewrite drop_add, Hr.
    change (drop (S (String.length (String k0 k) + 1)) (String "[" r))
      with (drop (String.length (String k0 k) + 1) r).
    rewrite Hsplit. apply drop_past. }
  rewrite Hd' in Hd. subst r'.
  exists nl, rest. repeat split; auto.
  - rewrite Hsplit. reflexivity.
  - lia.
  - replace (pos + 1 + String.length (String k0 k) + 1 + String.length nl)
      with ((pos + 1 + String.length (String k0 k) + 1) + String.length nl)
      by lia.
    rewrite drop_add, Hd'. apply drop_app.
Qed.

Lemma header_re_sound_witness :
  at_line_start ("[s]" ++ LF ++ LF ++ "a = 1") 0 = true
  /\ is_name "s" = true
  /\ exists nl rest,
       drop 0 ("[s]" ++ LF ++ LF ++ "a = 1") = "[" ++ "s" ++ "]" ++ nl ++ rest
       /\ all_chars is_newline nl = true
       /\ no_leading is_newline rest
       /\ (nl = "" -> rest = "")
       /\ 5 = 0 + String.length "s" + 2 + String.length nl
       /\ drop 5 ("[s]" ++ LF ++ LF ++ "a = 1") = rest.
Proof.
  apply (header_re_sound ("[s]" ++ LF ++ LF ++ "a = 1") 0 (Match "s" 5)).
  reflexivity.
Defined.

(** What [_key_re] matches: at the start of a line, a key of one or more
    characters of names, white space, an equals sign, and all the white
    space that follows, line terminators included.  The group is the key,
    and the match ends where the value must start. *)
Theorem key_re_sound (s : string) (pos : nat) (mo : match_object) :
  _key_re s pos = Some mo ->
  at_line_start s pos = true
  /\ is_name (group mo) = true
  /\ exists ws1 ws2 rest,
       drop pos s = group mo ++ ws1 ++ "=" ++ ws2 ++ rest
       /\ all_chars is_space ws1 = true
       /\ all_chars is_space ws2 = true
       /\ no_leading is_space rest
       /\ mo_end mo
          = pos + String.length (group mo) + String.length ws1 + 1
            + String.length ws2
       /\ drop (mo_end mo) s = rest.
Proof.
  unfold _key_re.
  destruct (at_line_start s pos); [|discriminate].
  pose proof (take_drop_while is_name_char (drop pos s)) as H1.
  pose proof (take_while_all_chars is_name_char (drop pos s)) as Hall.
  pose proof (take_drop_while is_space
                (drop_while is_name_char (drop pos s))) as H2.
  pose proof (take_while_all_chars is_space
                (drop_while is_name_char (drop pos s))) as Hws1.
  destruct (take_while is_name_char (drop pos s)) as [|k0 k] eqn:Hk;
    [discriminate|].
  destruct (drop_while is_space (drop_while is_name_char (drop pos s)))
    as [|c r2] eqn:Hr2; [discriminate|].
  destruct (Ascii.eqb c "=") eqn:Hc; [|discriminate].
  apply Ascii.eqb_eq in Hc. subst c.
  intros [= <-]. cbn [group mo_end].
  split; [reflexivity|]. split; [exact Hall|].
  set (ws1 := take_while is_space (drop_while is_name_char (drop pos s))) in *.
  exists ws1, (take_while is_space r2), (drop_while is_space r2).
  assert (Hdrop : drop pos s
                  = String k0 k ++ ws1 ++ "=" ++ take_while is_space r2
                      ++ drop_while is_space r2).
  { rewrite H1 at 1. f_equal. rewrite H2 at 1. f_equal. simpl. f_equal.
    apply take_drop_while. }
  repeat split; auto.
  - apply take_while_all_chars.
  - apply drop_while_no_leading.
  - assert (Hn : forall a b d,
               pos + a + b + 1 + d = pos + (a + (b + (1 + d))))
      by (intros; lia).
    rewrite Hn, drop_add, Hdrop.
    change (S (String.length k)) with (String.length (String k0 k)).
    rewrite drop_add, drop_app, drop_add, drop_app.
    apply (drop_app (String "=" (take_while is_space r2))).
Qed.

Lemma key_re_sound_witness :
  at_line_start ("a =" ++ LF ++ " 1") 0 = true
  /\ is_name "a" = true
  /\ exists ws1 ws2 rest,
       drop 0 ("a =" ++ LF ++ " 1") = "a" ++ ws1 ++ "=" ++ ws2 ++ rest
       /\ all_chars is_space ws1 = true
       /\ all_chars is_space ws2 = true
       /\ no_leading is_space rest
       /\ 5 = 0 + String.length "a" + String.length ws1 + 1
              + String.length ws2
       /\ drop 5 ("a =" ++ LF ++ " 1") = rest.
Proof.
  apply (key_re_sound ("a =" ++ LF ++ " 1") 0 (Match "a" 5)).
  reflexivity.
Defined.

(** * read *)

Lemma read_each_app self fs l1 l2 :
  read_each self fs (l1 ++ l2)
  = match read_each self fs l1 with
    | Some (self', Return _) => read_each self' fs l2
    | other => other
    end.
Proof.
  revert self. induction l1 as [|f l1 IH]; intros self; simpl.
  - reflexivity.
  - destruct (fs f) as [content|]; [|apply IH].
    destruct (read_file self content) as [[self' [u|e]]|]; auto.
Qed.

(** [read] with one name reads that file as [read_string] reads its
    content, with no file name; when the file cannot be opened, [read]
    returns without a word and the parser is as it was. *)
Theorem read_one_name (self : t) (fs : files) (f : string) :
  (forall content,
     fs f = Some content ->
     read self fs (one_name f) = read_string self content None)
  /\ (fs f = None -> read self fs (one_name f) = Some (self, Return tt)).
Proof.
  unfold read, read_each, read_file. split.
  - intros content ->.
    destruct (read_string self content None) as [[self' [[]|e]]|];
      reflexivity.
  - intros ->. reflexivity.
Qed.

Lemma read_one_name_witness :
  let fs :=
    fun f => if String.eqb f "a.cfg" then Some ("[s]" ++ LF) else None in
  read fresh fs (one_name "a.cfg") = read_string fresh ("[s]" ++ LF) None
  /\ read fresh fs (one_name "b.cfg") = Some (fresh, Return tt).
Proof.
  intros fs. split.
  - apply (proj1 (read_one_name fresh fs "a.cfg")). reflexivity.
  - apply (proj2 (read_one_name fresh fs "b.cfg")). reflexivity.
Defined.

(** [read] with a list of names reads the files in turn, each into the
    parser that the one before left.  The names that cannot be opened have
    no effect; an error in a file ends the call, with the parser as that
    file left it, and the names after it are not read. *)
Theorem read_names_in_turn (self : t) (fs : files) (l1 l2 : list string) :
  read self fs (names (l1 ++ l2))
  = match read self fs (names l1) with
    | Some (self', Return _) => read self' fs (names l2)
    | other => other
    end
  /\ read self fs (names l1)
     = read self fs
         (names (filter (fun f => match fs f with
                                  | Some _ => true
                                  | None => false
                                  end) l1)).
Proof.
  unfold read. split; [apply read_each_app|].
  revert self. induction l1 as [|f l1 IH]; intros self; simpl; auto.
  destruct (fs f) as [content|] eqn:Hf; simpl; [|apply IH].
  rewrite Hf. destruct (read_file self content) as [[self' [u|e]]|]; auto.
Qed.

(** * Deleting a section through the mapping interface *)

(** [del parser[key]] removes a stored section, after which the parser no
    longer has it and counts one section less; for a name that is neither
    stored nor that of the default section it raises [KeyError] and the
    parser is as it was. *)
Theorem delitem_outcomes (self : t) (key : str) :
  class_invariant self ->
  (has_section self key = true ->
   exists self',
     JSONConfigParser.__delitem__ self key = (self', Return tt)
     /\ has_section self' key = false
     /\ S (JSONConfigParser.__len__ self') = JSONConfigParser.__len__ self)
  /\ (has_section self key = false ->
      py_eq key (default_section self) = false ->
      JSONConfigParser.__delitem__ self key
      = (self, Raise (Exc KeyError (str_val key)))).
Proof.
  intros Hinv. split.
  - intros Hhas. unfold JSONConfigParser.__delitem__.
    rewrite (stored_is_not_default _ _ Hinv Hhas).
    rewrite (remove_section_effect _ _ Hinv Hhas). simpl.
    destruct Hinv as (_ & Hnd & _).
    eexists. split; [reflexivity|]. split.
    + unfold has_section. simpl. now apply dict_contains_del_same.
    + unfold JSONConfigParser.__len__. simpl.
      unfold has_section in Hhas. clear - Hhas.
      induction (_sections self) as [|[k m] d IH]; [discriminate|].
      unfold dict_contains in *. simpl in *.
      destruct (String.eqb (str_val key) k); simpl; [lia|].
      specialize (IH Hhas). lia.
  - intros Hnew Hne. unfold JSONConfigParser.__delitem__, remove_section.
    unfold has_section in Hnew. now rewrite Hne, Hnew.
Qed.

Lemma delitem_outcomes_witness :
  let self := fst (add_section fresh (Str 7 "s")) in
  (exists self',
     JSONConfigParser.__delitem__ self (Str 7 "s") = (self', Return tt)
     /\ has_section self' (Str 7 "s") = false
     /\ S (JSONConfigParser.__len__ self') = JSONConfigParser.__len__ self)
  /\ JSONConfigParser.__delitem__ self (Str 9 "u")
     = (self, Raise (Exc KeyError "u")).
Proof.
  intros self.
  pose proof (delitem_outcomes self (Str 7 "s")
                (add_section_invariant fresh (Str 7 "s") fresh_invariant))
    as [H1 _].
  pose proof (delitem_outcomes self (Str 9 "u")
                (add_section_invariant fresh (Str 7 "s") fresh_invariant))
    as [_ H2].
  split; [apply H1 | apply H2]; reflexivity.
Defined.

(** * What [read_string] raises *)


Section DecoderErrors.

#[local] Arguments scanstring !s chunks.


End DecoderErrors.








(** * Assigning a section through the mapping interface *)

(** [parser[key] = value] never stores anything: it ends in the
    [NotImplementedError] of [read_dict].  By then it has emptied what the
    key names, so the assignment loses the options that were there: after
    it the default section has no option, and a stored section has only
    the options that the defaults give it.  The sections themselves stay,
    in their order; for any other key the parser is as it was. *)
Theorem setitem_raises_after_clearing
  (self : t) (key : str) (value : odict value) :
  exists self',
    JSONConfigParser.__setitem__ self key value
    = (self', Raise (Exc NotImplementedError ""))
    /\ sections self' = sections self
    /\ (py_eq key (default_section self) = true ->
        forall option, has_option self' key option = false)
    /\ (py_eq key (default_section self) = false ->
        has_section self key = true ->
        forall option,
          has_option self' key option
          = has_option self (default_section self) option)
    /\ (py_eq key (default_section self) = false ->
        has_section self key = false ->
        self' = self).
Proof.
  unfold JSONConfigParser.__setitem__, read_dict, has_section, dict_contains.
  eexists. split; [reflexivity|].
  destruct (py_eq key (default_section self)) eqn:Hdef.
  - split; [reflexivity|]. split; [|split; discriminate].
    intros _ option. unfold has_option, default_section in *. simpl.
    now rewrite Hdef, orb_true_r.
  - destruct (dict_get String.eqb (str_val key) (_sections self))
      as [m|] eqn:Hget.
    + split; [|split; [discriminate|split; [|discriminate]]].
      * unfold sections. simpl. rewrite dict_keys_set.
        unfold dict_contains. now rewrite Hget.
      * intros _ _ option. unfold has_option, default_section in *. simpl.
        rewrite Hdef, py_eq_refl, orb_true_r, orb_false_r.
        destruct (falsy key); [reflexivity|].
        rewrite dict_get_set_same.
        destruct m; simpl; unfold contains, chain, dict_mapping; simpl;
          now destruct (dict_get String.eqb option (_defaults self)).
    + split; [reflexivity|]. split; [discriminate|].
      split; [discriminate | reflexivity].
Qed.

(** * The views of the sections *)

Lemma dict_get_In {V : Type} k (v : V) (d : list (string * V)) :
  dict_get String.eqb k d = Some v -> In (k, v) d.
Proof.
  induction d as [|[k1 v1] d IH]; simpl; [discriminate|].
  destruct (String.eqb k k1) eqn:E; [|auto].
  apply String.eqb_eq in E. subst k1. intros [= ->]. now left.
Qed.

Lemma In_dict_set {V : Type} k (v : V) k0 v0 (d : list (string * V)) :
  In (k, v) (dict_set String.eqb k0 v0 d) ->
  (k = k0 /\ v = v0) \/ In (k, v) d.
Proof.
  induction d as [|[k1 v1] d IH]; simpl.
  - intros [[= <- <-]|[]]. now left.
  - destruct (String.eqb k0 k1) eqn:E; simpl.
    + apply String.eqb_eq in E. subst k1.
      intros [[= <- <-]|H]; [now left | now right; right].
    + intros [H|H]; [now right; left|].
      destruct (IH H) as [H'|H']; [now left | now right; right].
Qed.

Lemma In_dict_del {V : Type} k (v : V) k0 (d : list (string * V)) :
  In (k, v) (dict_del String.eqb k0 d) -> In (k, v) d.
Proof.
  induction d as [|[k1 v1] d IH]; simpl; auto.
  destruct (String.eqb k0 k1); simpl; [now right|].
  intros [H|H]; [now left | right; auto].
Qed.

Lemma fresh_proxies : proxies_invariant fresh.
Proof.
  split; [reflexivity|].
  intros k p [[= <- <-]|[]]. reflexivity.
Qed.

Lemma proxies_new_section self name proxy sections' :
  proxies_invariant self ->
  String.eqb name (str_val (default_section self)) = false ->
  str_val (_name proxy) = name ->
  proxies_invariant
    {| _default_section := _default_section self;
       _defaults := _defaults self;
       _sections := sections';
       _proxies := dict_set String.eqb name proxy (_proxies self) |}.
Proof.
  intros [Hdef Hall] Hne Hname. unfold proxies_invariant, default_section in *.
  simpl. split.
  - rewrite dict_get_set_other; [exact Hdef|].
    apply String.eqb_neq in Hne. congruence.
  - intros k p [[-> ->]|H]%In_dict_set; [exact Hname | now apply Hall].
Qed.

Lemma proxies_same self self' :
  _default_section self' = _default_section self ->
  _proxies self' = _proxies self ->
  proxies_invariant self -> proxies_invariant self'.
Proof.
  unfold proxies_invariant, default_section. now intros -> ->.
Qed.

Lemma add_section_proxies self section :
  proxies_invariant self -> proxies_invariant (fst (add_section self section)).
Proof.
  intros Hinv. unfold add_section.
  destruct (py_eq section (default_section self)) eqn:Hdef; [exact Hinv|].
  destruct (dict_contains String.eqb (str_val section) (_sections self));
    [exact Hinv|].
  simpl. now apply proxies_new_section.
Qed.

Lemma remove_section_proxies self section :
  class_invariant self -> proxies_invariant self ->
  proxies_invariant (fst (remove_section self section)).
Proof.
  intros Hcls Hinv. unfold remove_section.
  destruct (dict_contains String.eqb (str_val section) (_sections self))
    eqn:Hex; [|exact Hinv].
  pose proof (stored_is_not_default self section Hcls Hex) as Hne.
  unfold dict_delitem.
  destruct (dict_contains String.eqb (str_val section) (_proxies self));
    simpl; [|now apply (proxies_same self)].
  destruct Hinv as [Hdef Hall].
  unfold proxies_invariant, default_section in *. simpl. split.
  - rewrite dict_get_del_other; [exact Hdef|].
    unfold py_eq in Hne. apply String.eqb_neq in Hne. congruence.
  - intros k p H%In_dict_del. now apply Hall.
Qed.

Lemma set_proxies self section option v :
  proxies_invariant self ->
  proxies_invariant (fst (set self section option v)).
Proof.
  intros Hinv. unfold set.
  destruct (falsy section || py_eq section (default_section self));
    [now apply (proxies_same self)|].
  destruct (dict_get String.eqb (str_val section) (_sections self));
    [now apply (proxies_same self) | exact Hinv].
Qed.

Lemma cursect_setitem_proxies self cur optname optval self' :
  cursect_setitem self cur optname optval = Return self' ->
  proxies_invariant self -> proxies_invariant self'.
Proof.
  destruct cur as [| |name]; simpl; [discriminate| |].
  - intros [= <-]. now apply proxies_same.
  - destruct (dict_get String.eqb name (_sections self));
      intros [= <-]; [now apply proxies_same | auto].
Qed.

Lemma loop_body_proxies string fpname st :
  proxies_invariant (self_ st) ->
  match loop_body string fpname st with
  | Some (Next st') => proxies_invariant (self_ st')
  | Some (Raised self' _) => proxies_invariant self'
  | None => True
  end.
Proof.
  intros Hinv. unfold loop_body.
  destruct (String.get (idx st) string) as [c|]; [|exact Hinv].
  destruct (Ascii.eqb c "[").
  { destruct (_header_re string (idx st)) as [mo|]; [|exact Hinv].
    destruct (set_contains (group mo) (sections_added st)); [exact Hinv|].
    destruct (String.eqb (group mo) (str_val (default_section (self_ st))))
      eqn:Hdef; [exact Hinv|].
    destruct (dict_contains String.eqb (group mo) (_sections (self_ st)));
      [exact Hinv|].
    simpl. now apply proxies_new_section. }
  destruct (Ascii.eqb c "#" || Ascii.eqb c "010" || Ascii.eqb c "013").
  { destruct (_blank_re string (idx st)); exact Hinv. }
  destruct (_key_re string (idx st)) as [mo|]; [|exact Hinv].
  destruct (set_contains (group mo) (entries_added st)); [exact Hinv|].
  destruct (raw_decode string (mo_end mo)) as [[[optval e]|e]|];
    [|exact Hinv|exact I].
  destruct (cursect_setitem (self_ st) (cursect st) (group mo) optval)
    as [self1|e1] eqn:Hset; [|exact Hinv].
  pose proof (cursect_setitem_proxies _ _ _ _ _ Hset Hinv) as Hinv1.
  destruct (_eol_re string e); exact Hinv1.
Qed.

Lemma read_loop_proxies fuel :
  forall string fpname st self' outcome,
    proxies_invariant (self_ st) ->
    read_loop fuel string fpname st = Some (self', outcome) ->
    proxies_invariant self'.
Proof.
  induction fuel as [|fuel IH]; intros string fpname st self' outcome Hinv;
    simpl; destruct (Nat.ltb (idx st) (String.length string));
    try discriminate; try (intros [= <- _]; exact Hinv).
  pose proof (loop_body_proxies string fpname st Hinv) as Hbody.
  destruct (loop_body string fpname st) as [[st'|self1 e]|];
    [|intros [= <- _]; exact Hbody|discriminate].
  now apply IH.
Qed.

(** The methods keep the views in step with the sections: the view kept
    for the default section holds the very str object that names the
    default section, and the view kept under a name is a view of the
    section of that name.  [read_string] keeps this whether it returns or
    raises. *)
Theorem methods_keep_proxies_invariant (self : t) :
  class_invariant self ->
  proxies_invariant self ->
  (forall section, proxies_invariant (fst (add_section self section)))
  /\ (forall section, proxies_invariant (fst (remove_section self section)))
  /\ (forall section option v,
        proxies_invariant (fst (set self section option v)))
  /\ (forall string fpname self' outcome,
        read_string self string fpname = Some (self', outcome) ->
        proxies_invariant self').
Proof.
  intros Hcls Hinv. split; [|split; [|split]].
  - intros section. now apply add_section_proxies.
  - intros section. now apply remove_section_proxies.
  - intros section option v. now apply set_proxies.
  - intros string fpname self' outcome. now apply read_loop_proxies.
Qed.

Lemma methods_keep_proxies_invariant_witness :
  proxies_invariant (fst (add_section fresh (Str 7 "s")))
  /\ proxies_invariant
       (fst (remove_section (fst (add_section fresh (Str 7 "s")))
               (Str 8 "s"))).
Proof.
  split.
  - apply (proj1 (methods_keep_proxies_invariant fresh fresh_invariant
                    fresh_proxies)).
  - apply (proj1 (proj2
             (methods_keep_proxies_invariant
                (fst (add_section fresh (Str 7 "s")))
                (add_section_invariant fresh (Str 7 "s") fresh_invariant)
                (add_section_proxies fresh (Str 7 "s") fresh_proxies)))).
Defined.

(** [parser[key]] gives a view for the name of the default section and for
    each stored section, and the view is one of the section of that name;
    for any other key it raises [KeyError]. *)
Theorem getitem_outcomes (self : t) (key : str) :
  class_invariant self ->
  proxies_invariant self ->
  (py_eq key (default_section self) = true \/ has_section self key = true ->
   exists proxy,
     JSONConfigParser.__getitem__ self key = Return proxy
     /\ py_eq (_name proxy) key = true)
  /\ (py_eq key (default_section self) = false ->
      has_section self key = false ->
      JSONConfigParser.__getitem__ self key
      = Raise (Exc KeyError (str_val key))).
Proof.
  intros (_ & _ & Hprox) [Hdef Hall]. unfold JSONConfigParser.__getitem__.
  split.
  - intros Hkey.
    assert (Hcond : negb (py_eq key (default_section self))
                    && negb (has_section self key) = false).
    { destruct Hkey as [-> | ->]; [reflexivity | apply andb_false_r]. }
    rewrite Hcond.
    assert (Hget : exists proxy,
               dict_get String.eqb (str_val key) (_proxies self) = Some proxy
               /\ py_eq (_name proxy) key = true).
    { destruct (py_eq key (default_section self)) eqn:E.
      - unfold py_eq in E. apply String.eqb_eq in E. rewrite E, Hdef.
        eexists. split; [reflexivity|]. unfold py_eq. simpl.
        rewrite E. apply String.eqb_refl.
      - destruct Hkey as [H|Hhas]; [discriminate|].
        unfold has_section in Hhas. specialize (Hprox _ Hhas).
        unfold dict_contains in Hprox.
        destruct (dict_get String.eqb (str_val key) (_proxies self))
          as [p|] eqn:Hp; [|discriminate].
        exists p. split; [reflexivity|].
        unfold py_eq. rewrite (Hall _ _ (dict_get_In _ _ _ Hp)).
        apply String.eqb_refl. }
    destruct Hget as (proxy & -> & Hname). eauto.
  - intros -> ->. reflexivity.
Qed.

Lemma getitem_outcomes_witness :
  let self := fst (add_section fresh (Str 7 "s")) in
  (exists proxy,
     JSONConfigParser.__getitem__ self (Str 8 "s") = Return proxy
     /\ py_eq (_name proxy) (Str 8 "s") = true)
  /\ JSONConfigParser.__getitem__ self (Str 9 "u")
     = Raise (Exc KeyError "u").
Proof.
  intros self.
  pose proof (getitem_outcomes self (Str 8 "s")
                (add_section_invariant fresh (Str 7 "s") fresh_invariant)
                (add_section_proxies fresh (Str 7 "s") fresh_proxies))
    as [H1 _].
  pose proof (getitem_outcomes self (Str 9 "u")
                (add_section_invariant fresh (Str 7 "s") fresh_invariant)
                (add_section_proxies fresh (Str 7 "s") fresh_proxies))
    as [_ H2].
  split; [apply H1; right; reflexivity | apply H2; reflexivity].
Defined.



(** What [set] stores is what the view of the section gives:
    [parser[section][option]] returns the value, for a stored section and
    for the default section, whichever str object names it. *)
Theorem item_of_view_after_set
  (self : t) (section : str) (option : string) (v : value) (self' : t) :
  class_invariant self ->
  proxies_invariant self ->
  falsy section = false ->
  set self section option v = (self', Return tt) ->
  exists proxy,
    JSONConfigParser.__getitem__ self' section = Return proxy
    /\ SectionProxy.__getitem__ proxy self' option = Return v.
Proof.
  intros (_ & _ & Hprox) [Hdef Hall] Hfalsy. unfold set. rewrite Hfalsy.
  simpl orb.
  destruct (py_eq section (default_section self)) eqn:Hsec.
  - intros [= <-]. unfold JSONConfigParser.__getitem__, default_section in *.
    simpl. rewrite Hsec. simpl.
    pose proof Hsec as E. unfold py_eq in E. apply String.eqb_eq in E.
    rewrite E, Hdef. eexists. split; [reflexivity|].
    unfold SectionProxy.__getitem__, has_option, get, default_section.
    simpl. rewrite py_eq_refl, py_is_refl, orb_true_r. simpl.
    unfold contains, dict_mapping. now rewrite dict_get_set_same.
  - destruct (dict_get String.eqb (str_val section) (_sections self))
      as [m|] eqn:Hget; [|discriminate].
    intros [= <-].
    assert (Hhas : dict_contains String.eqb (str_val section)
                     (_sections self) = true)
      by (unfold dict_contains; now rewrite Hget).
    specialize (Hprox _ Hhas). unfold dict_contains in Hprox.
    destruct (dict_get String.eqb (str_val section) (_proxies self))
      as [p|] eqn:Hp; [|discriminate].
    pose proof (Hall _ _ (dict_get_In _ _ _ Hp)) as Hname.
    exists p. split.
    + unfold JSONConfigParser.__getitem__, has_section, default_section in *.
      simpl. rewrite dict_contains_set, String.eqb_refl, Hp. simpl.
      now rewrite andb_false_r.
    + unfold SectionProxy.__getitem__, has_option, get, falsy, py_is, py_eq,
        default_section in *.
      simpl. rewrite Hname, Hfalsy, Hsec, andb_false_r. simpl.
      rewrite dict_get_set_same. simpl.
      unfold contains. now rewrite section_mapping_setitem.
Qed.

Lemma item_of_view_after_set_witness :
  let self := fst (add_section fresh (Str 7 "s")) in
  exists proxy,
    JSONConfigParser.__getitem__
      (fst (set self (Str 8 "s") "a" (JInt 1))) (Str 8 "s") = Return proxy
    /\ SectionProxy.__getitem__ proxy
         (fst (set self (Str 8 "s") "a" (JInt 1))) "a" = Return (JInt 1).
Proof.
  intros self.
  apply (item_of_view_after_set self (Str 8 "s") "a" (JInt 1)
           (fst (set self (Str 8 "s") "a" (JInt 1)))
           (add_section_invariant fresh (Str 7 "s") fresh_invariant)
           (add_section_proxies fresh (Str 7 "s") fresh_proxies)
           eq_refl eq_refl).
Defined.

(** [del parser[section][key]] deletes nothing: it always raises and the
    parser is as it was.  For an option that the section does not have
    the exception is [KeyError]; for one that it has, the call of the
    missing [remove_option] is an [AttributeError]. *)
Theorem proxy_delitem_never_deletes
  (proxy : section_proxy) (parser : t) (key : string) :
  exists e,
    SectionProxy.__delitem__ proxy parser key = (parser, Raise e)
    /\ exc_type e
       = (if has_option parser (_name proxy) key then AttributeError
          else KeyError).
Proof.
  unfold SectionProxy.__delitem__.
  destruct (has_option parser (_name proxy) key);
    eexists; split; reflexivity.
Qed.

(** [len] and [iter] of a view never return.  The view of the default
    section asks the parser for [defaults], which it does not have; the
    view of a stored section ends in the [AttributeError] of [options]; a
    view whose section is no longer stored raises [NoSectionError]. *)
Theorem proxy_len_and_iter_raise (proxy : section_proxy) (parser : t) :
  exists e,
    SectionProxy.__len__ proxy parser = Raise e
    /\ SectionProxy.__iter__ proxy parser = Raise e
    /\ exc_type e
       = (if py_eq (_name proxy) (default_section parser) then AttributeError
          else if has_section parser (_name proxy) then AttributeError
          else NoSectionError).
Proof.
  unfold SectionProxy.__len__, SectionProxy.__iter__, SectionProxy._options,
    options.
  destruct (py_eq (_name proxy) (default_section parser)); simpl.
  - eexists. repeat split; reflexivity.
  - destruct (has_section parser (_name proxy)); simpl;
      eexists; repeat split; reflexivity.
Qed.

(** * Line ends *)

(** Only a line feed ends a line.  When the scanner, after any number of
    constructs, stands just after a carriage return, whatever follows makes
    [read_string] raise, since no pattern matches off the start of a line:
    a header raises the [TypeError] of [ParseError()], a comment or a line
    terminator raises [AttributeError] for the match that is [None], and
    anything else raises [ParseError]. *)
Theorem carriage_return_does_not_end_a_line
  (self : t) (string : string) (fpname : Datatypes.option String.string)
  (st : scan_state) (p : nat) (c : ascii) :
  scans string fpname (scan_start self) st ->
  idx st = S p ->
  String.get p string = Some "013"%char ->
  String.get (S p) string = Some c ->
  read_string self string fpname
  = Some (self_ st,
          Raise
            (if Ascii.eqb c "[" then
               Exc TypeError
                 "__init__() missing 1 required positional argument: 'message'"
             else if Ascii.eqb c "#" || is_newline c then
               Exc AttributeError "'NoneType' object has no attribute 'end'"
             else
               Exc ParseError
                 "expected section, option, comment or empty line")).
Proof.
  intros Hscans Hidx Hprev Hget.
  assert (Hline : at_line_start string (idx st) = false)
    by (rewrite Hidx; simpl; now rewrite Hprev).
  apply (read_string_raises_at _ _ _ _ _ _ Hscans).
  - rewrite Hidx. eapply get_Some_lt. exact Hget.
  - unfold loop_body, _header_re, _blank_re, _key_re.
    rewrite Hline, Hidx, Hget. unfold is_newline.
    destruct (Ascii.eqb c "["); [reflexivity|].
    destruct (Ascii.eqb c "#" || (Ascii.eqb c "010" || Ascii.eqb c "013"))
      eqn:E; rewrite <- orb_assoc, E; reflexivity.
Qed.

Lemma carriage_return_does_not_end_a_line_witness :
  exists self',
    read_string fresh ("[s]" ++ CR ++ "# note" ++ LF) None
    = Some (self',
            Raise (Exc AttributeError
                     "'NoneType' object has no attribute 'end'")).
Proof.
  pose (text := "[s]" ++ CR ++ "# note" ++ LF).
  let r := eval vm_compute in (loop_body text None (scan_start fresh)) in
  match r with
  | Some (Next ?st) =>
      assert (Hb : loop_body text None (scan_start fresh) = Some (Next st))
        by (vm_compute; reflexivity);
      exists (self_ st);
      refine (carriage_return_does_not_end_a_line fresh text None st 3
                "#"%char _ _ _ _)
  end.
  - eapply scans_next; [vm_compute; lia | exact Hb | apply scans_here].
  - reflexivity.
  - reflexivity.
  - reflexivity.
Defined.
